(** * Klarity Architect Template Factory: the helper functions of [app.py]

    A shallow embedding of [create_meta_prompt], [format_comment_string],
    [create_docx] and of the body of the "Generate Template" button handler,
    followed by the properties the specification states about them.

    Conventions.  A Python [str] is a Rocq [string]; a character stands for
    the code point of the same number (0 to 255).  A [dict] is an association
    list in insertion order.  Calls into libraries ([json.loads], the chat
    completion endpoint, the serialiser of python-docx) are taken through an
    interface and never inspected. *)

From Stdlib Require Import String Ascii List ZArith Bool Arith Lia.
From Stdlib Require Import DecimalString.
Import ListNotations.

Open Scope list_scope.
Open Scope string_scope.

Set Warnings "-register-all".

(* ================================================================= *)
(** ** Python strings *)

Module PyStr.

Definition LF : ascii := "010"%char.
Definition CR : ascii := "013"%char.
Definition star : ascii := "*"%char.
Definition amp : ascii := "&"%char.

(** One-character strings that cannot be written inside a literal. *)
Definition lf : string := String LF "".
Definition crlf : string := String CR (String LF "").
Definition dq : string := String "034"%char "".

(** [str.isspace] on one character, for code points below 256. *)
Definition isspace (c : ascii) : bool :=
  let n := nat_of_ascii c in
  (((9 <=? n) && (n <=? 13)) || ((28 <=? n) && (n <=? 32))
   || (n =? 133) || (n =? 160))%nat.

(** [s.replace(old, new)] for a non-empty [old]: occurrences are found left
    to right and do not overlap.  [skip] counts the characters of a match
    that are still to be dropped. *)
Fixpoint replace_from (old new : string) (skip : nat) (s : string) : string :=
  match s with
  | EmptyString => EmptyString
  | String c rest =>
      match skip with
      | S k => replace_from old new k rest
      | O =>
          if prefix old s
          then new ++ replace_from old new (String.length old - 1) rest
          else String c (replace_from old new 0 rest)
      end
  end.

(** With an empty [old], Python puts [new] before every character and at
    the end. *)
Fixpoint interleave (new s : string) : string :=
  match s with
  | EmptyString => new
  | String c rest => new ++ String c (interleave new rest)
  end.

Definition replace (s old new : string) : string :=
  match old with
  | EmptyString => interleave new s
  | _ => replace_from old new 0 s
  end.

(** The pieces of [s.split(sep)] for a non-empty [sep]; [cur] is the piece
    being read. *)
Fixpoint split_from (sep : string) (skip : nat) (cur s : string) : list string :=
  match s with
  | EmptyString => [cur]
  | String c rest =>
      match skip with
      | S k => split_from sep k cur rest
      | O =>
          if prefix sep s
          then cur :: split_from sep (String.length sep - 1) "" rest
          else split_from sep 0 (cur ++ String c "") rest
      end
  end.

(** [s.lstrip()], [s.rstrip()] and [s.strip()]. *)
Fixpoint lstrip (s : string) : string :=
  match s with
  | EmptyString => EmptyString
  | String c rest => if isspace c then lstrip rest else s
  end.

Fixpoint rstrip (s : string) : string :=
  match s with
  | EmptyString => EmptyString
  | String c rest =>
      match rstrip rest with
      | EmptyString => if isspace c then EmptyString else String c EmptyString
      | kept => String c kept
      end
  end.

Definition strip (s : string) : string := lstrip (rstrip s).

(** [sub in s]. *)
Fixpoint contains (sub s : string) : bool :=
  match s with
  | EmptyString => prefix sub EmptyString
  | String _ rest => prefix sub s || contains sub rest
  end.

(** [sep.join(parts)]. *)
Fixpoint join (sep : string) (parts : list string) : string :=
  match parts with
  | [] => ""
  | [p] => p
  | p :: more => p ++ sep ++ join sep more
  end.

(** The truth value of a string: empty is false. *)
Definition truthy (s : string) : bool :=
  match s with EmptyString => false | _ => true end.

(** The physical lines of a text: the pieces between line feeds. *)
Definition lines (s : string) : list string := split_from lf 0 "" s.

(** Has the character [c] an occurrence in [s]? *)
Fixpoint has_char (c : ascii) (s : string) : bool :=
  match s with
  | EmptyString => false
  | String c' rest => Ascii.eqb c c' || has_char c rest
  end.

End PyStr.

(* ================================================================= *)
(** ** Exceptions and effects *)

Module Py.

(** The exceptions the application can meet.  The two [openai] classes have
    a handler of their own; every other class is caught by the last
    [except Exception]. *)
Inductive exn : Type :=
| AuthenticationError (msg : string)
| RateLimitError (msg : string)
| AttributeError (msg : string)
| KeyError (msg : string)
| IndexError (msg : string)
| ValueError (msg : string)
| RecursionError (msg : string)
| OtherError (msg : string).

(** [str(e)]. *)
Definition exn_message (e : exn) : string :=
  match e with
  | AuthenticationError m | RateLimitError m | AttributeError m
  | KeyError m | IndexError m | ValueError m | RecursionError m
  | OtherError m => m
  end.

(** What the user and the outside world observe, in the order it happens:
    the Streamlit notices and the requests sent to the model.  The
    pictograph that opens two of the notices in the source lies outside the
    character range of the model and is left out of their text. *)
Inductive event : Type :=
| StWarning (body : string)
| StError (body : string)
| StInfo (body : string)
| StSuccess (body : string)
| StProgress (done total : nat) (text : string)
| ModelCall (prompt : string).

Inductive result (A : Type) : Type :=
| Ok (a : A)
| Raise (e : exn).
Arguments Ok {A} a.
Arguments Raise {A} e.

(** A computation: the events it emitted, and how it ended. *)
Definition M (A : Type) : Type := list event * result A.

Definition ret {A} (a : A) : M A := ([], Ok a).
Definition raise {A} (e : exn) : M A := ([], Raise e).
Definition emit (ev : event) : M unit := ([ev], Ok tt).

Definition bind {A B} (m : M A) (k : A -> M B) : M B :=
  match m with
  | (t, Ok a) => let (t', r) := k a in ((t ++ t')%list, r)
  | (t, Raise e) => (t, Raise e)
  end.

(** [try: m  except <any exception> as e: handler e]. *)
Definition try_except {A} (m : M A) (handler : exn -> M A) : M A :=
  match m with
  | (t, Ok a) => (t, Ok a)
  | (t, Raise e) => let (t', r) := handler e in ((t ++ t')%list, r)
  end.

Definition trace {A} (m : M A) : list event := fst m.
Definition outcome {A} (m : M A) : result A := snd m.

End Py.

Notation "x <- m ;; k" := (Py.bind m (fun x => k))
  (at level 61, m at next level, right associativity).
Notation "m ;;; k" := (Py.bind m (fun _ => k))
  (at level 61, right associativity).

(* ================================================================= *)
(** ** JSON values as Python objects *)

Module Json.
Import PyStr Py.

(** The objects [json.loads] builds.  A number with a fraction or an
    exponent is a [float]; it is carried by its literal. *)
Inductive value : Type :=
| JNull
| JBool (b : bool)
| JInt (z : Z)
| JFloat (literal : string)
| JStr (s : string)
| JArr (items : list value)
| JObj (members : list (string * value)).

(** [type(v).__name__]. *)
Definition type_name (v : value) : string :=
  match v with
  | JNull => "NoneType"
  | JBool _ => "bool"
  | JInt _ => "int"
  | JFloat _ => "float"
  | JStr _ => "str"
  | JArr _ => "list"
  | JObj _ => "dict"
  end.

Definition no_attribute (v : value) (attr : string) : exn :=
  AttributeError ("'" ++ type_name v ++ "' object has no attribute '" ++ attr ++ "'").

(** The value stored under [key], if any. *)
Fixpoint dict_lookup (d : list (string * value)) (key : string) : option value :=
  match d with
  | [] => None
  | (k, v) :: more => if String.eqb k key then Some v else dict_lookup more key
  end.

(** [d.get(key, default)] on the members of a dict. *)
Definition dict_get (d : list (string * value)) (key : string) (default : value)
  : value :=
  match dict_lookup d key with
  | Some v => v
  | None => default
  end.

(** [d[key] = v]: a key keeps the place of its first insertion. *)
Fixpoint dict_set (d : list (string * value)) (key : string) (v : value)
  : list (string * value) :=
  match d with
  | [] => [(key, v)]
  | (k, w) :: more =>
      if String.eqb k key then (k, v) :: more else (k, w) :: dict_set more key v
  end.

(** [data.get(key, default)] as the interpreter runs it: only a dict has
    the method. *)
Definition get (data : value) (key : string) (default : value) : M value :=
  match data with
  | JObj d => ret (dict_get d key default)
  | _ => raise (no_attribute data "get")
  end.

(** [x.replace(old, new)]: only a str has the method. *)
Definition replace (x : value) (old new : string) : M value :=
  match x with
  | JStr s => ret (JStr (PyStr.replace s old new))
  | _ => raise (no_attribute x "replace")
  end.

(** *** [repr] and [str] *)

Definition hex_digit (n : nat) : ascii :=
  ascii_of_nat (if n <? 10 then 48 + n else 87 + n)%nat.

Definition hex2 (c : ascii) : string :=
  let n := nat_of_ascii c in
  String (hex_digit (n / 16)) (String (hex_digit (n mod 16)) "").

(** [str.isprintable] on one character, for code points below 256. *)
Definition isprintable (c : ascii) : bool :=
  let n := nat_of_ascii c in
  (((32 <=? n) && (n <=? 126)) || ((161 <=? n) && negb (n =? 173)))%nat.

Definition repr_char (quote c : ascii) : string :=
  if Ascii.eqb c quote || Ascii.eqb c "\"%char then String "\"%char (String c "")
  else if Ascii.eqb c "009"%char then "\t"
  else if Ascii.eqb c LF then "\n"
  else if Ascii.eqb c CR then "\r"
  else if isprintable c then String c ""
  else "\x" ++ hex2 c.

Fixpoint repr_chars (quote : ascii) (s : string) : string :=
  match s with
  | EmptyString => EmptyString
  | String c rest => repr_char quote c ++ repr_chars quote rest
  end.

(** [repr(s)]: single quotes, unless [s] has a single quote and no double
    quote. *)
Definition repr_str (s : string) : string :=
  let quote :=
    if has_char "'"%char s && negb (has_char "034"%char s)
    then "034"%char else "'"%char in
  String quote (repr_chars quote s) ++ String quote "".

Definition str_int (z : Z) : string := NilZero.string_of_int (Z.to_int z).

Section Repr.
(** [repr] of the float a literal denotes: floating point, left to the
    interpreter. *)
Variable float_repr : string -> string.

Fixpoint repr (v : value) : string :=
  match v with
  | JNull => "None"
  | JBool true => "True"
  | JBool false => "False"
  | JInt z => str_int z
  | JFloat lit => float_repr lit
  | JStr s => repr_str s
  | JArr items => "[" ++ join ", " (map repr items) ++ "]"
  | JObj members =>
      "{" ++ join ", "
               (map (fun kv => match kv with
                               | (k, w) => repr_str k ++ ": " ++ repr w
                               end) members)
          ++ "}"
  end.

(** [str(v)], which is what an f-string field without a format spec
    shows. *)
Definition str (v : value) : string :=
  match v with
  | JStr s => s
  | _ => repr v
  end.
End Repr.

End Json.

(* ================================================================= *)
(** ** The interpreter's side of the text-to-object boundary *)

(** How [json.loads(s)] ends: with the decoded object, with
    [JSONDecodeError], or with an exception of another class (a
    [ValueError] for an integer literal longer than the interpreter
    converts, a [RecursionError] for arrays and objects nested deeper than
    its stack allows). *)
Inductive decoding : Type :=
| Decoded (data : Json.value)
| JSONDecodeError
| Raised (e : Py.exn).

Class Runtime : Type := {
  json_loads : string -> decoding;
  float_repr : string -> string
}.

(** A decoder for JSON text, written after the scanner of the [json] module,
    to run the functions on concrete replies.  It reads the text its
    character model can hold: an escape above code point 255 is refused. *)
Module JsonText.
Import PyStr Py Json.

(** What differs between the grammar of RFC 8259 and what the [json] module
    of an interpreter takes: the three constants [NaN], [Infinity] and
    [-Infinity], the longest integer literal that is converted, and the
    depth of nesting the stack leaves room for. *)
Record Dialect : Type := {
  constants : bool;
  max_str_digits : option nat;
  max_depth : option nat
}.

(** The module with the limits of a default interpreter.  The depth left
    when the call is made depends on the interpreter and on the stack
    below the call; the examples stay far from it. *)
Definition python : Dialect :=
  {| constants := true; max_str_digits := Some 4300; max_depth := Some 1000 |}.

(** The grammar alone. *)
Definition rfc8259 : Dialect :=
  {| constants := false; max_str_digits := None; max_depth := None |}.

(** How the scan of one value ends. *)
Inductive scanned : Type :=
| Scanned (v : value) (rest : string)
| Malformed
| Aborted (e : exn).

Definition decimal (n : nat) : string := NilZero.string_of_uint (Nat.to_uint n).

Definition too_many_digits (limit digits : nat) : exn :=
  ValueError ("Exceeds the limit (" ++ decimal limit
              ++ " digits) for integer string conversion: value has "
              ++ decimal digits
              ++ " digits; use sys.set_int_max_str_digits() to increase the limit").

Definition too_deep : exn :=
  RecursionError "maximum recursion depth exceeded while decoding a JSON document".

Definition is_ws (c : ascii) : bool :=
  Ascii.eqb c " "%char || Ascii.eqb c "009"%char
  || Ascii.eqb c LF || Ascii.eqb c CR.

Fixpoint skip_ws (s : string) : string :=
  match s with
  | String c rest => if is_ws c then skip_ws rest else s
  | EmptyString => s
  end.

Definition is_digit (c : ascii) : bool :=
  let n := nat_of_ascii c in ((48 <=? n) && (n <=? 57))%nat.

Fixpoint take_digits (s : string) : string * string :=
  match s with
  | String c rest =>
      if is_digit c
      then let (ds, r) := take_digits rest in (String c ds, r)
      else ("", s)
  | EmptyString => ("", s)
  end.

Fixpoint Z_of_digits (acc : Z) (ds : string) : Z :=
  match ds with
  | EmptyString => acc
  | String c rest => Z_of_digits (10 * acc + Z.of_nat (nat_of_ascii c - 48)) rest
  end.

Definition hex_value (c : ascii) : option nat :=
  let n := nat_of_ascii c in
  if ((48 <=? n) && (n <=? 57))%nat then Some (n - 48)
  else if ((65 <=? n) && (n <=? 70))%nat then Some (n - 55)
  else if ((97 <=? n) && (n <=? 102))%nat then Some (n - 87)
  else None.

Definition simple_escape (c : ascii) : option ascii :=
  if Ascii.eqb c "034"%char then Some "034"%char
  else if Ascii.eqb c "\"%char then Some "\"%char
  else if Ascii.eqb c "/"%char then Some "/"%char
  else if Ascii.eqb c "b"%char then Some "008"%char
  else if Ascii.eqb c "f"%char then Some "012"%char
  else if Ascii.eqb c "n"%char then Some LF
  else if Ascii.eqb c "r"%char then Some CR
  else if Ascii.eqb c "t"%char then Some "009"%char
  else None.

Definition cons_char (c : ascii) (r : option (string * string))
  : option (string * string) :=
  match r with
  | Some (s, rest) => Some (String c s, rest)
  | None => None
  end.

(** The text of a string after its opening quote, up to the closing one. *)
Fixpoint scan_string (s : string) : option (string * string) :=
  match s with
  | EmptyString => None
  | String c rest =>
      if Ascii.eqb c "034"%char then Some ("", rest)
      else if Ascii.eqb c "\"%char then
        match rest with
        | String e rest' =>
            match simple_escape e with
            | Some ch => cons_char ch (scan_string rest')
            | None =>
                if Ascii.eqb e "u"%char then
                  match rest' with
                  | String h1 (String h2 (String h3 (String h4 r))) =>
                      match hex_value h1, hex_value h2, hex_value h3, hex_value h4 with
                      | Some 0, Some 0, Some a, Some b =>
                          cons_char (ascii_of_nat (16 * a + b)) (scan_string r)
                      | _, _, _, _ => None
                      end
                  | _ => None
                  end
                else None
            end
        | EmptyString => None
        end
      else if (nat_of_ascii c <? 32)%nat then None
      else cons_char c (scan_string rest)
  end.

(** A dot and at least one digit. *)
Definition scan_fraction (s : string) : string * string :=
  match s with
  | String "." rest =>
      match take_digits rest with
      | (EmptyString, _) => ("", s)
      | (ds, r) => (String "." ds, r)
      end
  | _ => ("", s)
  end.

(** e or E, an optional sign and at least one digit. *)
Definition scan_exponent (s : string) : string * string :=
  match s with
  | String e rest =>
      if Ascii.eqb e "e"%char || Ascii.eqb e "E"%char then
        let (sign, rest') :=
          match rest with
          | String g r =>
              if Ascii.eqb g "+"%char || Ascii.eqb g "-"%char
              then (String g "", r) else ("", rest)
          | EmptyString => ("", rest)
          end in
        match take_digits rest' with
        | (EmptyString, _) => ("", s)
        | (ds, r) => (String e (sign ++ ds), r)
        end
      else ("", s)
  | EmptyString => ("", s)
  end.

(** Does the conversion of an integer literal of that many digits go
    through? *)
Definition converts (d : Dialect) (digits : nat) : bool :=
  match max_str_digits d with
  | Some limit => (digits <=? limit)%nat
  | None => true
  end.

(** An optional minus, then 0 or a digit string that does not start with
    0, then the optional fraction and exponent.  The literal is matched
    first and converted afterwards; only the conversion to [int] has a
    limit. *)
Definition scan_number (d : Dialect) (s : string) : scanned :=
  let (neg, s1) :=
    match s with
    | String "-" r => (true, r)
    | _ => (false, s)
    end in
  let int_part :=
    match s1 with
    | String "0" r => Some ("0", r)
    | String c _ => if is_digit c then Some (take_digits s1) else None
    | EmptyString => None
    end in
  match int_part with
  | None => Malformed
  | Some (ds, r) =>
      let (frac, r1) := scan_fraction r in
      let (expo, r2) := scan_exponent r1 in
      match frac, expo with
      | EmptyString, EmptyString =>
          if converts d (String.length ds)
          then let n := Z_of_digits 0 ds in
               Scanned (JInt (if neg then (- n)%Z else n)) r2
          else Aborted (too_many_digits
                          (match max_str_digits d with Some limit => limit | None => 0 end)
                          (String.length ds))
      | _, _ =>
          Scanned (JFloat ((if neg then "-" else "") ++ ds ++ frac ++ expo)) r2
      end
  end.

Definition scan_constant (d : Dialect) (s : string) : scanned :=
  if prefix "null" s then Scanned JNull (substring 4 (String.length s - 4) s)
  else if prefix "true" s then Scanned (JBool true) (substring 4 (String.length s - 4) s)
  else if prefix "false" s then Scanned (JBool false) (substring 5 (String.length s - 5) s)
  else if constants d && prefix "NaN" s
    then Scanned (JFloat "NaN") (substring 3 (String.length s - 3) s)
  else if constants d && prefix "Infinity" s
    then Scanned (JFloat "Infinity") (substring 8 (String.length s - 8) s)
  else if constants d && prefix "-Infinity" s
    then Scanned (JFloat "-Infinity") (substring 9 (String.length s - 9) s)
  else scan_number d s.

(** [fuel] bounds the calls; [depth] is the number of arrays and objects
    that may still be entered, one inside the other. *)
Fixpoint scan_value (d : Dialect) (fuel depth : nat) (s : string) : scanned :=
  match fuel with
  | O => Malformed
  | S fuel' =>
      match s with
      | String "034" rest =>
          match scan_string rest with
          | Some (str, r) => Scanned (JStr str) r
          | None => Malformed
          end
      | String "[" rest =>
          match depth with
          | O => Aborted too_deep
          | S depth' =>
              match skip_ws rest with
              | String "]" r => Scanned (JArr []) r
              | r => scan_items d fuel' depth' [] r
              end
          end
      | String "{" rest =>
          match depth with
          | O => Aborted too_deep
          | S depth' =>
              match skip_ws rest with
              | String "}" r => Scanned (JObj []) r
              | r => scan_members d fuel' depth' [] r
              end
          end
      | _ => scan_constant d s
      end
  end

with scan_items (d : Dialect) (fuel depth : nat) (seen : list value) (s : string)
  : scanned :=
  match fuel with
  | O => Malformed
  | S fuel' =>
      match scan_value d fuel' depth s with
      | Scanned v r =>
          match skip_ws r with
          | String "]" r' => Scanned (JArr (rev (v :: seen))) r'
          | String "," r' => scan_items d fuel' depth (v :: seen) (skip_ws r')
          | _ => Malformed
          end
      | Malformed => Malformed
      | Aborted e => Aborted e
      end
  end

with scan_members (d : Dialect) (fuel depth : nat) (seen : list (string * value))
  (s : string) : scanned :=
  match fuel with
  | O => Malformed
  | S fuel' =>
      match s with
      | String "034" rest =>
          match scan_string rest with
          | Some (key, r) =>
              match skip_ws r with
              | String ":" r1 =>
                  match scan_value d fuel' depth (skip_ws r1) with
                  | Scanned v r2 =>
                      match skip_ws r2 with
                      | String "}" r' => Scanned (JObj (dict_set seen key v)) r'
                      | String "," r' =>
                          scan_members d fuel' depth (dict_set seen key v) (skip_ws r')
                      | _ => Malformed
                      end
                  | Malformed => Malformed
                  | Aborted e => Aborted e
                  end
              | _ => Malformed
              end
          | None => Malformed
          end
      | _ => Malformed
      end
  end.

(** One value, white space around it, nothing else. *)
Definition scan (d : Dialect) (s : string) : decoding :=
  let depth :=
    match max_depth d with
    | Some n => n
    | None => String.length s
    end in
  match scan_value d (2 * String.length s + 2) depth (skip_ws s) with
  | Scanned v rest =>
      match skip_ws rest with
      | EmptyString => Decoded v
      | _ => JSONDecodeError
      end
  | Malformed => JSONDecodeError
  | Aborted e => Raised e
  end.

(** [json.loads(s)] on a [str]. *)
Definition loads (s : string) : decoding := scan python s.

(** Is the text a JSON text of RFC 8259? *)
Definition conforms (s : string) : bool :=
  match scan rfc8259 s with
  | Decoded _ => true
  | _ => false
  end.

(** [repr] of the float a literal denotes, for the three constants and for
    the short literals of the examples, which are their own [repr]. *)
Definition shown_float (literal : string) : string :=
  if String.eqb literal "NaN" then "nan"
  else if String.eqb literal "Infinity" then "inf"
  else if String.eqb literal "-Infinity" then "-inf"
  else literal.

(** The decoder above with the floats shown that way. *)
Definition reference : Runtime :=
  {| json_loads := loads; float_repr := shown_float |}.

End JsonText.

(* ================================================================= *)
(** ** [create_meta_prompt] *)

Module Prompt.
Import PyStr.

(** An entry of [st.session_state.input_files]. *)
Record InputFile : Type := {
  name : string;
  type : string;
  description : string
}.

(** The text one pass of the loop adds to [input_files_context]. *)
Definition input_file_line (input_file : InputFile) : string :=
  "- **" ++ name input_file ++ "** (" ++ type input_file ++ "): "
  ++ description input_file ++ lf.

Definition input_files_context (input_files : list InputFile) : string :=
  match input_files with
  | [] => ""
  | _ =>
      fold_left (fun context input_file => context ++ input_file_line input_file)
                input_files ("**Available Input Files:**" ++ lf)
  end.

(** The fixed text of the f-string, cut at its replacement fields. *)
Definition prompt_text_0 : string :=
  String.concat "" [
    lf;
    "    You are an AI assistant specialized in creating configuration ";
    "prompts for a tool called Klarity Architect."; lf;
    "    Your task is to generate the configuration for a single section ";
    "of a template."; lf;
    lf;
    "    **Master Template Context:**"; lf;
    "    ---"; lf;
    "    "
  ].

Definition prompt_text_1 : string :=
  String.concat "" [
    lf;
    "    ---"; lf;
    lf;
    "    "
  ].

Definition prompt_text_2 : string :=
  String.concat "" [
    lf;
    lf;
    "    **Section Details to Configure:**"; lf;
    "    *   **Section Title:** "; dq
  ].

Definition prompt_text_3 : string :=
  String.concat "" [
    dq; lf;
    "    *   **Plain Language Goal:** "; dq
  ].

Definition prompt_text_4 : string :=
  String.concat "" [
    dq; lf;
    "    *   **Required Output Format:** "; dq
  ].

Definition prompt_text_5 : string :=
  String.concat "" [
    dq; lf;
    lf;
    "    **Your Instructions:**"; lf;
    "    Based on all the information above, you must generate a ";
    "detailed, expert-level prompt that a second LLM will use to extract ";
    "information from documents. This prompt MUST be self-contained and ";
    "structured with **Role**, **Context**, **Task**, and ";
    "**Instructions**. It should be highly specific and actionable."; lf;
    lf;
    "    **CRITICAL: You MUST follow this EXACT template format. Do not ";
    "deviate from the line breaks or structure:**"; lf;
    lf;
    "    TEMPLATE:"; lf;
    "    "; dq;
    "*Role:* [Your role description here]\n\n*Context:* [Your context ";
    "description here]\n\n*Task:* [Your task description ";
    "here]\n\n*Instructions:*\n\n1. [First instruction]\n2. [Second ";
    "instruction]\n3. [Third instruction]"; dq; lf;
    lf;
    "    **REQUIREMENTS:**"; lf;
    "    - Use *Role:*, *Context:*, *Task:*, and *Instructions:* (with ";
    "asterisks)"; lf;
    "    - You MUST use \n\n (double line breaks) between sections: ";
    "after Role, after Context, after Task"; lf;
    "    - You MUST use \n\n (double line breaks) after *Instructions:* ";
    "and before the first numbered item"; lf;
    "    - Use \n (single line break) for bullet points within ";
    "instructions"; lf;
    "    - Number the instructions with 1., 2., 3., etc."; lf;
    "    - Use bullet points (*) for sub-items within instructions"; lf;
    "    - Consider the available input files when crafting the Context ";
    "and Instructions sections"; lf;
    lf;
    "    In addition to the main prompt, determine the best 'sub_type' ";
    "for the '"
  ].

Definition prompt_text_6 : string :=
  String.concat "" [
    "'."; lf;
    "    *   If format is 'Text', the sub_type must be 'freeform' or ";
    "'bulleted'."; lf;
    "    *   If format is 'Table', the sub_type must be 'default'."; lf;
    lf;
    "    **CRITICAL OUTPUT FORMAT:**"; lf;
    "    You must respond with ONLY a single, valid JSON object. Do not ";
    "add any conversational text, explanations, or markdown formatting ";
    "like ```json. The JSON object must have these exact keys: "; dq; "type";
    dq; ", "; dq; "sub_type"; dq; ", "; dq; "prompt"; dq; ", "; dq;
    "include_screenshots"; dq; ", "; dq; "screenshot_instructions"; dq; ".";
    lf;
    lf;
    "    Example of a perfect response:"; lf;
    "    {"; lf;
    "        "; dq; "type"; dq; ": "; dq; "text"; dq; ","; lf;
    "        "; dq; "sub_type"; dq; ": "; dq; "freeform"; dq; ","; lf;
    "        "; dq; "prompt"; dq; ": "; dq;
    "*Role:* You are an expert Senior Implementation Consultant at ";
    "Tekion, specializing in large, complex dealer groups. You are ";
    "highly proficient in both legacy DMS structures (like CDK and ";
    "DealerTrack) and the advanced capabilities of Tekion's Automotive ";
    "Retail Cloud.\n\n*Context:* You are reviewing the provided ";
    "discovery call transcript(s) with a new dealership prospect. You ";
    "have already been provided with a comprehensive *Tekion Knowledge ";
    "Base* in the 'Additional Instructions', detailing all Tekion ";
    "platform features, terminology (Instances, Sites, Prefixes, BOC), ";
    "and standard configurations. You must leverage this internal ";
    "knowledge to interpret the dealer's current state and its ";
    "implications for a Tekion implementation.\n\n*Task:* Your task is ";
    "to draft the *Executive Summary & Key Implementation Themes* ";
    "section for an internal implementation blueprint document. This ";
    "section must be concise and strategic, designed for a Tekion ";
    "Engagement Manager who needs to quickly understand the core nature ";
    "of the project.\n\n*Instructions:*\n\n1. *Executive Summary:* ";
    "First, write a brief paragraph summarizing the dealership's ";
    "profile. Include:\n * The dealer group's name.\n * Their scale ";
    "(e.g., number of rooftops, brands mentioned).\n * Their current DMS ";
    "(e.g., CDK, Autosoft).\n * Their core operational and accounting ";
    "structure (e.g., centralized accounting under a BOC, single tax ID, ";
    "how they currently structure multi-brand companies).\n\n2. *Key ";
    "Implementation Themes:* After the summary, identify and articulate ";
    "the *3-4 most critical, overarching themes* for this ";
    "implementation. These are not just individual findings but the ";
    "strategic pillars that will define the project's complexity and ";
    "success. For each theme, provide a brief sentence explaining its ";
    "significance.\n\n * *Focus on Synthesis, Not Just Summary:* Do not ";
    "list every detail. Synthesize related issues into a single ";
    "strategic theme.\n * *Examples of good themes:*\n * `Complex ";
    "Company Restructuring:` if the dealer has many brands combined ";
    "under single legacy company numbers that need to be untangled into ";
    "proper Tekion Sites or Instances.\n * `Significant Process ";
    "Modernization:` if the dealer relies heavily on manual workarounds, ";
    "Excel, or outdated third-party tools (like Filebound) that will be ";
    "replaced by Tekion.\n * `Navigating Non-Standard Accounting ";
    "Workflows:` if the dealer has unique intercompany transaction ";
    "methods or treats internal entities (like a body shop) as external ";
    "vendors.\n * `Critical State-Specific Configuration:` if there are ";
    "unique tax, title, or legal requirements (like the Pennsylvania ";
    "trade-in tax issue) that demand precise setup."; dq; ","; lf;
    "        "; dq; "include_screenshots"; dq; ": "; dq; "no"; dq; ","; lf;
    "        "; dq; "screenshot_instructions"; dq; ": "; dq; "none"; dq; lf;
    "    }"; lf;
    "    "
  ].

Definition create_meta_prompt
  (master_context : string) (input_files : list InputFile)
  (section_title section_goal output_format : string) : string :=
  prompt_text_0 ++ master_context
  ++ prompt_text_1 ++ input_files_context input_files
  ++ prompt_text_2 ++ section_title
  ++ prompt_text_3 ++ section_goal
  ++ prompt_text_4 ++ output_format
  ++ prompt_text_5 ++ output_format
  ++ prompt_text_6.

(** The lines of the loop, one after the other. *)
Fixpoint file_lines (input_files : list InputFile) : string :=
  match input_files with
  | [] => ""
  | input_file :: more => input_file_line input_file ++ file_lines more
  end.

End Prompt.

(* ================================================================= *)
(** ** [format_comment_string] *)

Module Transformer.
Import PyStr Py Json.

Definition invalid_format_notice : string :=
  "AI returned an invalid format. Could not parse the comment data.".

(** The f-string that ends the function. *)
Definition comment_text `{Runtime}
  (type_ sub_type prompt_content include_screenshots screenshot_instructions : value)
  : string :=
  "type - " ++ str float_repr type_ ++ lf
  ++ "sub_type - " ++ str float_repr sub_type ++ lf
  ++ "prompt - " ++ str float_repr prompt_content ++ lf
  ++ "include_screenshots - " ++ str float_repr include_screenshots ++ lf
  ++ "screenshot_instructions - " ++ str float_repr screenshot_instructions.

Definition format_comment_string `{Runtime} (json_string : string)
  : M (option string) :=
  match json_loads json_string with
  | Decoded data =>
      prompt_content <- get data "prompt" (JStr "") ;;
      prompt_content <- replace prompt_content "**" "*" ;;
      prompt_content <- replace prompt_content crlf lf ;;
      prompt_content <- replace prompt_content lf "\n" ;;
      type_ <- get data "type" (JStr "") ;;
      sub_type <- get data "sub_type" (JStr "") ;;
      include_screenshots <- get data "include_screenshots" (JStr "no") ;;
      screenshot_instructions <- get data "screenshot_instructions" (JStr "none") ;;
      ret (Some (comment_text type_ sub_type prompt_content
                              include_screenshots screenshot_instructions))
  | JSONDecodeError =>
      emit (StError invalid_format_notice) ;;;
      ret None
  | Raised e => raise e
  end.

(** *** The shape of the result *)

(** The three replacements applied to the prompt, in the order of the
    code. *)
Definition escaped_prompt (p : string) : string :=
  PyStr.replace (PyStr.replace (PyStr.replace p "**" "*") crlf lf) lf "\n".

(** The text a field of the reply contributes: the [str] of the value
    stored under the key, or the default when the key is missing. *)
Definition field_text `{Runtime} (d : list (string * value)) (key default : string)
  : string :=
  match dict_lookup d key with
  | Some v => str float_repr v
  | None => default
  end.

(** The block for a reply whose fields show as the given texts. *)
Definition block_of `{Runtime} (d : list (string * value)) (prompt_line : string)
  : string :=
  "type - " ++ field_text d "type" "" ++ lf
  ++ "sub_type - " ++ field_text d "sub_type" "" ++ lf
  ++ "prompt - " ++ prompt_line ++ lf
  ++ "include_screenshots - " ++ field_text d "include_screenshots" "no" ++ lf
  ++ "screenshot_instructions - " ++ field_text d "screenshot_instructions" "none".

End Transformer.

(* ================================================================= *)
(** ** [create_docx] *)

Module Docx.
Import PyStr.

(** The part of a python-docx document the application touches: the
    paragraphs of the body with their runs, and the comments part.  A run
    records the ids of the comments whose range is marked on it, and the id
    of the comment whose reference mark it holds, if it holds one. *)
Record Run : Type := {
  run_text : string;
  comment_marks : list nat;
  comment_reference : option nat
}.

Record Paragraph : Type := {
  style : string;
  runs : list Run
}.

Record Comment : Type := {
  comment_id : nat;
  text : string;
  author : string;
  initials : string
}.

Record Document : Type := {
  paragraphs : list Paragraph;
  comments : list Comment
}.

(** [Document()]: the default template has an empty body and no comment. *)
Definition new_document : Document := {| paragraphs := []; comments := [] |}.

(** A paragraph object is a reference into the document: its position in
    the body.  A run object is a paragraph and a position in it. *)
Definition paragraph_ref : Type := nat.
Definition run_ref : Type := (nat * nat)%type.

Definition heading_style (level : nat) : string :=
  match level with
  | O => "Title"
  | _ => "Heading " ++ NilZero.string_of_uint (Nat.to_uint level)
  end.

(** [document.add_heading(text, level)]: a new last paragraph, with one run
    unless the text is empty. *)
Definition add_heading (document : Document) (text : string) (level : nat)
  : Document * paragraph_ref :=
  let heading :=
    {| style := heading_style level;
       runs := if truthy text
               then [{| run_text := text; comment_marks := [];
                        comment_reference := None |}]
               else [] |} in
  ({| paragraphs := (paragraphs document ++ [heading])%list;
      comments := comments document |},
   List.length (paragraphs document)).

Fixpoint update {A} (l : list A) (i : nat) (f : A -> A) : list A :=
  match l, i with
  | [], _ => []
  | x :: more, O => f x :: more
  | x :: more, S j => x :: update more j f
  end.

(** [heading.runs]. *)
Definition runs_of (document : Document) (p : paragraph_ref) : list Run :=
  match nth_error (paragraphs document) p with
  | Some paragraph => runs paragraph
  | None => []
  end.

(** [paragraph.add_run(text)]. *)
Definition add_run (document : Document) (p : paragraph_ref) (text : string)
  : Document * run_ref :=
  ({| paragraphs :=
        update (paragraphs document) p
               (fun paragraph =>
                  {| style := style paragraph;
                     runs := (runs paragraph
                              ++ [{| run_text := text; comment_marks := [];
                                     comment_reference := None |}])%list |});
      comments := comments document |},
   (p, List.length (runs_of document p))).

(** The id python-docx gives to the next comment. *)
Definition next_comment_id (cs : list Comment) : nat :=
  match cs with
  | [] => 0
  | _ => S (fold_right (fun c m => Nat.max (comment_id c) m) 0 cs)
  end.

Definition mark_run (id : nat) (ps : list Paragraph) (r : run_ref)
  : list Paragraph :=
  update ps (fst r)
         (fun paragraph =>
            {| style := style paragraph;
               runs := update (runs paragraph) (snd r)
                              (fun run =>
                                 {| run_text := run_text run;
                                    comment_marks :=
                                      (comment_marks run ++ [id])%list;
                                    comment_reference :=
                                      comment_reference run |}) |}).

(** The run python-docx puts behind the range of a comment: it has no text
    and holds the reference mark of the comment. *)
Definition reference_run (id : nat) : Run :=
  {| run_text := ""; comment_marks := []; comment_reference := Some id |}.

(** [x] put at position [i], or at the end of a shorter list. *)
Fixpoint insert_at {A} (l : list A) (i : nat) (x : A) : list A :=
  match i, l with
  | O, _ => x :: l
  | S j, y :: more => y :: insert_at more j x
  | S _, [] => [x]
  end.

(** The reference run goes right behind the run [r]. *)
Definition insert_reference (id : nat) (ps : list Paragraph) (r : run_ref)
  : list Paragraph :=
  update ps (fst r)
         (fun paragraph =>
            {| style := style paragraph;
               runs := insert_at (runs paragraph) (S (snd r)) (reference_run id) |}).

(** [document.add_comment(runs, text, author, initials)]: a new comment in
    the comments part, its range marked on the given runs, and a new run
    with its reference mark behind the last of them.  The application
    passes a single run; the empty list, which python-docx refuses, is left
    without a reference. *)
Definition add_comment (document : Document) (marked : list run_ref)
  (text author initials : string) : Document :=
  let id := next_comment_id (comments document) in
  let body := fold_left (mark_run id) marked (paragraphs document) in
  {| paragraphs :=
       match rev marked with
       | last_run :: _ => insert_reference id body last_run
       | [] => body
       end;
     comments :=
       (comments document
        ++ [{| comment_id := id; text := text;
               author := author; initials := initials |}])%list |}.

(** An entry of [processed_sections]. *)
Record ProcessedSection : Type := {
  title : string;
  comment_string : option string
}.

(** The truth value of [section.get('comment_string')]: [None] and the
    empty string are false. *)
Definition has_comment (section : ProcessedSection) : bool :=
  match comment_string section with
  | Some s => truthy s
  | None => false
  end.

Definition comment_of (section : ProcessedSection) : string :=
  match comment_string section with
  | Some s => s
  | None => ""
  end.

(** The body of the loop. *)
Definition add_section (document : Document) (section : ProcessedSection)
  : Document :=
  if has_comment section then
    let (document, heading) := add_heading document (title section) 1 in
    let (document, run) :=
      match runs_of document heading with
      | _ :: _ => (document, (heading, 0))
      | [] => add_run document heading (title section)
      end in
    add_comment document [run] (comment_of section) "System" "S"
  else
    fst (add_heading document (title section) 1).

(** The document as it stands when it is saved. *)
Definition build (processed_sections : list ProcessedSection) : Document :=
  fold_left add_section processed_sections new_document.

(** The in-memory stream: it holds the package python-docx writes for a
    document, which the model keeps as the document itself. *)
Record BytesIO : Type := {
  saved : Document;
  position : nat
}.

Definition create_docx (template_title : string)
  (processed_sections : list ProcessedSection) : BytesIO :=
  let document := build processed_sections in
  {| saved := document; position := 0 |}.

(** *** Reading a document back *)

Definition paragraph_text (p : Paragraph) : string :=
  String.concat "" (map run_text (runs p)).

Definition is_heading (p : Paragraph) : bool :=
  prefix "Heading " (style p) || String.eqb (style p) "Title".

Definition headings (document : Document) : list Paragraph :=
  filter is_heading (paragraphs document).

Definition marks_of (p : Paragraph) : list nat :=
  flat_map comment_marks (runs p).

(** The reference marks of a paragraph, in the order of its runs. *)
Definition references_of (p : Paragraph) : list nat :=
  flat_map (fun run => match comment_reference run with
                       | Some id => [id]
                       | None => []
                       end)
           (runs p).

(** The comments anchored in a paragraph. *)
Definition anchored (document : Document) (p : Paragraph) : list Comment :=
  flat_map (fun id => filter (fun c => Nat.eqb (comment_id c) id)
                             (comments document))
           (marks_of p).

(** What a reader sees of a comment. *)
Definition comment_view (c : Comment) : string * string * string :=
  (text c, author c, initials c).

(** The heading the loop leaves for an entry; [k] is the id its comment
    gets. *)
Definition heading_of (k : nat) (section : ProcessedSection) : Paragraph :=
  {| style := "Heading 1";
     runs :=
       if has_comment section
       then [{| run_text := title section; comment_marks := [k];
                comment_reference := None |};
             reference_run k]
       else if truthy (title section)
            then [{| run_text := title section; comment_marks := [];
                     comment_reference := None |}]
            else [] |}.

Definition comment_for (k : nat) (section : ProcessedSection) : Comment :=
  {| comment_id := k; text := comment_of section;
     author := "System"; initials := "S" |}.

(** The headings and the comments the loop adds for a list of entries when
    the next free comment id is [k]. *)
Fixpoint rendered_headings (k : nat) (l : list ProcessedSection) : list Paragraph :=
  match l with
  | [] => []
  | section :: more =>
      heading_of k section
      :: rendered_headings (if has_comment section then S k else k) more
  end.

Fixpoint rendered_comments (k : nat) (l : list ProcessedSection) : list Comment :=
  match l with
  | [] => []
  | section :: more =>
      if has_comment section
      then comment_for k section :: rendered_comments (S k) more
      else rendered_comments k more
  end.

(** The comments carry the ids [0], [1], ... in order. *)
Definition sequential (cs : list Comment) : Prop :=
  map comment_id cs = seq 0 (List.length cs).

End Docx.

(* ================================================================= *)
(** ** The "Generate Template" button *)

Module App.
Import PyStr Py Prompt Docx Transformer.

(** An entry of [st.session_state.sections]. *)
Record SectionSpec : Type := {
  title : string;
  format : string;
  goal : string
}.

(** [st.session_state]. *)
Record Session : Type := {
  input_files : list InputFile;
  sections : list SectionSpec;
  docx_file : option BytesIO;
  file_name : option string
}.

(** What lies outside the program: the secrets store, and the answer of
    the chat completion endpoint to the request made for section number
    [i] ([message.content], or the exception the client raises). *)
Record World : Type := {
  secret : string -> result string;
  completion : nat -> string -> result string
}.

Definition lift {A} (r : result A) : M A := ([], r).

(** [l[i]]. *)
Definition index {A} (l : list A) (i : nat) : M A :=
  match nth_error l i with
  | Some x => ret x
  | None => raise (IndexError "list index out of range")
  end.

Definition split (s sep : string) : list string := split_from sep 0 "" s.

(** [client.chat.completions.create(...)] and the reading of its content. *)
Definition chat_completion (w : World) (i : nat) (meta_prompt : string)
  : M string :=
  emit (ModelCall meta_prompt) ;;;
  lift (completion w i meta_prompt).

(** The [for] loop over the sections; [i] is the number of the section
    [enumerate] has reached and [total] the length of the whole list. *)
Fixpoint process_sections `{Runtime} (w : World) (master_context : string)
  (files : list InputFile) (total i : nat) (todo : list SectionSpec)
  (processed_sections : list ProcessedSection) : M (list ProcessedSection) :=
  match todo with
  | [] => ret processed_sections
  | section :: more =>
      let progress_text :=
        "Generating prompt for section: '" ++ title section ++ "'..." in
      emit (StProgress (i + 1) total progress_text) ;;;
      let meta_prompt :=
        create_meta_prompt master_context files
                           (title section) (goal section) (format section) in
      ai_json_response <- chat_completion w i meta_prompt ;;
      comment <- format_comment_string ai_json_response ;;
      process_sections w master_context files total (S i) more
        (processed_sections
         ++ [{| Docx.title := title section; comment_string := comment |}])%list
  end.

(** [sections[0]['title'].split('&')[0].strip()] *)
Definition template_title_of (sections : list SectionSpec) : M string :=
  first <- index sections 0 ;;
  part <- index (split (title first) "&") 0 ;;
  ret (strip part).

(** The f-string of the download name. *)
Definition file_name_of (sections : list SectionSpec) : M string :=
  stem <- template_title_of sections ;;
  ret ("Klarity_Template_" ++ replace stem " " "_" ++ ".docx").

(** The body of the [try]. *)
Definition generation `{Runtime} (w : World) (master_context : string)
  (state : Session) : M Session :=
  api_key <- lift (secret w "OPENAI_API_KEY") ;;
  emit (StProgress 0 1 "Initializing...") ;;;
  processed_sections <-
    process_sections w master_context (input_files state)
                     (List.length (sections state)) 0 (sections state) [] ;;
  emit (StSuccess "All sections processed!") ;;;
  template_title <- template_title_of (sections state) ;;
  let docx := create_docx template_title processed_sections in
  name <- file_name_of (sections state) ;;
  emit (StSuccess
          "Template generated successfully! Click the download button below to save your file.") ;;;
  ret {| input_files := input_files state; sections := sections state;
         docx_file := Some docx; file_name := Some name |}.

(** The three [except] clauses; the session is as it was before the
    [try]. *)
Definition on_exception (state : Session) (e : exn) : M Session :=
  match e with
  | AuthenticationError _ =>
      emit (StError
              "Authentication Error: Please check your OpenAI API key in the secrets.toml file.") ;;;
      ret state
  | RateLimitError _ =>
      emit (StError "Rate limit exceeded. Please wait a moment and try again.") ;;;
      ret state
  | _ =>
      emit (StError ("An error occurred: " ++ exn_message e)) ;;;
      emit (StInfo
              "Tip: Make sure your OpenAI API key is correctly set in the secrets.toml file.") ;;;
      ret state
  end.

(** [not s.strip()] *)
Definition blank (s : string) : bool := negb (truthy (strip s)).

Definition warn (state : Session) (body : string) : M Session :=
  emit (StWarning body) ;;; ret state.

(** What a click on the button runs. *)
Definition generate `{Runtime} (w : World) (master_context : string)
  (state : Session) : M Session :=
  if blank master_context then
    warn state "Please provide a Master Context before generating."
  else if match input_files state with [] => true | _ => false end then
    warn state "Please add at least one input file."
  else if existsb (fun input_file => blank (name input_file)) (input_files state) then
    warn state "Please provide names for all input files."
  else if existsb (fun input_file => blank (description input_file))
                  (input_files state) then
    warn state "Please provide descriptions for all input files."
  else if match sections state with [] => true | _ => false end then
    warn state "Please add at least one section."
  else if existsb (fun section => blank (title section)) (sections state) then
    warn state "Please provide titles for all sections."
  else if existsb (fun section => blank (goal section)) (sections state) then
    warn state "Please provide goals for all sections."
  else
    try_except (generation w master_context state) (on_exception state).

(** The requests sent to the model during a computation. *)
Definition model_calls (events : list event) : list string :=
  flat_map (fun ev => match ev with ModelCall p => [p] | _ => [] end) events.

(** The two events that open the pass of the loop over a section. *)
Definition pass_opening (master_context : string) (files : list InputFile)
  (total i : nat) (section : SectionSpec) : list event :=
  [ StProgress (i + 1) total
               ("Generating prompt for section: '" ++ title section ++ "'...");
    ModelCall (create_meta_prompt master_context files
                                  (title section) (goal section) (format section)) ].

End App.

(* ================================================================= *)
(** ** The words of the specification *)

(** Definitions that follow the specification's wording, to be compared with
    what the code computes. *)
Module Spec.
Import PyStr.

(** The text of [s] before its first [c]; all of [s] when it has none. *)
Fixpoint text_before (c : ascii) (s : string) : string :=
  match s with
  | EmptyString => EmptyString
  | String x rest => if Ascii.eqb x c then EmptyString else String x (text_before c rest)
  end.

(** [s] with every space turned into an underscore. *)
Fixpoint spaces_to_underscores (s : string) : string :=
  match s with
  | EmptyString => EmptyString
  | String x rest =>
      String (if Ascii.eqb x " "%char then "_"%char else x) (spaces_to_underscores rest)
  end.

(** [s] with every line feed turned into a backslash and an [n]. *)
Fixpoint escape_line_feeds (s : string) : string :=
  match s with
  | EmptyString => EmptyString
  | String x rest =>
      if Ascii.eqb x LF then String "\"%char (String "n"%char (escape_line_feeds rest))
      else String x (escape_line_feeds rest)
  end.

(** The number of line feeds of a text. *)
Fixpoint line_feeds (s : string) : nat :=
  match s with
  | EmptyString => 0
  | String x rest => (if Ascii.eqb x LF then 1 else 0) + line_feeds rest
  end.

(** Empty or made of white space only. *)
Fixpoint all_space (s : string) : bool :=
  match s with
  | EmptyString => true
  | String x rest => isspace x && all_space rest
  end.

(** Every required input of the form is filled in. *)
Definition complete (master_context : string) (state : App.Session) : bool :=
  negb (all_space master_context)
  && match App.input_files state with [] => false | _ => true end
  && forallb (fun f => negb (all_space (Prompt.name f))
                       && negb (all_space (Prompt.description f)))
             (App.input_files state)
  && match App.sections state with [] => false | _ => true end
  && forallb (fun section => negb (all_space (App.title section))
                             && negb (all_space (App.goal section)))
             (App.sections state).

(** Does the text open, or end, with a white-space character? *)
Definition first_is_space (s : string) : bool :=
  match s with
  | String x _ => isspace x
  | EmptyString => false
  end.

Fixpoint last_is_space (s : string) : bool :=
  match s with
  | EmptyString => false
  | String x EmptyString => isspace x
  | String _ rest => last_is_space rest
  end.

(** The text written backwards. *)
Fixpoint reversed (s : string) : string :=
  match s with
  | EmptyString => EmptyString
  | String x rest => reversed rest ++ String x EmptyString
  end.

(** [s] from its first character that is no white space on. *)
Fixpoint from_first_mark (s : string) : string :=
  match s with
  | EmptyString => EmptyString
  | String x rest => if isspace x then from_first_mark rest else s
  end.

(** [s] trimmed of surrounding white space: read backwards, from the
    first character that is no white space on; what is left read forwards
    again, from the first character that is no white space on. *)
Definition trimmed (s : string) : string :=
  from_first_mark (reversed (from_first_mark (reversed s))).

(** The download name the specification gives for a first title. *)
Definition download_name (first_title : string) : string :=
  "Klarity_Template_"
  ++ spaces_to_underscores (trimmed (text_before amp first_title))
  ++ ".docx".

(** Is the text valid JSON?  Read as the grammar of RFC 8259, on the texts
    the character model can hold. *)
Definition valid_json (s : string) : bool := JsonText.conforms s.

End Spec.

(* ================================================================= *)
(** ** Readings used in the proofs *)

Module Readings.
Import PyStr.

(** What [replace] does with a pattern of two characters, read off two
    characters at a time. *)
Fixpoint replace_pair (a b : ascii) (new s : string) : string :=
  match s with
  | EmptyString => EmptyString
  | String x rest =>
      match rest with
      | String y r =>
          if Ascii.eqb x a && Ascii.eqb y b
          then new ++ replace_pair a b new r
          else String x (replace_pair a b new rest)
      | EmptyString => String x EmptyString
      end
  end.

(** Does the text open with an asterisk? *)
Definition starts_with_star (s : string) : bool :=
  match s with
  | String x _ => Ascii.eqb x star
  | EmptyString => false
  end.

End Readings.

(* ================================================================= *)
(** ** Sample inputs *)

Module Examples.
Import PyStr Py Json Prompt Docx App.

(** A JSON string literal and a JSON object with one member whose value is
    a string. *)
Definition quoted (s : string) : string := dq ++ s ++ dq.

Definition one_member (key body : string) : string :=
  "{" ++ quoted key ++ ": " ++ quoted body ++ "}".

(** A prompt with two line breaks, written with the escapes of JSON. *)
Definition reply_two_breaks : string := one_member "prompt" "A\n\nB".

(** A complete reply whose prompt has bold markers and a CRLF. *)
Definition reply_bold : string :=
  "{" ++ quoted "type" ++ ": " ++ quoted "text" ++ ", "
  ++ quoted "sub_type" ++ ": " ++ quoted "freeform" ++ ", "
  ++ quoted "prompt" ++ ": " ++ quoted "**Role:** You are an expert.\r\n*Task:* Summarise." ++ ", "
  ++ quoted "include_screenshots" ++ ": " ++ quoted "no" ++ ", "
  ++ quoted "screenshot_instructions" ++ ": " ++ quoted "none" ++ "}".

Definition reply_three_stars : string := one_member "prompt" "***".

Definition reply_type_only : string := one_member "type" "text".

Definition reply_number_prompt : string := "{" ++ quoted "prompt" ++ ": 5}".

Definition reply_two_line_type : string := one_member "type" "a\nb".

(** An object whose type is the constant [NaN], which is no JSON text. *)
Definition reply_nan_type : string := "{" ++ quoted "type" ++ ": NaN}".

(** An integer literal one digit longer than a default interpreter
    converts, followed by a stray word. *)
Fixpoint ones (n : nat) : string :=
  match n with
  | O => ""
  | S k => String "1" (ones k)
  end.

Definition long_integer_reply : string := ones 4301 ++ " x".

(** The form as the application first shows it. *)
Definition transcript : InputFile :=
  {| name := "Discovery Call Transcript";
     type := "PDF";
     description :=
       "Meeting notes and transcript from the initial discovery call with the client, including their current system details and requirements." |}.

Definition summary : SectionSpec :=
  {| App.title := "Executive Summary & Key Themes";
     format := "Text (Freeform)";
     goal :=
       "Summarize the client's profile (name, size, current system) and list the 3-4 most important, high-level implementation themes." |}.

Definition risks : SectionSpec :=
  {| App.title := "Risks";
     format := "Table";
     goal := "List the risks the client named." |}.

Definition session (l : list SectionSpec) : Session :=
  {| input_files := [transcript]; sections := l;
     docx_file := None; file_name := None |}.

Definition context : string :=
  "This template creates a Process Definition Document.".

(** A world whose endpoint answers the request for section [i] with the
    [i]-th entry of a script. *)
Definition scripted (script : list (result string)) : World :=
  {| secret := fun _ => Ok "sk-test";
     completion := fun i _ => nth i script (Raise (OtherError "connection lost")) |}.

(** Three processed sections, the second without a comment. *)
Definition three_sections : list ProcessedSection :=
  [ {| Docx.title := "One"; comment_string := Some "type - text" |};
    {| Docx.title := "Two"; comment_string := None |};
    {| Docx.title := "Three"; comment_string := Some "type - table" |} ].

(** An entry whose comment is the empty string. *)
Definition empty_comment_entry : ProcessedSection :=
  {| Docx.title := "One"; comment_string := Some "" |}.

(** A run of three sections in which the second reply is a JSON list. *)
Definition list_reply_world : World :=
  scripted [Ok reply_bold; Ok "[1, 2]"; Ok reply_bold].

Definition three_section_session : Session := session [summary; risks; risks].

End Examples.

(* ================================================================= *)
(** ** The page: the row loops and the end of the script *)

Module Page.
Import PyStr Py Prompt Docx App.

(** The parts of the page script that are modelled: the two loops over the
    rows (lines 170 to 181 and 200 to 211) and the end of the script, from
    the button that generates to the one that downloads (lines 221 to 301).
    The statements before and between them, the [st.info] calls with an
    [icon] argument among them, are not. *)

(** The widgets of these parts that hand a value back to the script.  The
    numbered ones carry the row number of their key ([input_name_0],
    [del_3], ...). *)
Inductive widget : Type :=
| InputName (i : nat)
| InputType (i : nat)
| InputDesc (i : nat)
| DelInput (i : nat)
| SectionTitle (i : nat)
| SectionFormat (i : nat)
| SectionGoal (i : nat)
| DelSection (i : nat)
| GenerateButton.

(** What Streamlit hands back during one run: the content of a text widget
    (given the [value] argument of the call), the choice of a select box
    (given its options and its [index] argument), and whether a button was
    pressed.  The calls of these parts that only draw (the columns) hand
    nothing back and are left out. *)
Record Widgets : Type := {
  text : widget -> string -> string;
  choice : widget -> list string -> nat -> string;
  clicked : widget -> bool
}.

Definition file_types : list string := ["PDF"; "DOCX"; "XLSX"; "MP4"; "TXT"; "CSV"].

Definition formats : list string := ["Text (Freeform)"; "Text (Bulleted)"; "Table"].

(** The row the button of line 183 appends. *)
Definition blank_input_file : InputFile :=
  {| name := ""; type := "DOCX"; description := "" |}.

(** What the three widgets of a row write back into the row. *)
Definition shown_input_file (ui : Widgets) (i : nat) (input_file : InputFile)
  : InputFile :=
  {| name := text ui (InputName i) (name input_file);
     type := choice ui (InputType i) file_types 0;
     description := text ui (InputDesc i) (description input_file) |}.

Definition shown_section (ui : Widgets) (i : nat) (section : SectionSpec)
  : SectionSpec :=
  {| App.title := text ui (SectionTitle i) (App.title section);
     format := choice ui (SectionFormat i) formats 0;
     goal := text ui (SectionGoal i) (goal section) |}.

(** The loop over the rows of the input files: [shown] holds the rows
    already passed, as the widgets left them, and [todo] the rows from
    number [i] on.  A pressed delete button pops the row and calls
    [st.rerun()], which ends the run: the flag of the result. *)
Fixpoint show_input_files (ui : Widgets) (i : nat)
  (shown todo : list InputFile) : list InputFile * bool :=
  match todo with
  | [] => (shown, false)
  | input_file :: more =>
      if clicked ui (DelInput i)
      then ((shown ++ more)%list, true)
      else show_input_files ui (S i)
             (shown ++ [shown_input_file ui i input_file])%list more
  end.

Fixpoint show_sections (ui : Widgets) (i : nat)
  (shown todo : list SectionSpec) : list SectionSpec * bool :=
  match todo with
  | [] => (shown, false)
  | section :: more =>
      if clicked ui (DelSection i)
      then ((shown ++ more)%list, true)
      else show_sections ui (S i)
             (shown ++ [shown_section ui i section])%list more
  end.

(** [st.session_state.file_name] when the key is missing; the message is
    Streamlit's and is cut after the name. *)
Definition no_file_name : exn :=
  AttributeError ("st.session_state has no attribute " ++ dq ++ "file_name" ++ dq).

(** The last statement of the script. *)
Definition download_button (state : Session) : M (option (BytesIO * string)) :=
  match docx_file state with
  | Some data =>
      match file_name state with
      | Some name => ret (Some (data, name))
      | None => raise no_file_name
      end
  | None => ret None
  end.

(** The end of the script, from the button that generates to the one that
    downloads: the session state it leaves and what the download button
    offers. *)
Definition finish `{Runtime} (ui : Widgets) (w : World) (master_context : string)
  (state : Session) : M (Session * option (BytesIO * string)) :=
  state <- (if clicked ui GenerateButton
            then generate w master_context state
            else ret state) ;;
  download <- download_button state ;;
  ret (state, download).

(** *** Readings of the row loops *)

(** The rows as the widgets leave them, numbered from [i]. *)
Fixpoint shown_input_files (ui : Widgets) (i : nat) (l : list InputFile)
  : list InputFile :=
  match l with
  | [] => []
  | input_file :: more =>
      shown_input_file ui i input_file :: shown_input_files ui (S i) more
  end.

Fixpoint shown_sections (ui : Widgets) (i : nat) (l : list SectionSpec)
  : list SectionSpec :=
  match l with
  | [] => []
  | section :: more => shown_section ui i section :: shown_sections ui (S i) more
  end.

(** No button among the [n] ones from number [i] on is pressed. *)
Definition none_clicked (ui : Widgets) (button : nat -> widget) (i n : nat) : Prop :=
  forall j, i <= j < i + n -> clicked ui (button j) = false.

(** The document and its name are both there or both missing. *)
Definition paired (state : Session) : Prop :=
  docx_file state = None <-> file_name state = None.

(** The meta prompt the handler sends for a section. *)
Definition prompt_for (master_context : string) (files : list InputFile)
  (section : SectionSpec) : string :=
  create_meta_prompt master_context files
                     (App.title section) (goal section) (format section).

End Page.

(* ================================================================= *)
(** ** Vocabulary of the further properties *)

Module Views.
Import PyStr Py Json Prompt Docx App Page.

(** Is [c] the last character of [s]? *)
Fixpoint last_is (c : ascii) (s : string) : bool :=
  match s with
  | EmptyString => false
  | String x EmptyString => Ascii.eqb x c
  | String _ rest => last_is c rest
  end.

(** One input file whose description goes on with a line feed and the
    listing line of a second file. *)
Definition merged_input_file (first second : InputFile) : InputFile :=
  {| name := name first;
     type := type first;
     description :=
       description first ++ lf ++ "- **" ++ name second ++ "** ("
       ++ type second ++ "): " ++ description second |}.

(** The keys [format_comment_string] reads. *)
Definition read_keys : list string :=
  ["prompt"; "type"; "sub_type"; "include_screenshots"; "screenshot_instructions"].

(** The notices of the three [except] clauses. *)
Definition failure_notices (e : exn) : list event :=
  match e with
  | AuthenticationError _ =>
      [StError
         "Authentication Error: Please check your OpenAI API key in the secrets.toml file."]
  | RateLimitError _ =>
      [StError "Rate limit exceeded. Please wait a moment and try again."]
  | _ =>
      [StError ("An error occurred: " ++ exn_message e);
       StInfo
         "Tip: Make sure your OpenAI API key is correctly set in the secrets.toml file."]
  end.

(** A reply the transformer takes: one that does not decode, or an object
    whose prompt is a string or is missing. *)
Definition usable `{Runtime} (reply : string) : Prop :=
  json_loads reply = JSONDecodeError
  \/ exists d p, json_loads reply = Decoded (JObj d)
                 /\ dict_get d "prompt" (JStr "") = JStr p.

End Views.

(* ================================================================= *)
(** ** Further sample inputs *)

Module PageExamples.
Import PyStr Py Json Prompt Docx App Page Examples.

(** Widgets nobody has touched: a text widget hands back its [value], a
    select box the option at its [index], no button is pressed. *)
Definition untouched : Widgets :=
  {| text := fun _ value => value;
     choice := fun _ options index => nth index options "";
     clicked := fun _ => false |}.

Definition widget_eqb (a b : widget) : bool :=
  match a, b with
  | GenerateButton, GenerateButton => true
  | InputName i, InputName j | InputType i, InputType j
  | InputDesc i, InputDesc j | DelInput i, DelInput j
  | SectionTitle i, SectionTitle j | SectionFormat i, SectionFormat j
  | SectionGoal i, SectionGoal j | DelSection i, DelSection j => Nat.eqb i j
  | _, _ => false
  end.

(** The same, with one button pressed. *)
Definition pressing (button : widget) : Widgets :=
  {| text := fun _ value => value;
     choice := fun _ options index => nth index options "";
     clicked := widget_eqb button |}.

Definition second_file : InputFile :=
  {| name := "Price List"; type := "XLSX"; description := "Current prices." |}.

(** The session after the two loops over the rows [transcript],
    [blank_input_file] and [summary], nobody having touched a widget. *)
Definition with_blank_row : Session :=
  {| input_files := fst (show_input_files untouched 0 [] [transcript; blank_input_file]);
     sections := fst (show_sections untouched 0 [] [summary]);
     docx_file := None; file_name := None |}.

(** A reply with a key the transformer does not read. *)
Definition reply_with_note : string :=
  "{" ++ quoted "type" ++ ": " ++ quoted "text" ++ ", "
  ++ quoted "note" ++ ": " ++ quoted "draft" ++ "}".

Definition reply_plain : string := one_member "prompt" "*Role:* Analyst".

Definition refusing (e : exn) : World :=
  scripted [Ok reply_bold; Raise e].

Definition no_secret : World :=
  {| secret := fun _ => Raise (KeyError "'OPENAI_API_KEY'");
     completion := fun _ _ => Ok reply_bold |}.

End PageExamples.

(* ================================================================= *)
(** ** Facts about the string operations *)

Section StringFacts.
Import PyStr Spec.

Lemma append_nil_r (s : string) : s ++ "" = s.
Proof. induction s as [|c s IH]; simpl; [reflexivity | now rewrite IH]. Qed.

Lemma append_assoc (a b c : string) : (a ++ b) ++ c = a ++ (b ++ c).
Proof. induction a as [|x a IH]; simpl; [reflexivity | now rewrite IH]. Qed.

Lemma prefix_nil (s : string) : prefix "" s = true.
Proof. destruct s; reflexivity. Qed.

Lemma prefix_append (a b : string) : prefix a (a ++ b) = true.
Proof.
  induction a as [|c a IH]; simpl.
  - apply prefix_nil.
  - destruct (ascii_dec c c); [exact IH | contradiction].
Qed.

Lemma prefix_append_more (sub s b : string) :
  prefix sub s = true -> prefix sub (s ++ b) = true.
Proof.
  revert s. induction sub as [|c sub IH]; intros s H.
  - apply prefix_nil.
  - destruct s as [|x s]; simpl in *; [discriminate|].
    destruct (ascii_dec c x); [now apply IH | discriminate].
Qed.

Lemma contains_cons (sub : string) (x : ascii) (s : string) :
  contains sub (String x s) = prefix sub (String x s) || contains sub s.
Proof. reflexivity. Qed.

Lemma contains_of_prefix (sub s : string) :
  prefix sub s = true -> contains sub s = true.
Proof.
  destruct s as [|x s]; intros H; [exact H|].
  now rewrite contains_cons, H.
Qed.

Lemma contains_append_left (sub a s : string) :
  contains sub s = true -> contains sub (a ++ s) = true.
Proof.
  intros H. induction a as [|x a IH]; [exact H|].
  cbn [append]. rewrite contains_cons, IH. apply orb_true_r.
Qed.

Lemma contains_append_right (sub s b : string) :
  contains sub s = true -> contains sub (s ++ b) = true.
Proof.
  induction s as [|x s IH]; intros H.
  - apply contains_of_prefix. destruct sub; [apply prefix_nil | discriminate].
  - rewrite contains_cons in H. cbn [append]. rewrite contains_cons.
    apply orb_true_iff in H as [H|H].
    + change (String x (s ++ b)) with (String x s ++ b).
      now rewrite (prefix_append_more _ _ b H).
    + rewrite (IH H). apply orb_true_r.
Qed.

Lemma contains_inside (sub a b : string) : contains sub (a ++ sub ++ b) = true.
Proof.
  apply contains_append_left, contains_of_prefix, prefix_append.
Qed.

(** A string that [contains] finds is there. *)
Lemma contains_sound (sub s : string) :
  contains sub s = true -> exists a b, s = a ++ sub ++ b.
Proof.
  assert (P : forall p t, prefix p t = true -> exists b, t = p ++ b).
  { induction p as [|c p IH]; intros t H.
    - now exists t.
    - destruct t as [|x t]; simpl in H; [discriminate|].
      destruct (ascii_dec c x) as [->|]; [|discriminate].
      destruct (IH _ H) as [b ->]. now exists b. }
  induction s as [|x s IH]; intros H.
  - destruct (P _ _ H) as [b E]. now exists "", b.
  - rewrite contains_cons in H. apply orb_true_iff in H as [H|H].
    + destruct (P _ _ H) as [b E]. now exists "", b.
    + destruct (IH H) as (a & b & ->). now exists (String x a), b.
Qed.

(** [contains] decides the presence of a substring. *)
Lemma contains_iff (sub s : string) :
  contains sub s = true <-> exists a b, s = a ++ sub ++ b.
Proof.
  split; [apply contains_sound|].
  intros (a & b & ->). apply contains_inside.
Qed.

Lemma has_char_append (c : ascii) (a b : string) :
  has_char c (a ++ b) = has_char c a || has_char c b.
Proof.
  induction a as [|x a IH]; simpl; [reflexivity|].
  rewrite IH. apply orb_assoc.
Qed.

End StringFacts.

(* ================================================================= *)
(** ** [replace] on the three patterns of the transformer *)

Section ReplaceFacts.
Import PyStr Spec Readings.

Lemma string_pair_ind (P : string -> Prop) :
  P "" ->
  (forall x, P (String x "")) ->
  (forall x y r, P r -> P (String y r) -> P (String x (String y r))) ->
  forall s, P s.
Proof.
  intros H0 H1 H2 s.
  assert (B : P s /\ forall x, P (String x s)); [|exact (proj1 B)].
  induction s as [|y r [IHr IHyr]]; split; auto.
Qed.

Lemma prefix_one (c x : ascii) (s : string) :
  prefix (String c "") (String x s) = Ascii.eqb x c.
Proof.
  simpl. destruct (ascii_dec c x) as [->|D].
  - rewrite prefix_nil. symmetry. apply Ascii.eqb_refl.
  - symmetry. apply Ascii.eqb_neq. congruence.
Qed.

Lemma prefix_two (a b x y : ascii) (s : string) :
  prefix (String a (String b "")) (String x (String y s))
  = Ascii.eqb x a && Ascii.eqb y b.
Proof.
  change (prefix (String a (String b "")) (String x (String y s)))
    with (if ascii_dec a x then prefix (String b "") (String y s) else false).
  rewrite prefix_one.
  destruct (ascii_dec a x) as [->|D].
  - now rewrite Ascii.eqb_refl.
  - assert (E : Ascii.eqb x a = false) by (apply Ascii.eqb_neq; congruence).
    now rewrite E.
Qed.

Lemma replace_pair_step (a b x y : ascii) (new r : string) :
  replace_pair a b new (String x (String y r))
  = if Ascii.eqb x a && Ascii.eqb y b
    then new ++ replace_pair a b new r
    else String x (replace_pair a b new (String y r)).
Proof. reflexivity. Qed.

Lemma replace_from_step (a b x y : ascii) (new r : string) :
  replace_from (String a (String b "")) new 0 (String x (String y r))
  = if Ascii.eqb x a && Ascii.eqb y b
    then new ++ replace_from (String a (String b "")) new 0 r
    else String x (replace_from (String a (String b "")) new 0 (String y r)).
Proof.
  rewrite <- (prefix_two a b x y r). reflexivity.
Qed.

Lemma replace_from_pair (a b : ascii) (new s : string) :
  replace_from (String a (String b "")) new 0 s = replace_pair a b new s.
Proof.
  induction s as [| x | x y r IHr IHyr] using string_pair_ind.
  - reflexivity.
  - cbn [replace_from replace_pair].
    replace (prefix (String a (String b "")) (String x "")) with false;
      [reflexivity|].
    simpl. now destruct (ascii_dec a x).
  - now rewrite replace_pair_step, replace_from_step, IHr, IHyr.
Qed.

(** The second and third replacements, and the one of the file name, have
    the effect the specification words. *)
Lemma replace_line_feeds (s : string) :
  replace s lf "\n" = escape_line_feeds s.
Proof.
  unfold replace, lf. induction s as [|x s IH]; [reflexivity|].
  cbn [replace_from escape_line_feeds String.length Nat.sub].
  rewrite prefix_one, IH.
  destruct (Ascii.eqb x LF); reflexivity.
Qed.

Lemma replace_spaces (s : string) :
  replace s " " "_" = spaces_to_underscores s.
Proof.
  unfold replace. induction s as [|x s IH]; [reflexivity|].
  cbn [replace_from spaces_to_underscores String.length Nat.sub].
  rewrite prefix_one, IH.
  destruct (Ascii.eqb x " "); reflexivity.
Qed.

Lemma escape_line_feeds_clean (s : string) :
  has_char LF (escape_line_feeds s) = false.
Proof.
  induction s as [|x s IH]; [reflexivity|].
  cbn [escape_line_feeds]. destruct (Ascii.eqb x LF) eqn:E.
  - cbn [has_char]. now rewrite IH.
  - cbn [has_char]. rewrite IH, Ascii.eqb_sym, E. reflexivity.
Qed.

(** *** Runs of asterisks *)

Lemma double_star_cons (x : ascii) (s : string) :
  contains "**" (String x s)
  = Ascii.eqb x star && starts_with_star s || contains "**" s.
Proof.
  rewrite contains_cons. f_equal.
  destruct s as [|y s].
  - cbn [starts_with_star]. rewrite andb_false_r.
    cbn [prefix]. now destruct (ascii_dec "*" x).
  - change "**" with (String star (String star "")).
    now rewrite prefix_two.
Qed.

Lemma triple_star_cons (x y : ascii) (s : string) :
  contains "***" (String x (String y s))
  = Ascii.eqb x star && Ascii.eqb y star && starts_with_star s
    || contains "***" (String y s).
Proof.
  rewrite contains_cons. f_equal.
  change (prefix "***" (String x (String y s)))
    with (if ascii_dec star x
          then (if ascii_dec star y then prefix (String star "") s else false)
          else false).
  assert (R : forall c, (if ascii_dec star c then true else false) = Ascii.eqb c star).
  { intros c. destruct (ascii_dec star c) as [<-|D].
    - now rewrite Ascii.eqb_refl.
    - symmetry. apply Ascii.eqb_neq. congruence. }
  rewrite <- (R x), <- (R y).
  destruct (ascii_dec star x), (ascii_dec star y); try reflexivity.
  destruct s as [|z s]; [reflexivity|]. now rewrite prefix_one.
Qed.

Lemma triple_star_short (x : ascii) : contains "***" (String x "") = false.
Proof. cbn [contains prefix]. now destruct (ascii_dec "*" x). Qed.

(** After the first replacement a doubled asterisk is left exactly when the
    text had three asterisks in a row. *)
Lemma halve_stars (s : string) :
  contains "**" (replace_pair star star "*" s) = contains "***" s
  /\ starts_with_star (replace_pair star star "*" s) = starts_with_star s.
Proof.
  induction s as [| x | x y r [IHr Sr] [IHyr Syr]] using string_pair_ind.
  - split; reflexivity.
  - split; [|reflexivity].
    cbn [replace_pair]. rewrite double_star_cons, triple_star_short.
    cbn. now rewrite andb_false_r.
  - rewrite replace_pair_step, triple_star_cons. cbn [starts_with_star].
    destruct (Ascii.eqb x star) eqn:Ex, (Ascii.eqb y star) eqn:Ey; cbn [andb].
    + change ("*" ++ replace_pair star star "*" r)
        with (String star (replace_pair star star "*" r)).
      rewrite double_star_cons, Sr, IHr. cbn [starts_with_star].
      rewrite Ascii.eqb_refl. cbn [andb]. split; [|reflexivity].
      destruct r as [|z r].
      * now rewrite triple_star_short.
      * rewrite (triple_star_cons y z r), Ey. cbn [starts_with_star andb].
        destruct (Ascii.eqb z star); reflexivity.
    + rewrite double_star_cons, Syr, IHyr. cbn [starts_with_star].
      rewrite Ex, Ey. split; reflexivity.
    + rewrite double_star_cons, Syr, IHyr. cbn [starts_with_star].
      rewrite Ex. split; reflexivity.
    + rewrite double_star_cons, Syr, IHyr. cbn [starts_with_star].
      rewrite Ex. split; reflexivity.
Qed.

(** The normalisation of CRLF neither makes nor removes a doubled
    asterisk. *)
Lemma crlf_keeps_stars (s : string) :
  contains "**" (replace_pair CR LF lf s) = contains "**" s
  /\ starts_with_star (replace_pair CR LF lf s) = starts_with_star s.
Proof.
  induction s as [| x | x y r [IHr Sr] [IHyr Syr]] using string_pair_ind.
  - split; reflexivity.
  - split; reflexivity.
  - rewrite replace_pair_step. cbn [starts_with_star].
    destruct (Ascii.eqb x CR && Ascii.eqb y LF) eqn:E.
    + apply andb_true_iff in E as [Ex Ey].
      apply Ascii.eqb_eq in Ex, Ey. subst x y.
      change (lf ++ replace_pair CR LF lf r)
        with (String LF (replace_pair CR LF lf r)).
      rewrite !double_star_cons, IHr. split; reflexivity.
    + rewrite (double_star_cons x (String y r)), double_star_cons, Syr, IHyr.
      split; reflexivity.
Qed.

(** Nor does the escaping of the line feeds. *)
Lemma escape_keeps_stars (s : string) :
  contains "**" (escape_line_feeds s) = contains "**" s
  /\ starts_with_star (escape_line_feeds s) = starts_with_star s.
Proof.
  induction s as [|x s [IH St]]; [split; reflexivity|].
  cbn [escape_line_feeds]. destruct (Ascii.eqb x LF) eqn:E.
  - apply Ascii.eqb_eq in E. subst x.
    rewrite !double_star_cons, IH. split; reflexivity.
  - rewrite !double_star_cons, IH, St. split; reflexivity.
Qed.

End ReplaceFacts.

(* ================================================================= *)
(** ** [split] and the lines of a text *)

Section SplitFacts.
Import PyStr Spec.

Lemma split_from_one_step (c x : ascii) (cur rest : string) :
  split_from (String c "") 0 cur (String x rest)
  = if Ascii.eqb x c
    then cur :: split_from (String c "") 0 "" rest
    else split_from (String c "") 0 (cur ++ String x "") rest.
Proof.
  cbn [split_from String.length Nat.sub]. now rewrite prefix_one.
Qed.

(** The first piece of a split is the text before the separator. *)
Lemma split_first_piece (c : ascii) (s cur : string) :
  nth_error (split_from (String c "") 0 cur s) 0
  = Some (cur ++ text_before c s).
Proof.
  revert cur. induction s as [|x s IH]; intros cur.
  - cbn. now rewrite append_nil_r.
  - rewrite split_from_one_step. cbn [text_before].
    destruct (Ascii.eqb x c).
    + cbn. now rewrite append_nil_r.
    + rewrite IH, append_assoc. reflexivity.
Qed.

Lemma lines_of_one_line (s cur : string) :
  has_char LF s = false -> split_from lf 0 cur s = [cur ++ s].
Proof.
  revert cur. induction s as [|x s IH]; intros cur H.
  - cbn. now rewrite append_nil_r.
  - cbn [has_char] in H. apply orb_false_iff in H as [Hx Hs].
    unfold lf. rewrite split_from_one_step, Ascii.eqb_sym, Hx.
    fold lf. rewrite (IH _ Hs), append_assoc. reflexivity.
Qed.

Lemma lines_after_first (a rest cur : string) :
  has_char LF a = false ->
  split_from lf 0 cur (a ++ lf ++ rest) = (cur ++ a) :: lines rest.
Proof.
  unfold lines, lf. revert cur. induction a as [|x a IH]; intros cur H.
  - cbn [append].
    rewrite split_from_one_step, Ascii.eqb_refl, append_nil_r. reflexivity.
  - cbn [has_char] in H. apply orb_false_iff in H as [Hx Ha].
    cbn [append] in *. rewrite split_from_one_step, Ascii.eqb_sym, Hx.
    rewrite (IH _ Ha), append_assoc. reflexivity.
Qed.

Lemma lines_count (s cur : string) :
  List.length (split_from lf 0 cur s) = S (line_feeds s).
Proof.
  revert cur. induction s as [|x s IH]; intros cur; [reflexivity|].
  unfold lf. rewrite split_from_one_step. fold lf. cbn [line_feeds].
  destruct (Ascii.eqb x LF); cbn [List.length]; now rewrite IH.
Qed.

Lemma line_feeds_append (a b : string) :
  line_feeds (a ++ b) = line_feeds a + line_feeds b.
Proof.
  induction a as [|x a IH]; [reflexivity|].
  cbn [append line_feeds]. rewrite IH. lia.
Qed.

Lemma line_feeds_none (s : string) :
  has_char LF s = false -> line_feeds s = 0.
Proof.
  induction s as [|x s IH]; [reflexivity|].
  cbn [has_char line_feeds]. intros H. apply orb_false_iff in H as [Hx Hs].
  rewrite Ascii.eqb_sym, Hx, (IH Hs). reflexivity.
Qed.

End SplitFacts.

(* ================================================================= *)
(** ** Facts about the effects *)

Section MonadFacts.
Import Py.

Lemma bind_ret {A B} (a : A) (k : A -> M B) : Py.bind (ret a) k = k a.
Proof. unfold Py.bind, ret. now destruct (k a). Qed.

Lemma bind_emit {B} (ev : event) (k : unit -> M B) :
  Py.bind (emit ev) k = (ev :: trace (k tt), outcome (k tt)).
Proof. unfold Py.bind, emit, trace, outcome. now destruct (k tt). Qed.

Lemma bind_assoc {A B C} (m : M A) (k : A -> M B) (h : B -> M C) :
  Py.bind (Py.bind m k) h = Py.bind m (fun a => Py.bind (k a) h).
Proof.
  destruct m as [t [a|e]]; [|reflexivity].
  unfold Py.bind. destruct (k a) as [t' [b|e']]; [|reflexivity].
  destruct (h b) as [t'' r]. now rewrite app_assoc.
Qed.

Lemma bind_ext {A B} (m : M A) (k k' : A -> M B) :
  (forall a, k a = k' a) -> Py.bind m k = Py.bind m k'.
Proof.
  intros H. destruct m as [t [a|e]]; [|reflexivity].
  unfold Py.bind. now rewrite H.
Qed.

Lemma run_pair {A} (m : M A) : m = (trace m, outcome m).
Proof. now destruct m. Qed.

End MonadFacts.

(* ================================================================= *)
(** ** Facts about [format_comment_string] *)

Section TransformerFacts.
Import PyStr Py Json Transformer Spec Readings.
Context {rt : Runtime}.

Lemma str_dict_get (d : list (string * value)) (key default : string) :
  str float_repr (dict_get d key (JStr default)) = field_text d key default.
Proof. unfold dict_get, field_text. now destruct (dict_lookup d key). Qed.

(** A reply that is an object whose prompt is a string (or is missing,
    which counts as the empty string) is formatted without an error. *)
Lemma format_object (s : string) (d : list (string * value)) (p : string) :
  json_loads s = Decoded (JObj d) ->
  dict_get d "prompt" (JStr "") = JStr p ->
  format_comment_string s = ret (Some (block_of d (escaped_prompt p))).
Proof.
  intros Hs Hp. unfold format_comment_string. rewrite Hs.
  cbn [get]. rewrite bind_ret, Hp.
  repeat (cbn [get Json.replace]; rewrite bind_ret).
  unfold comment_text, block_of. rewrite !str_dict_get. reflexivity.
Qed.

(** A prompt that is not a string stops the function at the first
    [replace]. *)
Lemma format_object_bad_prompt (s : string) (d : list (string * value)) (v : value) :
  json_loads s = Decoded (JObj d) ->
  dict_get d "prompt" (JStr "") = v ->
  (forall p, v <> JStr p) ->
  format_comment_string s = raise (no_attribute v "replace").
Proof.
  intros Hs Hp Hv. unfold format_comment_string. rewrite Hs.
  cbn [get]. rewrite bind_ret, Hp.
  destruct v; try reflexivity. now elim (Hv s0).
Qed.

(** A reply that is not an object stops it at the first [get]. *)
Lemma format_not_object (s : string) (v : value) :
  json_loads s = Decoded v ->
  (forall d, v <> JObj d) ->
  format_comment_string s = raise (no_attribute v "get").
Proof.
  intros Hs Hv. unfold format_comment_string. rewrite Hs.
  destruct v; try reflexivity. now elim (Hv members).
Qed.

(** A reply that does not decode yields the notice and no comment. *)
Lemma format_undecodable (s : string) :
  json_loads s = JSONDecodeError ->
  format_comment_string s = ([StError invalid_format_notice], Ok None).
Proof.
  intros Hs. unfold format_comment_string. now rewrite Hs.
Qed.

(** An exception of [json.loads] that is not a [JSONDecodeError] passes
    through the function. *)
Lemma format_raised (s : string) (e : exn) :
  json_loads s = Raised e ->
  format_comment_string s = raise e.
Proof.
  intros Hs. unfold format_comment_string. now rewrite Hs.
Qed.

Lemma escaped_prompt_spec (p : string) :
  escaped_prompt p
  = escape_line_feeds (PyStr.replace (PyStr.replace p "**" "*") crlf lf).
Proof. apply replace_line_feeds. Qed.

Lemma escaped_prompt_one_line (p : string) :
  has_char LF (escaped_prompt p) = false.
Proof. rewrite escaped_prompt_spec. apply escape_line_feeds_clean. Qed.

Lemma escaped_prompt_stars (p : string) :
  contains "**" (escaped_prompt p) = contains "***" p.
Proof.
  rewrite escaped_prompt_spec.
  rewrite (proj1 (escape_keeps_stars _)).
  unfold PyStr.replace, crlf. rewrite !replace_from_pair.
  rewrite (proj1 (crlf_keeps_stars _)).
  apply halve_stars.
Qed.

(** The five lines of a block whose fields have no line feed. *)
Lemma block_lines (d : list (string * value)) (prompt_line : string) :
  has_char LF (field_text d "type" "") = false ->
  has_char LF (field_text d "sub_type" "") = false ->
  has_char LF prompt_line = false ->
  has_char LF (field_text d "include_screenshots" "no") = false ->
  has_char LF (field_text d "screenshot_instructions" "none") = false ->
  lines (block_of d prompt_line)
  = [ "type - " ++ field_text d "type" "";
      "sub_type - " ++ field_text d "sub_type" "";
      "prompt - " ++ prompt_line;
      "include_screenshots - " ++ field_text d "include_screenshots" "no";
      "screenshot_instructions - " ++ field_text d "screenshot_instructions" "none" ].
Proof.
  intros H1 H2 H3 H4 H5. unfold block_of.
  assert (L : forall label text rest,
             has_char LF label = false -> has_char LF text = false ->
             lines (label ++ text ++ lf ++ rest) = (label ++ text) :: lines rest).
  { intros label text rest Hl Ht. unfold lines at 1.
    rewrite <- append_assoc, lines_after_first; [reflexivity|].
    now rewrite has_char_append, Hl, Ht. }
  rewrite L by (reflexivity || assumption).
  rewrite L by (reflexivity || assumption).
  rewrite L by (reflexivity || assumption).
  rewrite L by (reflexivity || assumption).
  unfold lines. rewrite lines_of_one_line; [reflexivity|].
  rewrite has_char_append, H5. reflexivity.
Qed.

(** The number of lines of a block, whatever its fields hold. *)
Lemma block_line_count (d : list (string * value)) (prompt_line : string) :
  has_char LF prompt_line = false ->
  List.length (lines (block_of d prompt_line))
  = 5 + line_feeds (field_text d "type" "")
    + line_feeds (field_text d "sub_type" "")
    + line_feeds (field_text d "include_screenshots" "no")
    + line_feeds (field_text d "screenshot_instructions" "none").
Proof.
  intros H. unfold lines, block_of. rewrite lines_count.
  rewrite !line_feeds_append, (line_feeds_none _ H).
  change (line_feeds lf) with 1.
  change (line_feeds "type - ") with 0.
  change (line_feeds "sub_type - ") with 0.
  change (line_feeds "prompt - ") with 0.
  change (line_feeds "include_screenshots - ") with 0.
  change (line_feeds "screenshot_instructions - ") with 0.
  lia.
Qed.

End TransformerFacts.

(* ================================================================= *)
(** ** Facts about [create_docx] *)

Section DocxFacts.
Import PyStr Docx.

Lemma update_last {A} (l : list A) (x : A) (f : A -> A) :
  update (l ++ [x])%list (List.length l) f = (l ++ [f x])%list.
Proof. induction l as [|y l IH]; cbn; [reflexivity | now rewrite IH]. Qed.

Lemma nth_error_last {A} (l : list A) (x : A) :
  nth_error (l ++ [x])%list (List.length l) = Some x.
Proof. induction l as [|y l IH]; [reflexivity | exact IH]. Qed.

Lemma max_id_of_seq (cs : list Comment) (a : nat) :
  cs <> [] ->
  map comment_id cs = seq a (List.length cs) ->
  fold_right (fun c m => Nat.max (comment_id c) m) 0 cs = a + List.length cs - 1.
Proof.
  revert a. induction cs as [|c cs IH]; intros a NE H; [contradiction|].
  cbn [map List.length seq] in H. injection H as Hc Hcs.
  cbn [fold_right List.length]. destruct cs as [|c' cs].
  - cbn. lia.
  - rewrite (IH (S a)); [|discriminate|exact Hcs]. cbn [List.length]. lia.
Qed.

Lemma next_comment_id_sequential (cs : list Comment) :
  sequential cs -> next_comment_id cs = List.length cs.
Proof.
  intros H. destruct cs as [|c cs]; [reflexivity|].
  unfold next_comment_id. rewrite (max_id_of_seq _ 0); [|discriminate|exact H].
  cbn [List.length]. lia.
Qed.

Lemma sequential_snoc (cs : list Comment) (c : Comment) :
  sequential cs -> comment_id c = List.length cs -> sequential (cs ++ [c]).
Proof.
  unfold sequential. intros H E.
  rewrite map_app, length_app, seq_app, H. cbn. now rewrite E.
Qed.

(** One pass of the loop, in closed form. *)
Lemma add_section_closed (document : Document) (section : ProcessedSection) :
  sequential (comments document) ->
  let k := List.length (comments document) in
  add_section document section
  = {| paragraphs := (paragraphs document ++ [heading_of k section])%list;
       comments := (comments document
                    ++ if has_comment section then [comment_for k section] else [])%list |}.
Proof.
  intros Hseq k. unfold add_section, heading_of.
  destruct (has_comment section) eqn:Hc.
  - unfold add_heading, heading_style. cbn [Nat.to_uint].
    unfold runs_of. cbn [paragraphs]. rewrite nth_error_last. cbn [runs].
    destruct (truthy (title section)) eqn:Ht.
    + unfold add_comment. cbn [comments paragraphs fold_left rev app].
      rewrite (next_comment_id_sequential _ Hseq). fold k.
      unfold insert_reference, mark_run. cbn [fst snd].
      rewrite !update_last. reflexivity.
    + unfold add_run, add_comment. cbn [comments paragraphs fold_left rev app].
      rewrite (next_comment_id_sequential _ Hseq). fold k.
      unfold runs_of. cbn [paragraphs]. rewrite nth_error_last. cbn [runs List.length].
      rewrite update_last. unfold insert_reference, mark_run. cbn [fst snd].
      rewrite !update_last. reflexivity.
  - unfold add_heading. cbn [fst]. now rewrite app_nil_r.
Qed.

Lemma fold_add_section (l : list ProcessedSection) (document : Document) :
  sequential (comments document) ->
  let k := List.length (comments document) in
  fold_left add_section l document
  = {| paragraphs := (paragraphs document ++ rendered_headings k l)%list;
       comments := (comments document ++ rendered_comments k l)%list |}.
Proof.
  revert document. induction l as [|section more IH]; intros document Hseq k.
  - cbn. rewrite !app_nil_r. now destruct document.
  - cbn [fold_left]. rewrite (add_section_closed _ _ Hseq). fold k.
    rewrite IH; cbn [comments paragraphs].
    + cbn [rendered_headings rendered_comments].
      destruct (has_comment section).
      * rewrite length_app, <- !app_assoc. cbn [List.length app].
        fold k. now replace (k + 1) with (S k) by lia.
      * now rewrite !app_nil_r, <- app_assoc.
    + destruct (has_comment section).
      * apply sequential_snoc; [exact Hseq | reflexivity].
      * now rewrite app_nil_r.
Qed.

(** The document of [create_docx], in closed form. *)
Lemma build_closed (l : list ProcessedSection) :
  build l = {| paragraphs := rendered_headings 0 l;
               comments := rendered_comments 0 l |}.
Proof.
  unfold build. rewrite fold_add_section; reflexivity.
Qed.

End DocxFacts.

Section DocxReadBack.
Import PyStr Docx.

Lemma heading_of_text (k : nat) (section : ProcessedSection) :
  paragraph_text (heading_of k section) = title section.
Proof.
  unfold paragraph_text, heading_of. cbn [runs].
  destruct (has_comment section).
  - cbn [map run_text reference_run String.concat]. apply append_nil_r.
  - destruct (title section); reflexivity.
Qed.

Lemma rendered_headings_text (k : nat) (l : list ProcessedSection) :
  map paragraph_text (rendered_headings k l) = map title l.
Proof.
  revert k. induction l as [|section more IH]; intros k; [reflexivity|].
  cbn [rendered_headings map]. now rewrite heading_of_text, IH.
Qed.

Lemma rendered_headings_are_headings (k : nat) (l : list ProcessedSection) :
  filter is_heading (rendered_headings k l) = rendered_headings k l.
Proof.
  revert k. induction l as [|section more IH]; intros k; [reflexivity|].
  cbn [rendered_headings filter].
  replace (is_heading (heading_of k section)) with true by reflexivity.
  now rewrite IH.
Qed.

Lemma rendered_comments_ids (k : nat) (l : list ProcessedSection) :
  Forall (fun c => k <= comment_id c) (rendered_comments k l).
Proof.
  revert k. induction l as [|section more IH]; intros k; [constructor|].
  cbn [rendered_comments]. destruct (has_comment section); [|apply IH].
  constructor; [cbn; lia|].
  eapply Forall_impl; [|apply (IH (S k))]. cbn. intros c Hc. lia.
Qed.

Lemma rendered_comments_text (k : nat) (l : list ProcessedSection) :
  map comment_view (rendered_comments k l)
  = map (fun section => (comment_of section, "System", "S")) (filter has_comment l).
Proof.
  revert k. induction l as [|section more IH]; intros k; [reflexivity|].
  cbn [rendered_comments filter]. destruct (has_comment section); [|apply IH].
  cbn [map]. now rewrite IH.
Qed.

Lemma filter_no_id (k : nat) (cs : list Comment) :
  Forall (fun c => comment_id c <> k) cs ->
  filter (fun c => Nat.eqb (comment_id c) k) cs = [].
Proof.
  induction 1 as [|c cs Hc _ IH]; [reflexivity|].
  cbn [filter]. apply Nat.eqb_neq in Hc. now rewrite Hc.
Qed.

(** The comments anchored in each heading, read against the comments part
    the loop has filled. *)
Lemma anchored_rendered (body : list Paragraph) (before : list Comment)
      (k : nat) (l : list ProcessedSection) :
  Forall (fun c => comment_id c < k) before ->
  map (fun p => map comment_view
                    (anchored {| paragraphs := body;
                                 comments := (before ++ rendered_comments k l)%list |} p))
      (rendered_headings k l)
  = map (fun section =>
           if has_comment section then [(comment_of section, "System", "S")] else [])
        l.
Proof.
  revert before k. induction l as [|section more IH]; intros before k Hb;
    [reflexivity|].
  cbn [rendered_headings rendered_comments map].
  destruct (has_comment section) eqn:Hc.
  - f_equal.
    + unfold anchored, marks_of, heading_of. rewrite Hc.
      cbn [runs flat_map comment_marks comments app].
      rewrite !app_nil_r, filter_app. cbn [filter comment_for comment_id].
      rewrite Nat.eqb_refl, !filter_no_id; [reflexivity| |].
      * eapply Forall_impl; [|apply (rendered_comments_ids (S k))].
        cbn. intros c Hk. lia.
      * eapply Forall_impl; [|exact Hb]. cbn. intros c Hk. lia.
    + specialize (IH (before ++ [comment_for k section])%list (S k)).
      rewrite <- app_assoc in IH. apply IH.
      apply Forall_app. split.
      * eapply Forall_impl; [|exact Hb]. cbn. intros c Hk. lia.
      * constructor; [cbn; lia | constructor].
  - f_equal; [|now apply IH].
    unfold anchored, marks_of, heading_of. rewrite Hc. cbn [runs].
    destruct (truthy (title section)); reflexivity.
Qed.

Lemma has_comment_iff (section : ProcessedSection) :
  has_comment section = true
  <-> exists c, comment_string section = Some c /\ c <> "".
Proof.
  unfold has_comment. destruct (comment_string section) as [c|].
  - destruct c as [|x c]; cbn; split.
    + discriminate.
    + intros (c' & E & N). injection E as <-. contradiction.
    + intros _. eexists. split; [reflexivity | discriminate].
    + reflexivity.
  - split; [discriminate | intros (c & E & _); discriminate].
Qed.

End DocxReadBack.

(* ================================================================= *)
(** ** Facts about the button handler *)

Section StripFacts.
Import PyStr Spec.

Lemma all_space_rstrip (s : string) : all_space (rstrip s) = all_space s.
Proof.
  induction s as [|c s IH]; [reflexivity|].
  cbn [rstrip all_space]. destruct (rstrip s) as [|k kept].
  - rewrite <- IH. cbn [all_space]. rewrite andb_true_r.
    destruct (isspace c) eqn:E; cbn [all_space]; now rewrite ?E.
  - cbn [all_space] in *. now rewrite IH.
Qed.

Lemma truthy_lstrip (s : string) : truthy (lstrip s) = negb (all_space s).
Proof.
  induction s as [|c s IH]; [reflexivity|].
  cbn [lstrip all_space]. destruct (isspace c); [exact IH | reflexivity].
Qed.

(** [not s.strip()] holds exactly of the blank texts. *)
Lemma blank_all_space (s : string) : App.blank s = all_space s.
Proof.
  unfold App.blank, strip.
  now rewrite truthy_lstrip, negb_involutive, all_space_rstrip.
Qed.

(** *** What [strip] removes *)

Lemma rstrip_split (s : string) :
  exists r, s = rstrip s ++ r /\ all_space r = true.
Proof.
  induction s as [|c s (r & E & Hr)].
  - now exists "".
  - cbn [rstrip]. destruct (rstrip s) as [|k kept] eqn:K.
    + cbn [append] in E. subst r. destruct (isspace c) eqn:Hc.
      * exists (String c s). cbn [append all_space]. now rewrite Hc, Hr.
      * exists s. now split.
    + exists r. split; [|exact Hr]. cbn [append] in *. now f_equal.
Qed.

Lemma rstrip_last (s : string) : last_is_space (rstrip s) = false.
Proof.
  induction s as [|c s IH]; [reflexivity|].
  cbn [rstrip]. destruct (rstrip s) as [|k kept].
  - destruct (isspace c) eqn:Hc; [reflexivity | exact Hc].
  - exact IH.
Qed.

Lemma lstrip_split (s : string) :
  exists l, s = l ++ lstrip s /\ all_space l = true.
Proof.
  induction s as [|c s (l & E & Hl)].
  - now exists "".
  - cbn [lstrip]. destruct (isspace c) eqn:Hc.
    + exists (String c l). cbn [append all_space]. now rewrite Hc, Hl, <- E.
    + now exists "".
Qed.

Lemma lstrip_first (s : string) : first_is_space (lstrip s) = false.
Proof.
  induction s as [|c s IH]; [reflexivity|].
  cbn [lstrip]. destruct (isspace c) eqn:Hc; [exact IH | exact Hc].
Qed.

Lemma lstrip_last (s : string) :
  last_is_space s = false -> last_is_space (lstrip s) = false.
Proof.
  induction s as [|c s IH]; [reflexivity|].
  cbn [lstrip]. intros H. destruct (isspace c); [|exact H].
  destruct s as [|d s]; [reflexivity|]. now apply IH.
Qed.

(** [strip] takes white space off both ends, and all of it. *)
Lemma strip_trims (s : string) :
  (exists l r, s = l ++ strip s ++ r /\ all_space l = true /\ all_space r = true)
  /\ first_is_space (strip s) = false
  /\ last_is_space (strip s) = false.
Proof.
  unfold strip. split; [|split].
  - destruct (rstrip_split s) as (r & E & Hr).
    destruct (lstrip_split (rstrip s)) as (l & E' & Hl).
    exists l, r. repeat split; try assumption.
    now rewrite <- append_assoc, <- E'.
  - apply lstrip_first.
  - apply lstrip_last, rstrip_last.
Qed.

(** *** Trimming as the specification words it *)

Lemma from_first_mark_lstrip (s : string) : from_first_mark s = lstrip s.
Proof.
  induction s as [|c s IH]; [reflexivity|].
  cbn [from_first_mark lstrip]. now rewrite IH.
Qed.

Lemma reversed_append (a b : string) :
  reversed (a ++ b) = reversed b ++ reversed a.
Proof.
  induction a as [|c a IH]; cbn [append reversed].
  - now rewrite append_nil_r.
  - now rewrite IH, append_assoc.
Qed.

Lemma reversed_reversed (s : string) : reversed (reversed s) = s.
Proof.
  induction s as [|c s IH]; [reflexivity|].
  cbn [reversed]. rewrite reversed_append, IH. reflexivity.
Qed.

Lemma all_space_append (a b : string) :
  all_space (a ++ b) = all_space a && all_space b.
Proof.
  induction a as [|c a IH]; [reflexivity|].
  cbn [append all_space]. now rewrite IH, andb_assoc.
Qed.

Lemma all_space_reversed (s : string) : all_space (reversed s) = all_space s.
Proof.
  induction s as [|c s IH]; [reflexivity|].
  cbn [reversed all_space]. rewrite all_space_append, IH.
  cbn [all_space]. rewrite andb_true_r. apply andb_comm.
Qed.

Lemma last_is_space_snoc (a : string) (c : ascii) :
  last_is_space (a ++ String c "") = isspace c.
Proof.
  induction a as [|x a IH]; [reflexivity|].
  cbn [append last_is_space]. destruct (a ++ String c "") eqn:E; [|exact IH].
  destruct a; discriminate.
Qed.

Lemma last_is_space_reversed (s : string) :
  last_is_space (reversed s) = first_is_space s.
Proof.
  destruct s as [|c s]; [reflexivity|].
  cbn [reversed first_is_space]. apply last_is_space_snoc.
Qed.

Lemma rstrip_blank (r : string) : all_space r = true -> rstrip r = "".
Proof.
  induction r as [|c r IH]; [reflexivity|].
  cbn [all_space rstrip]. intros H. apply andb_true_iff in H as [Hc Hr].
  now rewrite (IH Hr), Hc.
Qed.

Lemma rstrip_append_space (t r : string) :
  all_space r = true -> rstrip (t ++ r) = rstrip t.
Proof.
  intros Hr. induction t as [|c t IH].
  - cbn [append]. now apply rstrip_blank.
  - cbn [append rstrip]. now rewrite IH.
Qed.

Lemma rstrip_fixed (t : string) : last_is_space t = false -> rstrip t = t.
Proof.
  induction t as [|c t IH]; [reflexivity|].
  intros H. cbn [rstrip]. destruct t as [|d t].
  - cbn [rstrip]. cbn [last_is_space] in H. now rewrite H.
  - rewrite (IH H). reflexivity.
Qed.

(** [rstrip] is [lstrip] on the text read backwards. *)
Lemma rstrip_reversed (s : string) :
  rstrip s = reversed (lstrip (reversed s)).
Proof.
  destruct (lstrip_split (reversed s)) as (l & E & Hl).
  assert (S : s = reversed (lstrip (reversed s)) ++ reversed l).
  { rewrite <- reversed_append, <- E. symmetry. apply reversed_reversed. }
  rewrite S at 1. rewrite rstrip_append_space by now rewrite all_space_reversed.
  apply rstrip_fixed. rewrite last_is_space_reversed. apply lstrip_first.
Qed.

(** [str.strip] trims as the specification words it. *)
Lemma strip_trimmed (s : string) : strip s = trimmed s.
Proof.
  unfold strip, trimmed.
  rewrite (rstrip_reversed s), <- (from_first_mark_lstrip (reversed s)).
  symmetry. apply from_first_mark_lstrip.
Qed.

End StripFacts.

Section HandlerFacts.
Import PyStr Py Prompt Docx Transformer App Spec.
Context {rt : Runtime}.

Lemma existsb_blank {A} (f : A -> string) (l : list A) :
  existsb (fun x => blank (f x)) l
  = negb (forallb (fun x => negb (all_space (f x))) l).
Proof.
  induction l as [|x l IH]; [reflexivity|].
  cbn [existsb forallb]. rewrite blank_all_space, IH.
  now destruct (all_space (f x)).
Qed.

Lemma forallb_and {A} (p q : A -> bool) (l : list A) :
  forallb (fun x => p x && q x) l = forallb p l && forallb q l.
Proof.
  induction l as [|x l IH]; [reflexivity|].
  cbn [forallb]. rewrite IH.
  destruct (p x), (q x), (forallb p l), (forallb q l); reflexivity.
Qed.

(** The chain of tests of the handler, against the completeness of the
    form. *)
Lemma generate_cases (w : World) (master_context : string) (state : Session) :
  if complete master_context state
  then generate w master_context state
       = try_except (generation w master_context state) (on_exception state)
  else exists body,
         generate w master_context state = ([StWarning body], Ok state).
Proof.
  unfold complete, generate, warn.
  rewrite blank_all_space, !existsb_blank, !forallb_and.
  destruct (all_space master_context); [eexists; reflexivity|].
  destruct (input_files state) as [|f fs]; [eexists; reflexivity|].
  destruct (forallb (fun x => negb (all_space (name x))) (f :: fs));
    [|eexists; reflexivity].
  destruct (forallb (fun x => negb (all_space (description x))) (f :: fs));
    [|eexists; reflexivity].
  destruct (sections state) as [|s ss]; [eexists; reflexivity|].
  destruct (forallb (fun x => negb (all_space (title x))) (s :: ss));
    [|eexists; reflexivity].
  destruct (forallb (fun x => negb (all_space (goal x))) (s :: ss));
    [|eexists; reflexivity].
  reflexivity.
Qed.

(** With every input filled in, the click runs the [try] statement. *)
Lemma generate_complete (w : World) (master_context : string) (state : Session) :
  complete master_context state = true ->
  generate w master_context state
  = try_except (generation w master_context state) (on_exception state).
Proof.
  intros H. pose proof (generate_cases w master_context state) as C.
  now rewrite H in C.
Qed.

(** With an input missing, the click gives one warning and nothing else. *)
Lemma generate_incomplete (w : World) (master_context : string) (state : Session) :
  complete master_context state = false ->
  exists body, generate w master_context state = ([StWarning body], Ok state).
Proof.
  intros H. pose proof (generate_cases w master_context state) as C.
  now rewrite H in C.
Qed.

(** One pass of the loop, by what the endpoint and the transformer do. *)
Lemma process_pass (w : World) (master_context : string) (files : list InputFile)
      (total i : nat) (section : SectionSpec) (more : list SectionSpec)
      (processed : list ProcessedSection) (reply : string) :
  completion w i (create_meta_prompt master_context files
                                       (title section) (goal section) (format section))
  = Ok reply ->
  process_sections w master_context files total i (section :: more) processed
  = match format_comment_string reply with
    | (notices, Ok comment) =>
        let rest :=
          process_sections w master_context files total (S i) more
            (processed ++ [{| Docx.title := title section;
                              comment_string := comment |}])%list in
        ((pass_opening master_context files total i section ++ notices
          ++ trace rest)%list, outcome rest)
    | (notices, Raise e) =>
        ((pass_opening master_context files total i section ++ notices)%list,
         Raise e)
    end.
Proof.
  intros Hr. cbn [process_sections]. unfold chat_completion.
  rewrite bind_emit, bind_assoc, bind_emit. cbn [trace outcome fst snd].
  rewrite Hr. unfold lift. change (@nil event, @Ok string reply) with (ret reply).
  rewrite bind_ret.
  destruct (format_comment_string reply) as [notices [comment|e]]; [|reflexivity].
  unfold Py.bind.
  destruct (process_sections w master_context files total (S i) more _) as [t r].
  reflexivity.
Qed.

(** A request the endpoint refuses ends the loop. *)
Lemma process_pass_refused (w : World) (master_context : string)
      (files : list InputFile) (total i : nat) (section : SectionSpec)
      (more : list SectionSpec) (processed : list ProcessedSection) (e : exn) :
  completion w i (create_meta_prompt master_context files
                                       (title section) (goal section) (format section))
  = Raise e ->
  process_sections w master_context files total i (section :: more) processed
  = (pass_opening master_context files total i section, Raise e).
Proof.
  intros Hr. cbn [process_sections]. unfold chat_completion.
  rewrite bind_emit, bind_assoc, bind_emit. cbn [trace outcome fst snd].
  rewrite Hr. reflexivity.
Qed.

(** The loop over a list in two parts is the loop over the first part and
    then over the second. *)
Lemma process_sections_app (w : World) (master_context : string)
      (files : list InputFile) (total : nat) (before after : list SectionSpec)
      (i : nat) (processed : list ProcessedSection) :
  process_sections w master_context files total i (before ++ after)%list processed
  = Py.bind (process_sections w master_context files total i before processed)
            (fun done =>
               process_sections w master_context files total
                                (i + List.length before) after done).
Proof.
  revert i processed. induction before as [|section more IH]; intros i processed.
  - cbn [app process_sections List.length]. rewrite bind_ret.
    now replace (i + 0) with i by lia.
  - cbn [app process_sections List.length].
    rewrite ?bind_assoc. apply bind_ext. intros _. cbv beta.
    rewrite ?bind_assoc. apply bind_ext. intros reply. cbv beta.
    rewrite ?bind_assoc. apply bind_ext. intros comment. cbv beta.
    rewrite IH. now replace (S i + List.length more) with (i + S (List.length more)) by lia.
Qed.

(** *** The requests of a run *)

Lemma model_calls_app (a b : list event) :
  model_calls (a ++ b) = (model_calls a ++ model_calls b)%list.
Proof. apply flat_map_app. Qed.

Lemma format_makes_no_call (reply : string) :
  model_calls (trace (format_comment_string reply)) = [].
Proof.
  unfold format_comment_string. destruct (json_loads reply) as [data| |e];
    [|reflexivity|reflexivity].
  destruct data; try reflexivity.
  cbn [Json.get]. rewrite bind_ret.
  destruct (Json.dict_get members "prompt" (Json.JStr "")); reflexivity.
Qed.

(** A loop that ends well has sent one request per section. *)
Lemma process_sections_calls (w : World) (master_context : string)
      (files : list InputFile) (total : nat) (l : list SectionSpec)
      (i : nat) (processed done : list ProcessedSection) :
  outcome (process_sections w master_context files total i l processed) = Ok done ->
  List.length (model_calls
                 (trace (process_sections w master_context files total i l processed)))
  = List.length l.
Proof.
  revert i processed. induction l as [|section more IH]; intros i processed H;
    [reflexivity|].
  destruct (completion w i (create_meta_prompt master_context files
                              (title section) (goal section) (format section)))
    as [reply|e] eqn:Hr.
  - rewrite (process_pass _ _ _ _ _ _ _ _ _ Hr) in H |- *.
    pose proof (format_makes_no_call reply) as Hf.
    destruct (format_comment_string reply) as [notices [comment|e]];
      [|discriminate].
    cbn [trace outcome fst snd] in *.
    rewrite !model_calls_app, Hf, !length_app, (IH _ _ H). reflexivity.
  - rewrite (process_pass_refused _ _ _ _ _ _ _ _ _ Hr) in H. discriminate.
Qed.

(** *** Reading the end of a computation *)

Lemma outcome_bind_ok {A B} (m : M A) (k : A -> M B) (b : B) :
  outcome (Py.bind m k) = Ok b ->
  exists a, outcome m = Ok a /\ outcome (k a) = Ok b.
Proof.
  destruct m as [t [a|e]]; [|discriminate].
  unfold Py.bind. destruct (k a) as [t' r] eqn:K. cbn. intros ->.
  exists a. now rewrite K.
Qed.

Lemma file_name_of_cons (first : SectionSpec) (more : list SectionSpec) :
  file_name_of (first :: more) = ret (download_name (title first)).
Proof.
  unfold file_name_of, template_title_of, index, split.
  change (nth_error (first :: more) 0) with (Some first). cbv beta iota.
  rewrite bind_ret.
  change "&" with (String amp ""). rewrite split_first_piece.
  cbn [append]. rewrite !bind_ret.
  unfold download_name. now rewrite replace_spaces, strip_trimmed.
Qed.

(** A [try] body that ends well has stored the document and its name. *)
Lemma generation_stores (w : World) (master_context : string)
      (state state' : Session) :
  outcome (generation w master_context state) = Ok state' ->
  exists first more processed,
    sections state = first :: more
    /\ outcome (process_sections w master_context (input_files state)
                                 (List.length (sections state)) 0 (sections state) [])
       = Ok processed
    /\ docx_file state' = Some {| saved := build processed; position := 0 |}
    /\ file_name state' = Some (download_name (title first)).
Proof.
  unfold generation. intros H.
  apply outcome_bind_ok in H as (key & _ & H).
  apply outcome_bind_ok in H as ([] & _ & H).
  apply outcome_bind_ok in H as (processed & Hp & H).
  apply outcome_bind_ok in H as ([] & _ & H).
  apply outcome_bind_ok in H as (template_title & _ & H).
  apply outcome_bind_ok in H as (name & Hn & H).
  apply outcome_bind_ok in H as ([] & _ & H).
  cbn in H. injection H as <-.
  destruct (sections state) as [|first more] eqn:Es; [discriminate|].
  rewrite file_name_of_cons in Hn. cbn in Hn. injection Hn as <-.
  exists first, more, processed. repeat split; assumption || reflexivity.
Qed.

(** *** How a run ends *)

Lemma on_exception_outcome (state : Session) (e : exn) :
  outcome (on_exception state e) = Ok state.
Proof. destruct e; reflexivity. Qed.

(** The loop stops at the first section whose reply the transformer cannot
    take: the sections before it have been processed, the ones after it are
    not reached. *)
Lemma process_sections_abort (w : World) (master_context : string)
      (files : list InputFile) (total : nat) (before after : list SectionSpec)
      (bad : SectionSpec) (done : list ProcessedSection) (reply : string)
      (notices : list event) (e : exn) :
  outcome (process_sections w master_context files total 0 before []) = Ok done ->
  completion w (List.length before)
             (create_meta_prompt master_context files
                                 (title bad) (goal bad) (format bad))
  = Ok reply ->
  format_comment_string reply = (notices, Raise e) ->
  process_sections w master_context files total 0 (before ++ bad :: after)%list []
  = ((trace (process_sections w master_context files total 0 before [])
      ++ pass_opening master_context files total (List.length before) bad
      ++ notices)%list,
     Raise e).
Proof.
  intros Hd Hr Hf. rewrite process_sections_app.
  rewrite (run_pair (process_sections w master_context files total 0 before [])).
  rewrite Hd. cbn [trace outcome fst snd plus]. unfold Py.bind.
  rewrite (process_pass _ _ _ _ _ _ _ _ _ Hr), Hf. reflexivity.
Qed.

(** The [try] body when the loop raises. *)
Lemma generation_raises (w : World) (master_context key : string)
      (state : Session) (events : list event) (e : exn) :
  secret w "OPENAI_API_KEY" = Ok key ->
  process_sections w master_context (input_files state)
                   (List.length (sections state)) 0 (sections state) []
  = (events, Raise e) ->
  generation w master_context state
  = (StProgress 0 1 "Initializing..." :: events, Raise e).
Proof.
  intros Hk Hp. unfold generation. rewrite Hk. unfold lift.
  change (@nil event, @Ok string key) with (ret key).
  rewrite bind_ret, bind_emit, Hp. reflexivity.
Qed.

End HandlerFacts.

(* ================================================================= *)
(** ** Facts about [create_meta_prompt] *)

Section PromptFacts.
Import PyStr Prompt.

Lemma fold_file_lines (l : list InputFile) (context : string) :
  fold_left (fun context input_file => context ++ input_file_line input_file)
            l context
  = context ++ file_lines l.
Proof.
  revert context. induction l as [|f l IH]; intros context.
  - cbn. now rewrite append_nil_r.
  - cbn [fold_left file_lines]. now rewrite IH, append_assoc.
Qed.

Lemma file_lines_contains (l : list InputFile) (f : InputFile) :
  In f l -> contains (input_file_line f) (file_lines l) = true.
Proof.
  induction l as [|g l IH]; intros H; [contradiction|].
  cbn [file_lines]. destruct H as [->|H].
  - apply contains_of_prefix, prefix_append.
  - apply contains_append_left, IH, H.
Qed.

Lemma input_files_context_contains (l : list InputFile) (f : InputFile) :
  In f l -> contains (input_file_line f) (input_files_context l) = true.
Proof.
  intros H. unfold input_files_context.
  destruct l as [|g l]; [contradiction|].
  rewrite fold_file_lines. apply contains_append_left.
  now apply file_lines_contains.
Qed.

End PromptFacts.

(* ================================================================= *)
(** * The statements of the specification *)

Import PyStr Py Json Prompt Transformer Docx App Spec.

(** C1, as the code has it.  When the reply decodes to an object whose
    prompt is a string (a missing prompt counts as the empty string),
    [format_comment_string] returns, without a notice, the five fields in
    the order type, sub_type, prompt, include_screenshots,
    screenshot_instructions, each as "key - text" and joined by line feeds; a
    missing type or sub_type shows as the empty text, a missing
    include_screenshots as "no" and a missing screenshot_instructions as
    "none".  When no shown field has a line feed, these are exactly the five
    lines of the result; in general the result has five lines and one more
    for every line feed in a shown field other than the prompt. *)
Theorem format_comment_string_block {rt : Runtime}
        (s : string) (d : list (string * value)) (p : string) :
  json_loads s = Decoded (JObj d) ->
  dict_get d "prompt" (JStr "") = JStr p ->
  format_comment_string s = ([], Ok (Some (block_of d (escaped_prompt p))))
  /\ (has_char LF (field_text d "type" "") = false ->
      has_char LF (field_text d "sub_type" "") = false ->
      has_char LF (field_text d "include_screenshots" "no") = false ->
      has_char LF (field_text d "screenshot_instructions" "none") = false ->
      lines (block_of d (escaped_prompt p))
      = [ "type - " ++ field_text d "type" "";
          "sub_type - " ++ field_text d "sub_type" "";
          "prompt - " ++ escaped_prompt p;
          "include_screenshots - " ++ field_text d "include_screenshots" "no";
          "screenshot_instructions - "
          ++ field_text d "screenshot_instructions" "none" ])
  /\ List.length (lines (block_of d (escaped_prompt p)))
     = 5 + line_feeds (field_text d "type" "")
       + line_feeds (field_text d "sub_type" "")
       + line_feeds (field_text d "include_screenshots" "no")
       + line_feeds (field_text d "screenshot_instructions" "none").
Proof.
  intros Hs Hp. split; [|split].
  - exact (format_object s d p Hs Hp).
  - intros H1 H2 H4 H5.
    apply block_lines; try assumption. apply escaped_prompt_one_line.
  - apply block_line_count, escaped_prompt_one_line.
Qed.

(** C3.  When the reply decodes to an object whose prompt is the string
    [p], the prompt field of the result is [p] with its doubled asterisks
    replaced, then CRLF turned into LF, then every line feed that is left
    turned into a backslash and an [n]; the prompt line has no line feed. *)
Theorem prompt_line_breaks_escaped {rt : Runtime}
        (s : string) (d : list (string * value)) (p : string) :
  json_loads s = Decoded (JObj d) ->
  dict_lookup d "prompt" = Some (JStr p) ->
  let escaped :=
    escape_line_feeds (PyStr.replace (PyStr.replace p "**" "*") crlf lf) in
  format_comment_string s = ([], Ok (Some (block_of d escaped)))
  /\ has_char LF ("prompt - " ++ escaped) = false.
Proof.
  intros Hs Hp escaped.
  assert (Hg : dict_get d "prompt" (JStr "") = JStr p)
    by (unfold dict_get; now rewrite Hp).
  unfold escaped. rewrite <- escaped_prompt_spec. split.
  - exact (format_object s d p Hs Hg).
  - rewrite has_char_append, escaped_prompt_one_line. reflexivity.
Qed.

(** C4, as the code has it.  A reply on which [json.loads] raises
    [JSONDecodeError] makes [format_comment_string] show the parse notice
    and return [None], without raising; in the loop of the handler the
    section is then appended with an absent comment and the loop goes on
    with the sections that are left. *)
Theorem undecodable_reply_gives_absent_comment {rt : Runtime} (reply : string) :
  json_loads reply = JSONDecodeError ->
  format_comment_string reply = ([StError invalid_format_notice], Ok None)
  /\ forall (w : World) (master_context : string) (files : list InputFile)
            (total i : nat) (section : SectionSpec) (more : list SectionSpec)
            (processed : list ProcessedSection),
      completion w i (create_meta_prompt master_context files
                        (App.title section) (goal section) (format section))
      = Ok reply ->
      let rest :=
        process_sections w master_context files total (S i) more
          (processed ++ [{| Docx.title := App.title section;
                            comment_string := None |}])%list in
      process_sections w master_context files total i (section :: more) processed
      = ((pass_opening master_context files total i section
          ++ [StError invalid_format_notice] ++ trace rest)%list,
         outcome rest).
Proof.
  intros Hs. pose proof (format_undecodable reply Hs) as Hf. split; [exact Hf|].
  intros w master_context files total i section more processed Hr rest.
  rewrite (process_pass _ _ _ _ _ _ _ _ _ Hr), Hf. reflexivity.
Qed.

(** C5, as the code has it.  When the reply decodes to an object whose
    prompt is the string [p], the prompt field of the result is [p] after
    [replace("**", "*")], which replaces the occurrences found from left to
    right without overlap, and the two replacements of line ends; a doubled
    asterisk is left in it exactly when [p] has three asterisks in a row. *)
Theorem bold_markers_halved {rt : Runtime}
        (s : string) (d : list (string * value)) (p : string) :
  json_loads s = Decoded (JObj d) ->
  dict_lookup d "prompt" = Some (JStr p) ->
  format_comment_string s = ([], Ok (Some (block_of d (escaped_prompt p))))
  /\ escaped_prompt p
     = PyStr.replace (PyStr.replace (PyStr.replace p "**" "*") crlf lf) lf "\n"
  /\ contains "**" (escaped_prompt p) = contains "***" p.
Proof.
  intros Hs Hp.
  assert (Hg : dict_get d "prompt" (JStr "") = JStr p)
    by (unfold dict_get; now rewrite Hp).
  split; [exact (format_object s d p Hs Hg)|].
  split; [reflexivity | apply escaped_prompt_stars].
Qed.

(** C6, as the code has it.  For every input file of the list, the prompt
    holds the line "- **name** (type): description", the name between
    doubled asterisks, ended by a line feed. *)
Theorem meta_prompt_lists_input_files
        (master_context : string) (input_files : list InputFile)
        (section_title section_goal output_format : string) (f : InputFile) :
  In f input_files ->
  contains ("- **" ++ name f ++ "** (" ++ type f ++ "): " ++ description f ++ lf)
           (create_meta_prompt master_context input_files
                               section_title section_goal output_format)
  = true.
Proof.
  intros H. unfold create_meta_prompt.
  apply contains_append_left, contains_append_left, contains_append_left.
  apply contains_append_right.
  exact (input_files_context_contains input_files f H).
Qed.

(** C7.  The download name is "Klarity_Template_", then the text of the
    first section's title before its first ampersand, trimmed of the white
    space around it, its spaces turned into underscores, then ".docx": this
    is what the f-string of the handler computes for every title and what a
    click that builds a document stores as the file name.  Trimming takes
    away white space only, at the two ends only, and all of it: what is
    left neither opens nor ends with white space.  For the title
    "Executive Summary & Key Themes" the handler computes, and the words of
    the specification give, Klarity_Template_Executive_Summary.docx. *)
Theorem download_file_name :
  (forall (first : SectionSpec) (more : list SectionSpec),
      file_name_of (first :: more) = ([], Ok (download_name (App.title first))))
  /\ (forall (rt : Runtime) (w : World) (master_context : string)
             (state state' : Session),
         outcome (generate w master_context state) = Ok state' ->
         state' = state
         \/ exists first more,
              sections state = first :: more
              /\ file_name state' = Some (download_name (App.title first)))
  /\ (forall s : string,
         (exists l r, s = l ++ trimmed s ++ r
                      /\ all_space l = true /\ all_space r = true)
         /\ first_is_space (trimmed s) = false
         /\ last_is_space (trimmed s) = false)
  /\ (forall (format goal : string) (more : list SectionSpec),
         file_name_of ({| App.title := "Executive Summary & Key Themes";
                          App.format := format; App.goal := goal |} :: more)
         = ([], Ok "Klarity_Template_Executive_Summary.docx"))
  /\ download_name "Executive Summary & Key Themes"
     = "Klarity_Template_Executive_Summary.docx".
Proof.
  split; [|split; [|split; [|split]]].
  - intros first more. exact (file_name_of_cons first more).
  - intros rt w master_context state state' H.
    pose proof (generate_cases w master_context state) as C.
    destruct (complete master_context state).
    + rewrite C in H.
      destruct (generation w master_context state) as [t [built|e]] eqn:G.
      * cbn in H. injection H as <-. right.
        destruct (generation_stores w master_context state built) as
          (first & more & processed & Es & _ & _ & Hn).
        { now rewrite G. }
        now exists first, more.
      * left. unfold try_except in H.
        pose proof (on_exception_outcome state e) as O.
        destruct (on_exception state e) as [t' r]. cbn in H, O. congruence.
    + destruct C as [body C]. rewrite C in H. cbn in H. left. congruence.
  - intros s. rewrite <- strip_trimmed. apply strip_trims.
  - intros format goal more. vm_compute. reflexivity.
  - vm_compute. reflexivity.
Qed.

(** C8.  When the master context is empty or white space only, or there is
    no input file, or an input file has a blank name or description, or there
    is no section, or a section has a blank title or goal, a click shows one
    warning and does nothing else: no request is sent to the model and the
    session is left as it was. *)
Theorem incomplete_form_only_warns {rt : Runtime}
        (w : World) (master_context : string) (state : Session) :
  all_space master_context = true
  \/ input_files state = []
  \/ (exists f, In f (input_files state)
                /\ (all_space (name f) = true \/ all_space (description f) = true))
  \/ sections state = []
  \/ (exists section, In section (sections state)
                      /\ (all_space (App.title section) = true
                          \/ all_space (goal section) = true)) ->
  exists body,
    trace (generate w master_context state) = [StWarning body]
    /\ outcome (generate w master_context state) = Ok state
    /\ model_calls (trace (generate w master_context state)) = [].
Proof.
  intros H.
  assert (C : complete master_context state = false).
  { unfold complete.
    destruct H as [H | [H | [(f & Hf & H) | [H | (section & Hs & H)]]]].
    - now rewrite H.
    - rewrite H. now rewrite andb_false_r.
    - replace (forallb _ (input_files state)) with false.
      + now rewrite !andb_false_r.
      + symmetry. apply not_true_iff_false. intros F.
        rewrite forallb_forall in F. specialize (F f Hf).
        apply andb_true_iff in F as [F1 F2].
        destruct H as [H|H]; rewrite H in *; discriminate.
    - rewrite H. now rewrite !andb_false_r.
    - replace (forallb _ (sections state)) with false.
      + now rewrite !andb_false_r.
      + symmetry. apply not_true_iff_false. intros F.
        rewrite forallb_forall in F. specialize (F section Hs).
        apply andb_true_iff in F as [F1 F2].
        destruct H as [H|H]; rewrite H in *; discriminate. }
  destruct (generate_incomplete w master_context state C) as [body E].
  exists body. rewrite E. repeat split.
Qed.

(** C9.  There are replies that are valid JSON and not an object, such as
    [[1, 2]] and [5], on which [format_comment_string] raises: its handler
    catches the decoding error only.  In a run, the exception of such a reply
    reaches the last handler of the click: the error and the tip are shown,
    no section after this one is requested, and the session keeps no
    document. *)
Theorem non_object_reply_aborts_batch :
  (@json_loads JsonText.reference "[1, 2]" = Decoded (JArr [JInt 1; JInt 2])
   /\ @format_comment_string JsonText.reference "[1, 2]"
      = ([], Raise (AttributeError "'list' object has no attribute 'get'"))
   /\ @json_loads JsonText.reference "5" = Decoded (JInt 5)
   /\ @format_comment_string JsonText.reference "5"
      = ([], Raise (AttributeError "'int' object has no attribute 'get'")))
  /\ forall (rt : Runtime) (w : World) (master_context key : string)
            (state : Session) (before after : list SectionSpec)
            (bad : SectionSpec) (done : list ProcessedSection)
            (reply : string) (v : value),
      complete master_context state = true ->
      secret w "OPENAI_API_KEY" = Ok key ->
      sections state = (before ++ bad :: after)%list ->
      outcome (process_sections w master_context (input_files state)
                                (List.length (sections state)) 0 before [])
      = Ok done ->
      completion w (List.length before)
                 (create_meta_prompt master_context (input_files state)
                                     (App.title bad) (goal bad) (format bad))
      = Ok reply ->
      json_loads reply = Decoded v ->
      (forall d, v <> JObj d) ->
      format_comment_string reply = ([], Raise (no_attribute v "get"))
      /\ outcome (generate w master_context state) = Ok state
      /\ (exists events,
             trace (generate w master_context state)
             = (events
                ++ [ StError ("An error occurred: '" ++ type_name v
                              ++ "' object has no attribute 'get'");
                     StInfo "Tip: Make sure your OpenAI API key is correctly set in the secrets.toml file." ])%list)
      /\ List.length (model_calls (trace (generate w master_context state)))
         = S (List.length before).
Proof.
  split.
  - repeat split; vm_compute; reflexivity.
  - intros rt w master_context key state before after bad done reply v
           Hc Hk Hs Hd Hr Hv Hn.
    pose proof (format_not_object reply v Hv Hn) as Hf. split; [exact Hf|].
    rewrite (generate_complete _ _ _ Hc).
    pose proof (process_sections_abort w master_context (input_files state)
                  (List.length (sections state)) before after bad done reply
                  [] _ Hd Hr Hf) as Hp.
    rewrite <- Hs in Hp.
    rewrite (generation_raises _ _ _ _ _ _ Hk Hp).
    unfold try_except, no_attribute, on_exception.
    cbn [Py.bind emit ret exn_message trace outcome fst snd app].
    split; [reflexivity|]. split.
    + eexists. rewrite app_comm_cons. reflexivity.
    + pose proof (process_sections_calls _ _ _ _ _ _ _ _ Hd) as Hn'.
      unfold model_calls in *. cbn [flat_map app].
      rewrite !flat_map_app, !length_app, Hn'. cbn. lia.
Qed.

(** C10.  The document [create_docx] returns does not depend on its
    [template_title] argument, and its body has no paragraph besides the
    headings of the sections: no title heading is written. *)
Theorem template_title_is_ignored
        (title_1 title_2 : string) (processed_sections : list ProcessedSection) :
  create_docx title_1 processed_sections = create_docx title_2 processed_sections
  /\ map paragraph_text (paragraphs (saved (create_docx title_1 processed_sections)))
     = map Docx.title processed_sections.
Proof.
  split; [reflexivity|].
  cbn [create_docx saved]. rewrite build_closed. cbn [paragraphs].
  apply rendered_headings_text.
Qed.

(** C2, as the code has it.  The body of the document [create_docx]
    returns is made of one heading per entry, with the titles of the entries
    in their order.  A heading carries an anchored comment exactly when the
    entry's comment_string is present and not empty; the comment then has
    this text, the author "System" and the initials "S".  The comments part
    holds these comments, in the order of the entries, and nothing else. *)
Theorem create_docx_headings_and_comments
        (template_title : string) (processed_sections : list ProcessedSection) :
  let document := saved (create_docx template_title processed_sections) in
  headings document = paragraphs document
  /\ map paragraph_text (headings document) = map Docx.title processed_sections
  /\ map (fun p => map comment_view (anchored document p)) (headings document)
     = map (fun section =>
              if has_comment section
              then [(comment_of section, "System", "S")] else [])
           processed_sections
  /\ map comment_view (comments document)
     = map (fun section => (comment_of section, "System", "S"))
           (filter has_comment processed_sections)
  /\ (forall section,
         has_comment section = true
         <-> exists c, comment_string section = Some c /\ c <> "").
Proof.
  cbn [create_docx saved]. rewrite build_closed. unfold headings.
  cbn [paragraphs comments]. rewrite rendered_headings_are_headings.
  split; [reflexivity|]. split; [apply rendered_headings_text|].
  split; [|split].
  - apply (anchored_rendered _ []). constructor.
  - apply rendered_comments_text.
  - apply has_comment_iff.
Qed.

(* ================================================================= *)
(** * The statements on sample inputs *)

Section Samples.
Import Examples.
#[local] Existing Instance JsonText.reference.

(** ** C1 *)

(** A reply that is an object, with the number 5 as its prompt, gets no
    text block: the first [replace] raises.  A reply whose type holds a line
    break gets a block of six lines. *)
Lemma format_comment_string_block_fails :
  (json_loads reply_number_prompt = Decoded (JObj [("prompt", JInt 5)])
   /\ format_comment_string reply_number_prompt
      = ([], Raise (AttributeError "'int' object has no attribute 'replace'"))
   /\ ~ (exists block,
            outcome (format_comment_string reply_number_prompt) = Ok (Some block)))
  /\ (json_loads reply_two_line_type
      = Decoded (JObj [("type", JStr ("a" ++ lf ++ "b"))])
      /\ exists block,
           format_comment_string reply_two_line_type = ([], Ok (Some block))
           /\ List.length (lines block) = 6).
Proof.
  split; [split; [|split] | split].
  - vm_compute. reflexivity.
  - vm_compute. reflexivity.
  - intros [block H]. vm_compute in H. discriminate.
  - vm_compute. reflexivity.
  - eexists. split; vm_compute; reflexivity.
Qed.

Lemma format_comment_string_block_sample :
  json_loads reply_type_only = Decoded (JObj [("type", JStr "text")])
  /\ exists block,
       format_comment_string reply_type_only = ([], Ok (Some block))
       /\ lines block
          = [ "type - text"; "sub_type - "; "prompt - ";
              "include_screenshots - no"; "screenshot_instructions - none" ].
Proof.
  assert (Hs : json_loads reply_type_only = Decoded (JObj [("type", JStr "text")]))
    by (vm_compute; reflexivity).
  split; [exact Hs|].
  destruct (format_comment_string_block
              reply_type_only [("type", JStr "text")] "" Hs eq_refl) as (E & L & _).
  eexists. split; [exact E|].
  exact (L eq_refl eq_refl eq_refl eq_refl).
Defined.

(** ** C3 *)

Lemma prompt_line_breaks_escaped_sample :
  json_loads reply_two_breaks
  = Decoded (JObj [("prompt", JStr ("A" ++ lf ++ lf ++ "B"))])
  /\ exists block,
       format_comment_string reply_two_breaks = ([], Ok (Some block))
       /\ nth_error (lines block) 2 = Some "prompt - A\n\nB"
       /\ has_char LF "prompt - A\n\nB" = false.
Proof.
  assert (Hs : json_loads reply_two_breaks
               = Decoded (JObj [("prompt", JStr ("A" ++ lf ++ lf ++ "B"))]))
    by (vm_compute; reflexivity).
  split; [exact Hs|].
  destruct (prompt_line_breaks_escaped
              reply_two_breaks _ ("A" ++ lf ++ lf ++ "B") Hs eq_refl) as [E L].
  eexists. split; [exact E|]. split; [vm_compute; reflexivity | exact L].
Defined.

(** ** C4 *)

(** Three texts that are not valid JSON and are not refused that way.  The
    constant [NaN] decodes to a float, which has no [get] method: the call
    raises, without a notice, and in the loop of the handler the exception
    ends the loop where the claim has it go on.  An object whose type is
    [NaN] is formatted like any other.  An integer literal too long to be
    converted makes [json.loads] raise a [ValueError], which the function
    does not catch. *)
Lemma invalid_json_is_not_always_refused :
  (valid_json "NaN" = false
   /\ format_comment_string "NaN"
      = ([], Raise (AttributeError "'float' object has no attribute 'get'"))
   /\ outcome (process_sections (scripted [Ok "NaN"; Ok reply_type_only])
                                context [transcript] 2 0 [summary; risks] [])
      = Raise (AttributeError "'float' object has no attribute 'get'"))
  /\ (valid_json reply_nan_type = false
      /\ format_comment_string reply_nan_type
         = ([], Ok (Some ("type - nan" ++ lf ++ "sub_type - " ++ lf ++ "prompt - " ++ lf
                          ++ "include_screenshots - no" ++ lf
                          ++ "screenshot_instructions - none"))))
  /\ (valid_json long_integer_reply = false
      /\ format_comment_string long_integer_reply
         = ([], Raise (ValueError
                         ("Exceeds the limit (4300 digits) for integer string "
                          ++ "conversion: value has 4301 digits; use "
                          ++ "sys.set_int_max_str_digits() to increase the limit")))).
Proof.
  repeat split; vm_compute; reflexivity.
Qed.

Lemma undecodable_reply_sample :
  json_loads "not json" = JSONDecodeError
  /\ format_comment_string "not json" = ([StError invalid_format_notice], Ok None)
  /\ outcome (process_sections (scripted [Ok "not json"; Ok reply_type_only])
                               context [transcript] 2 0 [summary; risks] [])
     = Ok [ {| Docx.title := "Executive Summary & Key Themes";
               comment_string := None |};
            {| Docx.title := "Risks";
               comment_string :=
                 Some ("type - text" ++ lf ++ "sub_type - " ++ lf ++ "prompt - " ++ lf
                       ++ "include_screenshots - no" ++ lf
                       ++ "screenshot_instructions - none") |} ].
Proof.
  assert (Hs : json_loads "not json" = JSONDecodeError) by (vm_compute; reflexivity).
  split; [exact Hs|].
  destruct (undecodable_reply_gives_absent_comment "not json" Hs) as [F L].
  split; [exact F|].
  rewrite (L (scripted [Ok "not json"; Ok reply_type_only])
             context [transcript] 2 0 summary [risks] [] eq_refl).
  vm_compute. reflexivity.
Defined.

(** ** C5 *)

(** A prompt of three asterisks comes out as two. *)
Lemma double_star_remains :
  json_loads reply_three_stars = Decoded (JObj [("prompt", JStr "***")])
  /\ exists block,
       format_comment_string reply_three_stars = ([], Ok (Some block))
       /\ nth_error (lines block) 2 = Some "prompt - **"
       /\ contains "**" "prompt - **" = true.
Proof.
  split; [vm_compute; reflexivity|].
  eexists. repeat split; vm_compute; reflexivity.
Qed.

Lemma bold_markers_halved_sample :
  (exists d,
      json_loads reply_bold = Decoded (JObj d)
      /\ dict_lookup d "prompt"
         = Some (JStr ("**Role:** You are an expert."
                       ++ crlf ++ "*Task:* Summarise.")))
  /\ exists block,
       format_comment_string reply_bold = ([], Ok (Some block))
       /\ nth_error (lines block) 2
          = Some "prompt - *Role:* You are an expert.\n*Task:* Summarise."
       /\ contains "**" "prompt - *Role:* You are an expert.\n*Task:* Summarise."
          = false.
Proof.
  pose (d := [ ("type", JStr "text"); ("sub_type", JStr "freeform");
               ("prompt", JStr ("**Role:** You are an expert."
                                ++ crlf ++ "*Task:* Summarise."));
               ("include_screenshots", JStr "no");
               ("screenshot_instructions", JStr "none") ]).
  assert (Hs : json_loads reply_bold = Decoded (JObj d)) by (vm_compute; reflexivity).
  split; [exists d; split; [exact Hs | reflexivity]|].
  destruct (bold_markers_halved reply_bold d _ Hs eq_refl) as (E & _ & S).
  eexists. split; [exact E|]. split; vm_compute; reflexivity.
Defined.

(** ** C6 *)

(** The line with the bare name is not in the prompt. *)
Lemma plain_file_line_absent :
  In transcript [transcript]
  /\ contains ("- " ++ name transcript ++ " (" ++ type transcript ++ "): "
               ++ description transcript)
              (create_meta_prompt context [transcript]
                                  (App.title summary) (goal summary) (format summary))
     = false.
Proof.
  split; [now left | vm_compute; reflexivity].
Qed.

Lemma meta_prompt_lists_input_files_sample :
  In transcript [transcript]
  /\ contains ("- **Discovery Call Transcript** (PDF): "
               ++ description transcript ++ lf)
              (create_meta_prompt context [transcript]
                                  (App.title summary) (goal summary) (format summary))
     = true.
Proof.
  split; [now left|].
  apply (meta_prompt_lists_input_files context [transcript] _ _ _ transcript).
  now left.
Defined.

(** ** C7 *)

Lemma download_file_name_sample :
  exists built,
    outcome (generate (scripted [Ok reply_bold]) context (session [summary]))
    = Ok built
    /\ file_name built = Some "Klarity_Template_Executive_Summary.docx"
    /\ (built = session [summary]
        \/ exists first more,
             sections (session [summary]) = first :: more
             /\ file_name built = Some (download_name (App.title first))).
Proof.
  eexists. split; [vm_compute; reflexivity|]. split; [reflexivity|].
  apply (proj1 (proj2 download_file_name) JsonText.reference
               (scripted [Ok reply_bold]) context (session [summary])).
  vm_compute. reflexivity.
Defined.

(** ** C8 *)

Lemma incomplete_form_only_warns_sample :
  all_space "   " = true
  /\ exists body,
       trace (generate (scripted []) "   " (session [summary])) = [StWarning body]
       /\ outcome (generate (scripted []) "   " (session [summary]))
          = Ok (session [summary])
       /\ model_calls (trace (generate (scripted []) "   " (session [summary]))) = [].
Proof.
  split; [reflexivity|].
  apply (incomplete_form_only_warns (scripted []) "   " (session [summary])).
  left. reflexivity.
Defined.

(** ** C9 *)

Lemma non_object_reply_sample :
  complete context three_section_session = true
  /\ json_loads "[1, 2]" = Decoded (JArr [JInt 1; JInt 2])
  /\ format_comment_string "[1, 2]"
     = ([], Raise (AttributeError "'list' object has no attribute 'get'"))
  /\ outcome (generate list_reply_world context three_section_session)
     = Ok three_section_session
  /\ List.length
       (model_calls (trace (generate list_reply_world context three_section_session)))
     = 2.
Proof.
  assert (Hc : complete context three_section_session = true)
    by (vm_compute; reflexivity).
  assert (Hv : json_loads "[1, 2]" = Decoded (JArr [JInt 1; JInt 2]))
    by (vm_compute; reflexivity).
  split; [exact Hc|]. split; [exact Hv|].
  destruct (proj2 non_object_reply_aborts_batch JsonText.reference
                  list_reply_world context "sk-test" three_section_session
                  [summary] [risks] risks
                  [ {| Docx.title := "Executive Summary & Key Themes";
                       comment_string :=
                         Some (block_of
                                 [ ("type", JStr "text"); ("sub_type", JStr "freeform");
                                   ("prompt", JStr ("**Role:** You are an expert."
                                                    ++ crlf ++ "*Task:* Summarise."));
                                   ("include_screenshots", JStr "no");
                                   ("screenshot_instructions", JStr "none") ]
                                 "*Role:* You are an expert.\n*Task:* Summarise.") |} ]
                  "[1, 2]" (JArr [JInt 1; JInt 2])
                  Hc eq_refl eq_refl)
    as (F & O & _ & N).
  - vm_compute. reflexivity.
  - reflexivity.
  - exact Hv.
  - intros d. discriminate.
  - split; [exact F|]. split; [exact O | exact N].
Defined.

(** ** C2 *)

(** An entry whose comment_string is the empty string is present, yet its
    heading carries no comment. *)
Lemma empty_comment_is_dropped :
  comment_string empty_comment_entry = Some ""
  /\ map paragraph_text
         (headings (saved (create_docx "One" [empty_comment_entry])))
     = ["One"]
  /\ map (anchored (saved (create_docx "One" [empty_comment_entry])))
         (headings (saved (create_docx "One" [empty_comment_entry])))
     = [[]]
  /\ comments (saved (create_docx "One" [empty_comment_entry])) = [].
Proof.
  repeat split.
Qed.

(** Three entries, the second without a comment: three headings and two
    comments, in the order of the entries. *)
Example three_sections_document :
  map paragraph_text (headings (saved (create_docx "One" three_sections)))
  = ["One"; "Two"; "Three"]
  /\ map (fun p => map text (anchored (saved (create_docx "One" three_sections)) p))
         (headings (saved (create_docx "One" three_sections)))
     = [["type - text"]; []; ["type - table"]]
  /\ map text (comments (saved (create_docx "One" three_sections)))
     = ["type - text"; "type - table"]
  /\ map author (comments (saved (create_docx "One" three_sections)))
     = ["System"; "System"].
Proof.
  repeat split.
Qed.

End Samples.

(* ================================================================= *)
(** * Further properties of the code *)

(** ** Further facts about [replace] *)

Section MoreReplaceFacts.
Import PyStr Spec Readings Views.

Lemma replace_pair_head (a b c : ascii) (new t : string) :
  Ascii.eqb c a = false ->
  replace_pair a b new (String c t) = String c (replace_pair a b new t).
Proof.
  intros H. destruct t as [|y r]; [reflexivity|].
  rewrite replace_pair_step, H. reflexivity.
Qed.

(** A match does not reach over a character that is not the second one of
    the pattern. *)
Lemma replace_pair_cut_second (a b c : ascii) (new s t : string) :
  Ascii.eqb c b = false ->
  replace_pair a b new (s ++ String c t)
  = replace_pair a b new s ++ replace_pair a b new (String c t).
Proof.
  intros H. induction s as [| x | x y r IHr IHyr] using string_pair_ind.
  - reflexivity.
  - cbn [append]. rewrite replace_pair_step, H, andb_false_r. reflexivity.
  - cbn [append] in *. rewrite !replace_pair_step.
    destruct (Ascii.eqb x a && Ascii.eqb y b).
    + now rewrite IHr, append_assoc.
    + now rewrite IHyr.
Qed.

(** Nor over the end of a text that does not end with the first one. *)
Lemma replace_pair_cut_first (a b : ascii) (new s t : string) :
  last_is a s = false ->
  replace_pair a b new (s ++ t)
  = replace_pair a b new s ++ replace_pair a b new t.
Proof.
  induction s as [| x | x y r IHr IHyr] using string_pair_ind; intros H.
  - reflexivity.
  - cbn [last_is] in H. cbn [append]. now rewrite replace_pair_head.
  - cbn [append] in *. rewrite !replace_pair_step.
    destruct (Ascii.eqb x a && Ascii.eqb y b) eqn:E.
    + rewrite IHr, append_assoc; [reflexivity|].
      destruct r as [|z r]; [reflexivity | exact H].
    + rewrite IHyr; [reflexivity | exact H].
Qed.

Lemma has_char_halved (c : ascii) (s : string) :
  has_char c (replace_pair star star "*" s) = has_char c s.
Proof.
  induction s as [| x | x y r IHr IHyr] using string_pair_ind;
    try reflexivity.
  rewrite replace_pair_step.
  destruct (Ascii.eqb x star && Ascii.eqb y star) eqn:E.
  - apply andb_true_iff in E as [Ex Ey].
    apply Ascii.eqb_eq in Ex, Ey. subst x y.
    change ("*" ++ replace_pair star star "*" r)
      with (String star (replace_pair star star "*" r)).
    cbn [has_char]. rewrite IHr. now destruct (Ascii.eqb c star).
  - change (has_char c (String x (replace_pair star star "*" (String y r))))
      with (Ascii.eqb c x || has_char c (replace_pair star star "*" (String y r))).
    now rewrite IHyr.
Qed.

Lemma last_is_absent (c : ascii) (s : string) :
  has_char c s = false -> last_is c s = false.
Proof.
  induction s as [|x s IH]; [reflexivity|].
  cbn [has_char]. intros H. apply orb_false_iff in H as [Hx Hs].
  destruct s as [|y s]; [|exact (IH Hs)].
  cbn [last_is]. now rewrite Ascii.eqb_sym.
Qed.

Lemma escape_line_feeds_append (a b : string) :
  escape_line_feeds (a ++ b) = escape_line_feeds a ++ escape_line_feeds b.
Proof.
  induction a as [|x a IH]; [reflexivity|].
  cbn [append escape_line_feeds]. rewrite IH.
  destruct (Ascii.eqb x LF); reflexivity.
Qed.

(** A text without the pattern is left as it is. *)
Lemma replace_pair_absent (a b : ascii) (new s : string) :
  contains (String a (String b "")) s = false ->
  replace_pair a b new s = s.
Proof.
  induction s as [| x | x y r IHr IHyr] using string_pair_ind; intros H;
    try reflexivity.
  rewrite contains_cons, prefix_two in H.
  apply orb_false_iff in H as [Hp Hc].
  rewrite replace_pair_step, Hp, (IHyr Hc). reflexivity.
Qed.

Lemma contains_pair_absent (a b : ascii) (s : string) :
  has_char b s = false -> contains (String a (String b "")) s = false.
Proof.
  induction s as [| x | x y r IHr IHyr] using string_pair_ind; intros H.
  - reflexivity.
  - cbn [contains prefix]. destruct (ascii_dec a x); reflexivity.
  - rewrite contains_cons, prefix_two.
    cbn [has_char] in H. apply orb_false_iff in H as [_ H].
    rewrite (IHyr H). cbn [has_char] in H.
    apply orb_false_iff in H as [Hy _].
    rewrite Ascii.eqb_sym in Hy. now rewrite Hy, andb_false_r.
Qed.

Lemma escape_line_feeds_absent (s : string) :
  has_char LF s = false -> escape_line_feeds s = s.
Proof.
  induction s as [|x s IH]; [reflexivity|].
  cbn [has_char escape_line_feeds]. intros H.
  apply orb_false_iff in H as [Hx Hs].
  rewrite Ascii.eqb_sym in Hx. now rewrite Hx, (IH Hs).
Qed.

End MoreReplaceFacts.

(** ** Further facts about the prompt and the transformer *)

Section MoreTransformerFacts.
Import PyStr Py Json Prompt Transformer Spec Readings Views.
Context {rt : Runtime}.

Lemma file_lines_app (a b : list InputFile) :
  file_lines (a ++ b) = file_lines a ++ file_lines b.
Proof.
  induction a as [|f a IH]; [reflexivity|].
  cbn [app file_lines]. now rewrite IH, append_assoc.
Qed.

Lemma input_files_context_app (a : list InputFile) (f : InputFile)
      (b : list InputFile) :
  input_files_context (a ++ f :: b)
  = "**Available Input Files:**" ++ lf ++ file_lines (a ++ f :: b).
Proof.
  unfold input_files_context.
  destruct (a ++ f :: b)%list as [|g l] eqn:E.
  - now destruct a.
  - now rewrite fold_file_lines, append_assoc.
Qed.

Lemma merged_line (first second : InputFile) :
  input_file_line (merged_input_file first second)
  = input_file_line first ++ input_file_line second.
Proof.
  unfold input_file_line, merged_input_file. cbn [name type description].
  repeat (rewrite ?append_assoc; cbn [append]). reflexivity.
Qed.

(** The three replacements, read two characters at a time. *)
Lemma escaped_prompt_pairs (p : string) :
  escaped_prompt p
  = escape_line_feeds (replace_pair CR LF lf (replace_pair star star "*" p)).
Proof.
  rewrite escaped_prompt_spec. unfold PyStr.replace, crlf.
  now rewrite !replace_from_pair.
Qed.

Lemma escaped_prompt_plain (p : string) :
  contains "**" p = false -> has_char LF p = false -> escaped_prompt p = p.
Proof.
  intros Hs Hl. rewrite escaped_prompt_pairs.
  rewrite (replace_pair_absent star star "*" p Hs).
  rewrite (replace_pair_absent CR LF lf p (contains_pair_absent CR LF p Hl)).
  now apply escape_line_feeds_absent.
Qed.

(** The five ways a call can end. *)
Lemma format_cases (s : string) :
  (json_loads s = JSONDecodeError
   /\ format_comment_string s = ([StError invalid_format_notice], Ok None))
  \/ (exists e, json_loads s = Raised e
                /\ format_comment_string s = ([], Raise e))
  \/ (exists v, json_loads s = Decoded v
                /\ format_comment_string s = ([], Raise (no_attribute v "get")))
  \/ (exists d v, json_loads s = Decoded (JObj d)
                  /\ format_comment_string s = ([], Raise (no_attribute v "replace")))
  \/ (exists d p, json_loads s = Decoded (JObj d)
                  /\ dict_get d "prompt" (JStr "") = JStr p
                  /\ format_comment_string s
                     = ([], Ok (Some (block_of d (escaped_prompt p))))).
Proof.
  destruct (json_loads s) as [v| |e] eqn:Hs.
  - right. right.
    assert (O : (exists d, v = JObj d) \/ forall d, v <> JObj d).
    { destruct v; try (right; discriminate). left. now eexists. }
    destruct O as [[d ->] | N].
    + right.
      destruct (dict_get d "prompt" (JStr "")) as [| | | | p | |] eqn:Hp.
      6,7: left; do 2 eexists; split; [reflexivity|];
        apply (format_object_bad_prompt s d _ Hs Hp); discriminate.
      1-4: left; do 2 eexists; split; [reflexivity|];
        apply (format_object_bad_prompt s d _ Hs Hp); discriminate.
      right. exists d, p. repeat split; [exact Hp|]. exact (format_object s d p Hs Hp).
    + left. exists v. split; [reflexivity|]. exact (format_not_object s v Hs N).
  - left. split; [reflexivity|]. exact (format_undecodable s Hs).
  - right. left. exists e. split; [reflexivity|]. exact (format_raised s e Hs).
Qed.

End MoreTransformerFacts.

(** ** Properties of [create_meta_prompt] *)

Import Readings Views.

(** X1.  The prompt holds the master context, the section title, the
    section goal and the output format as they are given. *)
Theorem meta_prompt_holds_its_arguments
        (master_context : string) (input_files : list InputFile)
        (section_title section_goal output_format : string) :
  let prompt := create_meta_prompt master_context input_files
                                   section_title section_goal output_format in
  contains master_context prompt = true
  /\ contains section_title prompt = true
  /\ contains section_goal prompt = true
  /\ contains output_format prompt = true.
Proof.
  cbv zeta. unfold create_meta_prompt. repeat split.
  - apply contains_append_left, contains_of_prefix, prefix_append.
  - do 5 apply contains_append_left. apply contains_of_prefix, prefix_append.
  - do 7 apply contains_append_left. apply contains_of_prefix, prefix_append.
  - do 9 apply contains_append_left. apply contains_of_prefix, prefix_append.
Qed.

(** X2.  The listing of the input files is not escaped: a file whose
    description goes on, after a line feed, with the line of a second file
    gives the prompt of the two files. *)
Theorem file_listing_is_not_escaped
        (master_context : string) (before after : list InputFile)
        (first second : InputFile)
        (section_title section_goal output_format : string) :
  create_meta_prompt master_context
                     (before ++ merged_input_file first second :: after)
                     section_title section_goal output_format
  = create_meta_prompt master_context (before ++ first :: second :: after)
                       section_title section_goal output_format.
Proof.
  unfold create_meta_prompt. rewrite !input_files_context_app.
  rewrite !file_lines_app. cbn [file_lines].
  now rewrite merged_line, (append_assoc (input_file_line first)).
Qed.

(** ** Properties of [format_comment_string] *)

(** X3.  A call returns [None] exactly when [json.loads] raises
    [JSONDecodeError]; a returned block is never empty, opens with the type
    field and comes without a notice; an exception of another class that
    [json.loads] raises is not caught and leaves the call as it is; every
    exception a call raises is such a one or the [AttributeError] of a
    missing [get] or [replace] method of a decoded object, and it comes
    without a notice too. *)
Theorem format_comment_string_ends {rt : Runtime} (s : string) :
  (outcome (format_comment_string s) = Ok None <-> json_loads s = JSONDecodeError)
  /\ (forall block,
         outcome (format_comment_string s) = Ok (Some block) ->
         trace (format_comment_string s) = []
         /\ truthy block = true
         /\ prefix "type - " block = true)
  /\ (forall e,
         json_loads s = Raised e ->
         format_comment_string s = ([], Raise e))
  /\ (forall e,
         outcome (format_comment_string s) = Raise e ->
         trace (format_comment_string s) = []
         /\ (json_loads s = Raised e
             \/ exists v, (json_loads s = Decoded v /\ e = no_attribute v "get")
                          \/ ((exists d, json_loads s = Decoded (JObj d))
                              /\ e = no_attribute v "replace"))).
Proof.
  split; [|split; [|split]].
  - destruct (format_cases s)
      as [[Hs E] | [(e & Hs & E) | [(v & Hs & E) | [(d & v & Hs & E) | (d & p & Hs & _ & E)]]]];
      rewrite E; cbn [outcome snd]; split; intros H;
      try discriminate; try congruence; reflexivity.
  - intros block.
    destruct (format_cases s)
      as [[Hs E] | [(e & Hs & E) | [(v & Hs & E) | [(d & v & Hs & E) | (d & p & Hs & _ & E)]]]];
      rewrite E; cbn [trace outcome fst snd]; intros H; try discriminate.
    injection H as <-. split; [reflexivity|]. split; [reflexivity|].
    unfold block_of. apply prefix_append.
  - intros e Hs. exact (format_raised s e Hs).
  - intros e.
    destruct (format_cases s)
      as [[Hs E] | [(e' & Hs & E) | [(v & Hs & E) | [(d & v & Hs & E) | (d & p & Hs & _ & E)]]]];
      rewrite E; cbn [trace outcome fst snd]; intros H; try discriminate;
      injection H as <-; (split; [reflexivity|]).
    + now left.
    + right. exists v. left. now split.
    + right. exists v. right. split; [now exists d | reflexivity].
Qed.

(** X4.  Only five keys of the reply are read: two objects that agree on
    them are formatted alike, whatever else they hold. *)
Theorem format_comment_string_reads_five_keys {rt : Runtime}
        (s s' : string) (d d' : list (string * value)) :
  json_loads s = Decoded (JObj d) ->
  json_loads s' = Decoded (JObj d') ->
  Forall (fun key => dict_lookup d key = dict_lookup d' key) read_keys ->
  format_comment_string s = format_comment_string s'.
Proof.
  intros Hs Hs' H.
  inversion H as [|? ? K1 H1]; subst. inversion H1 as [|? ? K2 H2]; subst.
  inversion H2 as [|? ? K3 H3]; subst. inversion H3 as [|? ? K4 H4]; subst.
  inversion H4 as [|? ? K5 _]; subst.
  assert (G : dict_get d "prompt" (JStr "") = dict_get d' "prompt" (JStr ""))
    by (unfold dict_get; now rewrite K1).
  assert (B : forall line, block_of d line = block_of d' line)
    by (intros line; unfold block_of, field_text; now rewrite K2, K3, K4, K5).
  assert (O : (exists p, dict_get d "prompt" (JStr "") = JStr p)
              \/ forall p, dict_get d "prompt" (JStr "") <> JStr p).
  { destruct (dict_get d "prompt" (JStr "")); try (right; discriminate).
    left. now eexists. }
  destruct O as [[p Hp] | N].
  - rewrite (format_object s d p Hs Hp).
    rewrite G in Hp. rewrite (format_object s' d' p Hs' Hp). now rewrite B.
  - rewrite (format_object_bad_prompt s d _ Hs eq_refl N).
    rewrite G in N. rewrite (format_object_bad_prompt s' d' _ Hs' eq_refl N).
    now rewrite G.
Qed.

(** X5.  A prompt without a doubled asterisk and without a line feed is
    written into the block as it is (a carriage return on its own
    included). *)
Theorem plain_prompt_is_kept {rt : Runtime}
        (s : string) (d : list (string * value)) (p : string) :
  json_loads s = Decoded (JObj d) ->
  dict_lookup d "prompt" = Some (JStr p) ->
  contains "**" p = false ->
  has_char LF p = false ->
  format_comment_string s = ([], Ok (Some (block_of d p))).
Proof.
  intros Hs Hp Hstar Hlf.
  assert (Hg : dict_get d "prompt" (JStr "") = JStr p)
    by (unfold dict_get; now rewrite Hp).
  rewrite (format_object s d p Hs Hg).
  now rewrite (escaped_prompt_plain p Hstar Hlf).
Qed.

(** X6.  The escaping cannot be undone: a line feed and the two characters
    backslash and [n] come out alike.  For every text [a] without a carriage
    return and every [b], the prompts [a], line feed, [b] and [a], backslash,
    [n], [b] are different and are escaped to the same text. *)
Theorem line_feed_and_its_escape_collide (a b : string) :
  has_char CR a = false ->
  a ++ lf ++ b <> a ++ "\n" ++ b
  /\ escaped_prompt (a ++ lf ++ b) = escaped_prompt (a ++ "\n" ++ b).
Proof.
  intros H. split.
  - induction a as [|x a IH]; cbn [append].
    + discriminate.
    + cbn [has_char] in H. apply orb_false_iff in H as [_ H].
      intros E. injection E as E. now apply IH.
  - rewrite !escaped_prompt_pairs.
    assert (L : last_is CR (replace_pair star star "*" a) = false)
      by (apply last_is_absent; now rewrite has_char_halved).
    change (a ++ lf ++ b) with (a ++ String LF b).
    change (a ++ "\n" ++ b) with (a ++ String "\" (String "n" b)).
    rewrite !(replace_pair_cut_second star star) by reflexivity.
    rewrite !(replace_pair_head star star) by reflexivity.
    rewrite !(replace_pair_cut_first CR LF) by exact L.
    rewrite !(replace_pair_head CR LF) by reflexivity.
    rewrite !escape_line_feeds_append. reflexivity.
Qed.

(** ** Further facts about [create_docx] *)

Section MoreDocxFacts.
Import PyStr Docx.

Lemma rendered_marks (k : nat) (l : list ProcessedSection) :
  flat_map marks_of (rendered_headings k l) = map comment_id (rendered_comments k l).
Proof.
  revert k. induction l as [|section more IH]; intros k; [reflexivity|].
  cbn [rendered_headings rendered_comments flat_map].
  unfold marks_of at 1, heading_of. cbn [runs].
  destruct (has_comment section).
  - cbn [flat_map comment_marks app map comment_for comment_id]. now rewrite IH.
  - rewrite <- IH. now destruct (truthy (title section)).
Qed.

Lemma rendered_ids (k : nat) (l : list ProcessedSection) :
  map comment_id (rendered_comments k l)
  = seq k (List.length (rendered_comments k l)).
Proof.
  revert k. induction l as [|section more IH]; intros k; [reflexivity|].
  cbn [rendered_comments]. destruct (has_comment section); [|apply IH].
  cbn [map List.length seq comment_for comment_id]. now rewrite IH.
Qed.

Lemma rendered_runs (k : nat) (l : list ProcessedSection) :
  map (fun p => (style p, map run_text (runs p))) (rendered_headings k l)
  = map (fun section =>
           ("Heading 1",
            if has_comment section then [title section; ""]
            else if truthy (title section) then [title section] else []))
        l.
Proof.
  revert k. induction l as [|section more IH]; intros k; [reflexivity|].
  cbn [rendered_headings map]. rewrite IH. f_equal.
  unfold heading_of. cbn [style runs].
  destruct (has_comment section); [reflexivity|].
  now destruct (truthy (title section)).
Qed.

Lemma rendered_references (k : nat) (l : list ProcessedSection) :
  flat_map references_of (rendered_headings k l)
  = map comment_id (rendered_comments k l).
Proof.
  revert k. induction l as [|section more IH]; intros k; [reflexivity|].
  cbn [rendered_headings rendered_comments flat_map].
  unfold references_of at 1, heading_of. cbn [runs].
  destruct (has_comment section).
  - cbn [flat_map comment_reference reference_run app map comment_for comment_id].
    now rewrite IH.
  - rewrite <- IH. now destruct (truthy (title section)).
Qed.

End MoreDocxFacts.

(** ** Properties of [create_docx] *)

(** X7.  In the document [create_docx] returns, the comment marks met when
    reading the headings in order are the ids of the comments part in its
    order, and these are 0, 1, 2, ...: every comment is anchored once and no
    mark is left without its comment. *)
Theorem comment_marks_match_comments
        (template_title : string) (processed_sections : list ProcessedSection) :
  let document := saved (create_docx template_title processed_sections) in
  flat_map marks_of (paragraphs document) = map comment_id (comments document)
  /\ map comment_id (comments document)
     = seq 0 (List.length (comments document)).
Proof.
  cbn [create_docx saved]. rewrite build_closed. cbn [paragraphs comments].
  split; [apply rendered_marks | apply rendered_ids].
Qed.

(** X8.  Every paragraph of the document has the style of a level 1
    heading.  The heading of an entry with a comment has two runs: one
    holding the title, also when the title is empty (the run is then added
    for the comment to be anchored), and behind it the run without text
    that holds the reference mark of the comment.  The heading of an entry
    without a comment has one run, or none when the title is empty.  The
    reference marks met when reading the headings in order are the ids of
    the comments part in its order. *)
Theorem headings_and_their_runs
        (template_title : string) (processed_sections : list ProcessedSection) :
  let document := saved (create_docx template_title processed_sections) in
  map (fun p => (style p, map run_text (runs p))) (paragraphs document)
  = map (fun section =>
           ("Heading 1",
            if has_comment section then [Docx.title section; ""]
            else if truthy (Docx.title section) then [Docx.title section] else []))
        processed_sections
  /\ flat_map references_of (paragraphs document)
     = map comment_id (comments document).
Proof.
  cbn [create_docx saved]. rewrite build_closed. cbn [paragraphs comments].
  split; [apply rendered_runs | apply rendered_references].
Qed.

(** ** Further facts about the button handler *)

Section MoreHandlerFacts.
Import PyStr Py Prompt Docx Transformer App Spec Page Views.
Context {rt : Runtime}.

Lemma trace_bind {A B} (m : M A) (k : A -> M B) :
  trace (Py.bind m k)
  = (trace m ++ match outcome m with
                | Ok a => trace (k a)
                | Raise _ => []
                end)%list.
Proof.
  destruct m as [t [a|e]]; cbn [trace outcome fst snd].
  - unfold Py.bind. now destruct (k a).
  - cbn. now rewrite app_nil_r.
Qed.

Lemma outcome_bind {A B} (m : M A) (k : A -> M B) :
  outcome (Py.bind m k)
  = match outcome m with
    | Ok a => outcome (k a)
    | Raise e => Raise e
    end.
Proof.
  destruct m as [t [a|e]]; cbn [trace outcome fst snd]; [|reflexivity].
  unfold Py.bind. now destruct (k a).
Qed.

Lemma on_exception_trace (state : Session) (e : exn) :
  trace (on_exception state e) = failure_notices e.
Proof. destruct e; reflexivity. Qed.

Lemma on_exception_run (state : Session) (e : exn) :
  on_exception state e = (failure_notices e, Ok state).
Proof. destruct e; reflexivity. Qed.

Lemma usable_returns (reply : string) :
  usable reply ->
  exists notices comment, format_comment_string reply = (notices, Ok comment).
Proof.
  intros [H | (d & p & Hs & Hp)].
  - rewrite (format_undecodable reply H). now eexists _, _.
  - rewrite (format_object reply d p Hs Hp). now eexists _, _.
Qed.

(** The entries the loop adds carry the titles of the sections, in order. *)
Lemma process_sections_titles (w : World) (master_context : string)
      (files : list InputFile) (total : nat) (l : list SectionSpec)
      (i : nat) (processed done : list ProcessedSection) :
  outcome (process_sections w master_context files total i l processed) = Ok done ->
  map Docx.title done = (map Docx.title processed ++ map App.title l)%list.
Proof.
  revert i processed. induction l as [|section more IH]; intros i processed H.
  - cbn in H. injection H as <-. now rewrite app_nil_r.
  - destruct (completion w i (create_meta_prompt master_context files
                                (App.title section) (goal section) (format section)))
      as [reply|e] eqn:Hr.
    + rewrite (process_pass _ _ _ _ _ _ _ _ _ Hr) in H.
      destruct (format_comment_string reply) as [notices [comment|e]];
        [|discriminate].
      cbn [outcome snd] in H. rewrite (IH _ _ H).
      rewrite map_app, <- app_assoc. reflexivity.
    + rewrite (process_pass_refused _ _ _ _ _ _ _ _ _ Hr) in H. discriminate.
Qed.

(** With usable replies to all its requests the loop ends well. *)
Lemma process_sections_usable (w : World) (master_context : string)
      (files : list InputFile) (total : nat) (l : list SectionSpec)
      (i : nat) (processed : list ProcessedSection) :
  (forall j section,
      nth_error l j = Some section ->
      exists reply,
        completion w (i + j) (prompt_for master_context files section) = Ok reply
        /\ usable reply) ->
  exists done,
    outcome (process_sections w master_context files total i l processed) = Ok done.
Proof.
  revert i processed. induction l as [|section more IH]; intros i processed H.
  - now eexists.
  - destruct (H 0 section eq_refl) as (reply & Hr & Hu).
    replace (i + 0) with i in Hr by lia. unfold prompt_for in Hr.
    rewrite (process_pass _ _ _ _ _ _ _ _ _ Hr).
    destruct (usable_returns reply Hu) as (notices & comment & ->).
    cbn [outcome snd]. apply IH. intros j s Hj.
    replace (S i + j) with (i + S j) by lia. now apply H.
Qed.

(** The requests of the loop are the prompts of the sections it reached. *)
Lemma process_sections_requests (w : World) (master_context : string)
      (files : list InputFile) (total : nat) (l : list SectionSpec)
      (i : nat) (processed : list ProcessedSection) :
  exists n,
    n <= List.length l
    /\ model_calls (trace (process_sections w master_context files total i l processed))
       = map (prompt_for master_context files) (firstn n l).
Proof.
  revert i processed. induction l as [|section more IH]; intros i processed.
  - exists 0. split; [lia | reflexivity].
  - destruct (completion w i (create_meta_prompt master_context files
                                (App.title section) (goal section) (format section)))
      as [reply|e] eqn:Hr.
    + rewrite (process_pass _ _ _ _ _ _ _ _ _ Hr).
      pose proof (format_makes_no_call reply) as Hf.
      destruct (format_comment_string reply) as [notices [comment|e]];
        cbn [trace fst] in *.
      * destruct (IH (S i) (processed ++ [{| Docx.title := App.title section;
                                              comment_string := comment |}])%list)
          as (n & Hn & E).
        exists (S n). split; [cbn; lia|].
        rewrite !model_calls_app, Hf, E. reflexivity.
      * exists 1. split; [cbn; lia|].
        rewrite model_calls_app, Hf. reflexivity.
    + rewrite (process_pass_refused _ _ _ _ _ _ _ _ _ Hr).
      exists 1. split; [cbn; lia | reflexivity].
Qed.

(** A loop that ends well has sent the prompt of every section. *)
Lemma process_sections_all_requests (w : World) (master_context : string)
      (files : list InputFile) (total : nat) (l : list SectionSpec)
      (i : nat) (processed done : list ProcessedSection) :
  outcome (process_sections w master_context files total i l processed) = Ok done ->
  model_calls (trace (process_sections w master_context files total i l processed))
  = map (prompt_for master_context files) l.
Proof.
  revert i processed. induction l as [|section more IH]; intros i processed H;
    [reflexivity|].
  destruct (completion w i (create_meta_prompt master_context files
                              (App.title section) (goal section) (format section)))
    as [reply|e] eqn:Hr.
  - rewrite (process_pass _ _ _ _ _ _ _ _ _ Hr) in H |- *.
    pose proof (format_makes_no_call reply) as Hf.
    destruct (format_comment_string reply) as [notices [comment|e]];
      [|discriminate].
    cbn [trace outcome fst snd] in *.
    rewrite !model_calls_app, Hf, (IH _ _ H). reflexivity.
  - rewrite (process_pass_refused _ _ _ _ _ _ _ _ _ Hr) in H. discriminate.
Qed.

(** The loop when a request is refused after some sections went well. *)
Lemma process_sections_refused (w : World) (master_context : string)
      (files : list InputFile) (total : nat) (before after : list SectionSpec)
      (bad : SectionSpec) (done : list ProcessedSection) (e : exn) :
  outcome (process_sections w master_context files total 0 before []) = Ok done ->
  completion w (List.length before)
             (create_meta_prompt master_context files
                                 (App.title bad) (goal bad) (format bad))
  = Raise e ->
  process_sections w master_context files total 0 (before ++ bad :: after)%list []
  = ((trace (process_sections w master_context files total 0 before [])
      ++ pass_opening master_context files total (List.length before) bad)%list,
     Raise e).
Proof.
  intros Hd Hr. rewrite process_sections_app.
  rewrite (run_pair (process_sections w master_context files total 0 before [])).
  rewrite Hd. cbn [trace outcome fst snd plus]. unfold Py.bind.
  rewrite (process_pass_refused _ _ _ _ _ _ _ _ _ Hr). reflexivity.
Qed.

Lemma template_title_of_cons (first : SectionSpec) (more : list SectionSpec) :
  template_title_of (first :: more)
  = ret (strip (text_before amp (App.title first))).
Proof.
  unfold template_title_of, index, split.
  change (nth_error (first :: more) 0) with (Some first). cbv beta iota.
  rewrite bind_ret.
  change "&" with (String amp ""). rewrite split_first_piece.
  cbn [append]. now rewrite !bind_ret.
Qed.

(** The requests of the [try] body are those of its loop. *)
Lemma generation_requests (w : World) (master_context : string) (state : Session) :
  model_calls (trace (generation w master_context state))
  = match secret w "OPENAI_API_KEY" with
    | Ok _ =>
        model_calls
          (trace (process_sections w master_context (input_files state)
                                   (List.length (sections state)) 0
                                   (sections state) []))
    | Raise _ => []
    end.
Proof.
  unfold generation. destruct (secret w "OPENAI_API_KEY") as [key|e];
    [|reflexivity].
  unfold lift. change (@nil event, @Ok string key) with (ret key).
  rewrite bind_ret, bind_emit. cbn [trace fst model_calls flat_map app].
  rewrite trace_bind, model_calls_app.
  destruct (outcome (process_sections w master_context (input_files state)
                                      (List.length (sections state)) 0
                                      (sections state) [])) as [processed|e];
    [|cbn [model_calls flat_map]; now rewrite app_nil_r].
  rewrite bind_emit. cbn [trace fst model_calls flat_map app].
  assert (T : model_calls
                (trace (template_title <- template_title_of (sections state) ;;
                        name <- file_name_of (sections state) ;;
                        emit (StSuccess
                                "Template generated successfully! Click the download button below to save your file.") ;;;
                        ret {| input_files := input_files state;
                               sections := sections state;
                               docx_file := Some (create_docx template_title processed);
                               file_name := Some name |})) = []).
  { destruct (sections state) as [|first more]; [reflexivity|].
    now rewrite template_title_of_cons, bind_ret, file_name_of_cons, bind_ret. }
  unfold model_calls in T |- *. rewrite T. now rewrite app_nil_r.
Qed.

Lemma generate_requests (w : World) (master_context : string) (state : Session) :
  complete master_context state = true ->
  model_calls (trace (generate w master_context state))
  = model_calls (trace (generation w master_context state)).
Proof.
  intros Hc. rewrite (generate_complete _ _ _ Hc).
  destruct (generation w master_context state) as [t [built|e]];
    [reflexivity|].
  unfold try_except. rewrite on_exception_run. cbn [trace fst].
  rewrite model_calls_app. destruct e; cbn; now rewrite app_nil_r.
Qed.

End MoreHandlerFacts.

Section MoreHandlerFacts2.
Import PyStr Py Prompt Docx Transformer App Spec Page Views.
Context {rt : Runtime}.

Lemma generation_keeps_rows (w : World) (master_context : string)
      (state state' : Session) :
  outcome (generation w master_context state) = Ok state' ->
  input_files state' = input_files state /\ sections state' = sections state.
Proof.
  unfold generation. intros H.
  apply outcome_bind_ok in H as (key & _ & H).
  apply outcome_bind_ok in H as ([] & _ & H).
  apply outcome_bind_ok in H as (processed & _ & H).
  apply outcome_bind_ok in H as ([] & _ & H).
  apply outcome_bind_ok in H as (template_title & _ & H).
  apply outcome_bind_ok in H as (name & _ & H).
  apply outcome_bind_ok in H as ([] & _ & H).
  cbn in H. injection H as <-. split; reflexivity.
Qed.

(** A click ends without an exception, in the session it started from or in
    the session the [try] body built. *)
Lemma generate_ends (w : World) (master_context : string) (state : Session) :
  outcome (generate w master_context state) = Ok state
  \/ (complete master_context state = true
      /\ exists built,
           outcome (generation w master_context state) = Ok built
           /\ outcome (generate w master_context state) = Ok built).
Proof.
  pose proof (generate_cases w master_context state) as C.
  destruct (complete master_context state).
  - rewrite C. destruct (generation w master_context state) as [t [built|e]].
    + right. split; [reflexivity|]. now exists built.
    + left. unfold try_except. now rewrite on_exception_run.
  - left. destruct C as [body ->]. reflexivity.
Qed.

End MoreHandlerFacts2.

(** ** Properties of the button handler *)

Import Page.

(** X9.  When the endpoint refuses the request of a section, after the
    sections before it went well, the click shows the notice of the
    exception's class (the key check for an authentication error, the
    waiting advice for a rate limit, the generic error with the tip for any
    other), sends no further request and leaves the session as it was. *)
Theorem refused_request_ends_run {rt : Runtime}
        (w : World) (master_context key : string) (state : Session)
        (before after : list SectionSpec) (bad : SectionSpec)
        (done : list ProcessedSection) (e : exn) :
  complete master_context state = true ->
  secret w "OPENAI_API_KEY" = Ok key ->
  sections state = (before ++ bad :: after)%list ->
  outcome (process_sections w master_context (input_files state)
                            (List.length (sections state)) 0 before [])
  = Ok done ->
  completion w (List.length before)
             (prompt_for master_context (input_files state) bad)
  = Raise e ->
  outcome (generate w master_context state) = Ok state
  /\ trace (generate w master_context state)
     = ((StProgress 0 1 "Initializing..."
         :: trace (process_sections w master_context (input_files state)
                                    (List.length (sections state)) 0 before [])
         ++ pass_opening master_context (input_files state)
                         (List.length (sections state)) (List.length before) bad)
        ++ failure_notices e)%list
  /\ List.length (model_calls (trace (generate w master_context state)))
     = S (List.length before).
Proof.
  intros Hc Hk Hs Hd Hr.
  pose proof (process_sections_refused w master_context (input_files state)
                (List.length (sections state)) before after bad done e Hd Hr) as Hp.
  rewrite <- Hs in Hp.
  rewrite (generate_complete _ _ _ Hc), (generation_raises _ _ _ _ _ _ Hk Hp).
  unfold try_except. rewrite on_exception_run. cbn [trace outcome fst snd].
  repeat split.
  pose proof (process_sections_calls _ _ _ _ _ _ _ _ Hd) as Hn.
  rewrite !model_calls_app.
  change (model_calls (StProgress 0 1 "Initializing..." :: ?t))
    with (model_calls t).
  rewrite !model_calls_app, !length_app, Hn.
  replace (model_calls (failure_notices e)) with (@nil string)
    by (destruct e; reflexivity).
  cbn. lia.
Qed.

(** X10.  When the API key cannot be read from the secrets, the click shows
    the notice of that exception and stops there: no progress is shown, no
    request is sent, the session is as it was. *)
Theorem missing_secret_sends_nothing {rt : Runtime}
        (w : World) (master_context : string) (state : Session) (e : exn) :
  complete master_context state = true ->
  secret w "OPENAI_API_KEY" = Raise e ->
  generate w master_context state = (failure_notices e, Ok state).
Proof.
  intros Hc Hk. rewrite (generate_complete _ _ _ Hc).
  unfold generation. rewrite Hk. unfold lift, Py.bind, try_except.
  now rewrite on_exception_run.
Qed.

(** X11.  Whatever the form, the secrets and the endpoint do, a click ends
    without an exception, and it changes neither the input files nor the
    sections of the session. *)
Theorem click_never_raises_nor_edits_rows {rt : Runtime}
        (w : World) (master_context : string) (state : Session) :
  exists state',
    outcome (generate w master_context state) = Ok state'
    /\ input_files state' = input_files state
    /\ sections state' = sections state.
Proof.
  destruct (generate_ends w master_context state) as [H | (_ & built & G & H)].
  - exists state. now rewrite H.
  - exists built. split; [exact H|].
    exact (generation_keeps_rows w master_context state built G).
Qed.

(** X12.  The requests a click sends are the meta prompts of the first
    sections of the form, one each, in their order: no request is sent
    twice, none out of order, none for anything but a section.  A click on
    an incomplete form sends none, and so does a click when the key is
    missing from the secrets. *)
Theorem requests_follow_sections {rt : Runtime}
        (w : World) (master_context : string) (state : Session) :
  (exists n,
      n <= List.length (sections state)
      /\ model_calls (trace (generate w master_context state))
         = map (prompt_for master_context (input_files state))
               (firstn n (sections state)))
  /\ (complete master_context state = false ->
      model_calls (trace (generate w master_context state)) = [])
  /\ (forall e,
         secret w "OPENAI_API_KEY" = Raise e ->
         model_calls (trace (generate w master_context state)) = []).
Proof.
  split; [|split].
  - destruct (complete master_context state) eqn:Hc.
    + rewrite (generate_requests _ _ _ Hc), generation_requests.
      destruct (secret w "OPENAI_API_KEY").
      * apply process_sections_requests.
      * exists 0. split; [lia | reflexivity].
    + destruct (generate_incomplete w master_context state Hc) as [body ->].
      exists 0. split; [lia | reflexivity].
  - intros Hc.
    destruct (generate_incomplete w master_context state Hc) as [body ->].
    reflexivity.
  - intros e He. destruct (complete master_context state) eqn:Hc.
    + now rewrite (generate_requests _ _ _ Hc), generation_requests, He.
    + destruct (generate_incomplete w master_context state Hc) as [body ->].
      reflexivity.
Qed.

(** X13.  When every request of the loop over the sections is answered by
    a reply on which [json.loads] either raises [JSONDecodeError] or gives
    an object whose prompt is a string or is missing, the loop runs to its
    end: it sends the meta prompt of every section, one each and in their
    order, and leaves one entry per section, titled as the sections. *)
Theorem usable_replies_complete_the_loop {rt : Runtime}
        (w : World) (master_context : string) (files : list InputFile)
        (total : nat) (l : list SectionSpec) :
  (forall i section,
      nth_error l i = Some section ->
      exists reply,
        completion w i (prompt_for master_context files section) = Ok reply
        /\ usable reply) ->
  exists processed,
    outcome (process_sections w master_context files total 0 l []) = Ok processed
    /\ map Docx.title processed = map App.title l
    /\ model_calls (trace (process_sections w master_context files total 0 l []))
       = map (prompt_for master_context files) l.
Proof.
  intros Hr.
  destruct (process_sections_usable w master_context files total l 0 [] Hr)
    as [processed Hp].
  exists processed. split; [exact Hp|]. split.
  - exact (process_sections_titles _ _ _ _ _ _ _ _ Hp).
  - exact (process_sections_all_requests _ _ _ _ _ _ _ _ Hp).
Qed.

(** X14.  A click either leaves the session as it was or stores a document
    that has one heading per section of the form, with the titles of the
    sections in their order, after one request per section: a document for
    a part of the sections is never stored. *)
Theorem stored_document_follows_form {rt : Runtime}
        (w : World) (master_context : string) (state state' : Session) :
  outcome (generate w master_context state) = Ok state' ->
  state' = state
  \/ exists processed,
       docx_file state' = Some {| saved := build processed; position := 0 |}
       /\ map paragraph_text (paragraphs (build processed))
          = map App.title (sections state)
       /\ List.length (model_calls (trace (generate w master_context state)))
          = List.length (sections state).
Proof.
  intros H.
  destruct (generate_ends w master_context state) as [E | (Hc & built & G & E)];
    rewrite E in H; injection H as <-; [now left | right].
  destruct (generation_stores w master_context state built G)
    as (first & more & processed & Es & Hp & Hd & _).
  exists processed. split; [exact Hd|]. split.
  - rewrite build_closed. cbn [paragraphs]. rewrite rendered_headings_text.
    exact (process_sections_titles _ _ _ _ _ _ _ _ Hp).
  - rewrite (generate_requests _ _ _ Hc), generation_requests.
    destruct (secret w "OPENAI_API_KEY") as [key|e] eqn:Hk.
    + exact (process_sections_calls _ _ _ _ _ _ _ _ Hp).
    + unfold generation in G. rewrite Hk in G. discriminate.
Qed.

(** ** Facts about the page *)

Section PageFacts.
Import PyStr Py Prompt Docx App Spec Page Views.

Lemma show_input_files_none (ui : Widgets) (l : list InputFile)
      (i : nat) (shown : list InputFile) :
  none_clicked ui DelInput i (List.length l) ->
  show_input_files ui i shown l = ((shown ++ shown_input_files ui i l)%list, false).
Proof.
  revert i shown. induction l as [|f l IH]; intros i shown H.
  - cbn. now rewrite app_nil_r.
  - cbn [show_input_files shown_input_files].
    rewrite (H i) by (cbn; lia).
    rewrite IH, <- app_assoc; [reflexivity|].
    intros j Hj. apply H. cbn. lia.
Qed.

Lemma show_sections_none (ui : Widgets) (l : list SectionSpec)
      (i : nat) (shown : list SectionSpec) :
  none_clicked ui DelSection i (List.length l) ->
  show_sections ui i shown l = ((shown ++ shown_sections ui i l)%list, false).
Proof.
  revert i shown. induction l as [|f l IH]; intros i shown H.
  - cbn. now rewrite app_nil_r.
  - cbn [show_sections shown_sections].
    rewrite (H i) by (cbn; lia).
    rewrite IH, <- app_assoc; [reflexivity|].
    intros j Hj. apply H. cbn. lia.
Qed.

Lemma show_input_files_deleted (ui : Widgets) (k : nat) (l : list InputFile)
      (i : nat) (shown : list InputFile) :
  none_clicked ui DelInput i k ->
  clicked ui (DelInput (i + k)) = true ->
  k < List.length l ->
  show_input_files ui i shown l
  = ((shown ++ shown_input_files ui i (firstn k l) ++ skipn (S k) l)%list, true).
Proof.
  revert l i shown. induction k as [|k IH]; intros l i shown Hn Hc Hk;
    (destruct l as [|f l]; [cbn in Hk; lia|]).
  - replace (i + 0) with i in Hc by lia.
    cbn [show_input_files firstn skipn shown_input_files app]. now rewrite Hc.
  - cbn [show_input_files firstn skipn shown_input_files].
    rewrite (Hn i) by lia.
    rewrite (IH l (S i)), <- app_assoc; [reflexivity| | |cbn in Hk; lia].
    + intros j Hj. apply Hn. lia.
    + now replace (S i + k) with (i + S k) by lia.
Qed.

Lemma show_sections_deleted (ui : Widgets) (k : nat) (l : list SectionSpec)
      (i : nat) (shown : list SectionSpec) :
  none_clicked ui DelSection i k ->
  clicked ui (DelSection (i + k)) = true ->
  k < List.length l ->
  show_sections ui i shown l
  = ((shown ++ shown_sections ui i (firstn k l) ++ skipn (S k) l)%list, true).
Proof.
  revert l i shown. induction k as [|k IH]; intros l i shown Hn Hc Hk;
    (destruct l as [|f l]; [cbn in Hk; lia|]).
  - replace (i + 0) with i in Hc by lia.
    cbn [show_sections firstn skipn shown_sections app]. now rewrite Hc.
  - cbn [show_sections firstn skipn shown_sections].
    rewrite (Hn i) by lia.
    rewrite (IH l (S i)), <- app_assoc; [reflexivity| | |cbn in Hk; lia].
    + intros j Hj. apply Hn. lia.
    + now replace (S i + k) with (i + S k) by lia.
Qed.

Lemma shown_input_files_length (ui : Widgets) (i : nat) (l : list InputFile) :
  List.length (shown_input_files ui i l) = List.length l.
Proof.
  revert i. induction l as [|f l IH]; intros i; [reflexivity|].
  cbn [shown_input_files List.length]. now rewrite IH.
Qed.

Lemma shown_sections_length (ui : Widgets) (i : nat) (l : list SectionSpec) :
  List.length (shown_sections ui i l) = List.length l.
Proof.
  revert i. induction l as [|f l IH]; intros i; [reflexivity|].
  cbn [shown_sections List.length]. now rewrite IH.
Qed.

(** The stored type of a row takes no part in what is shown. *)
Lemma shown_input_files_ext (ui : Widgets) (l l' : list InputFile) (i : nat) :
  map name l' = map name l ->
  map description l' = map description l ->
  shown_input_files ui i l' = shown_input_files ui i l.
Proof.
  revert l' i. induction l as [|f l IH]; intros [|f' l'] i Hn Hd;
    try discriminate; [reflexivity|].
  cbn [map] in Hn, Hd. injection Hn as Hn Hn'. injection Hd as Hd Hd'.
  cbn [shown_input_files]. rewrite (IH l' (S i) Hn' Hd').
  unfold shown_input_file. now rewrite Hn, Hd.
Qed.

Lemma shown_sections_ext (ui : Widgets) (l l' : list SectionSpec) (i : nat) :
  map App.title l' = map App.title l ->
  map goal l' = map goal l ->
  shown_sections ui i l' = shown_sections ui i l.
Proof.
  revert l' i. induction l as [|f l IH]; intros [|f' l'] i Hn Hd;
    try discriminate; [reflexivity|].
  cbn [map] in Hn, Hd. injection Hn as Hn Hn'. injection Hd as Hd Hd'.
  cbn [shown_sections]. rewrite (IH l' (S i) Hn' Hd').
  unfold shown_section. now rewrite Hn, Hd.
Qed.

Lemma shown_input_files_nth (ui : Widgets) (l : list InputFile)
      (i k : nat) (row : InputFile) :
  nth_error l k = Some row ->
  nth_error (shown_input_files ui i l) k = Some (shown_input_file ui (i + k) row).
Proof.
  revert i k. induction l as [|f l IH]; intros i [|k] H; try discriminate.
  - cbn in H. injection H as ->. cbn. now replace (i + 0) with i by lia.
  - cbn [shown_input_files nth_error] in *. rewrite (IH (S i) k H).
    now replace (S i + k) with (i + S k) by lia.
Qed.

End PageFacts.

Section PageRunFacts.
Import PyStr Py Prompt Docx App Spec Page Views.
Context {rt : Runtime}.

Lemma download_button_trace (state : Session) :
  trace (download_button state) = [].
Proof.
  unfold download_button.
  destruct (docx_file state); [destruct (file_name state)|]; reflexivity.
Qed.

Lemma finish_trace (ui : Widgets) (w : World) (master_context : string)
      (state : Session) :
  trace (finish ui w master_context state)
  = if clicked ui GenerateButton
    then trace (generate w master_context state)
    else [].
Proof.
  unfold finish. rewrite trace_bind.
  assert (T : forall st : Session,
             trace (download <- download_button st ;;
                    ret (st, download)) = []).
  { intros st. rewrite trace_bind, download_button_trace.
    now destruct (outcome (download_button st)). }
  destruct (clicked ui GenerateButton).
  - destruct (outcome (generate w master_context state));
      [rewrite T|]; now rewrite app_nil_r.
  - cbn [trace outcome fst snd ret]. now rewrite T.
Qed.

(** The end of the script, from a session whose document and name go
    together. *)
Lemma finish_paired (ui : Widgets) (w : World) (master_context : string)
      (state : Session) :
  paired state ->
  exists final download,
    outcome (finish ui w master_context state) = Ok (final, download)
    /\ paired final
    /\ (download = None <-> docx_file final = None)
    /\ (clicked ui GenerateButton = false -> final = state).
Proof.
  intros P. unfold finish. rewrite outcome_bind.
  assert (D : forall st : Session,
             paired st ->
             exists download,
               outcome (download <- download_button st ;;
                        ret (st, download))
               = Ok (st, download)
               /\ (download = None <-> docx_file st = None)).
  { intros st Q. unfold paired in Q. unfold download_button.
    destruct (docx_file st) as [data|]; [destruct (file_name st) as [name|]|].
    - eexists. split; [reflexivity|]. split; discriminate.
    - destruct Q as [_ Q]. now specialize (Q eq_refl).
    - eexists. split; [reflexivity|]. split; reflexivity. }
  assert (G : exists final,
             outcome (if clicked ui GenerateButton
                      then generate w master_context state
                      else ret state) = Ok final
             /\ paired final
             /\ (clicked ui GenerateButton = false -> final = state)).
  { destruct (clicked ui GenerateButton); [|now exists state].
    destruct (generate_ends w master_context state) as [E | (_ & built & B & E)].
    - exists state. repeat split; try exact E; try apply P; discriminate.
    - exists built. split; [exact E|].
      destruct (generation_stores w master_context state built B)
        as (first & more & processed & _ & _ & Hd & Hn).
      split; [|discriminate].
      unfold paired. rewrite Hd, Hn. split; discriminate. }
  destruct G as (final & -> & Q & K).
  destruct (D final Q) as (download & E & I).
  now exists final, download.
Qed.

End PageRunFacts.

(** ** Properties of the page *)

(** X15.  In a run in which no delete button is pressed, the two row loops
    keep the number of rows and leave in every row what its widgets handed
    back: the texts of the name and the description (or title and goal),
    given the stored ones as [value], and the choice of the select box.  The
    stored type of an input file and the stored format of a section are
    never read: rows that differ in them only are shown alike. *)
Theorem rows_take_widget_values
        (ui : Widgets) (files files' : list InputFile)
        (rows rows' : list SectionSpec) :
  none_clicked ui DelInput 0 (List.length files) ->
  none_clicked ui DelSection 0 (List.length rows) ->
  map name files' = map name files ->
  map description files' = map description files ->
  map App.title rows' = map App.title rows ->
  map goal rows' = map goal rows ->
  show_input_files ui 0 [] files = (shown_input_files ui 0 files, false)
  /\ List.length (shown_input_files ui 0 files) = List.length files
  /\ show_input_files ui 0 [] files' = show_input_files ui 0 [] files
  /\ show_sections ui 0 [] rows = (shown_sections ui 0 rows, false)
  /\ List.length (shown_sections ui 0 rows) = List.length rows
  /\ show_sections ui 0 [] rows' = show_sections ui 0 [] rows.
Proof.
  intros Hf Hr Hn Hd Ht Hg.
  assert (Lf : List.length files' = List.length files)
    by (rewrite <- (length_map name files'), Hn; apply length_map).
  assert (Lr : List.length rows' = List.length rows)
    by (rewrite <- (length_map App.title rows'), Ht; apply length_map).
  rewrite (show_input_files_none ui files 0 [] Hf).
  rewrite (show_sections_none ui rows 0 [] Hr).
  rewrite <- Lf in Hf. rewrite <- Lr in Hr.
  rewrite (show_input_files_none ui files' 0 [] Hf).
  rewrite (show_sections_none ui rows' 0 [] Hr).
  cbn [app]. rewrite shown_input_files_length, shown_sections_length.
  rewrite (shown_input_files_ext ui files files' 0 Hn Hd).
  rewrite (shown_sections_ext ui rows rows' 0 Ht Hg).
  repeat split.
Qed.

(** X16.  The first pressed delete button removes its own row and no
    other, and asks for a rerun: the rows before it are left as the widgets
    showed them, the rows after it are left as they were stored, and the list
    is one row shorter.  This holds for the input files and for the
    sections. *)
Theorem delete_removes_one_row
        (ui : Widgets) (files : list InputFile) (rows : list SectionSpec)
        (k : nat) :
  (none_clicked ui DelInput 0 k ->
   clicked ui (DelInput k) = true ->
   k < List.length files ->
   show_input_files ui 0 [] files
   = ((shown_input_files ui 0 (firstn k files) ++ skipn (S k) files)%list, true)
   /\ S (List.length (fst (show_input_files ui 0 [] files))) = List.length files)
  /\ (none_clicked ui DelSection 0 k ->
      clicked ui (DelSection k) = true ->
      k < List.length rows ->
      show_sections ui 0 [] rows
      = ((shown_sections ui 0 (firstn k rows) ++ skipn (S k) rows)%list, true)
      /\ S (List.length (fst (show_sections ui 0 [] rows))) = List.length rows).
Proof.
  split; intros Hn Hc Hk.
  - rewrite (show_input_files_deleted ui k files 0 [] Hn Hc Hk).
    split; [reflexivity|]. cbn [fst app].
    rewrite length_app, shown_input_files_length, length_firstn, length_skipn. lia.
  - rewrite (show_sections_deleted ui k rows 0 [] Hn Hc Hk).
    split; [reflexivity|]. cbn [fst app].
    rewrite length_app, shown_sections_length, length_firstn, length_skipn. lia.
Qed.

(** X18.  When the loop over the input files has run without a delete and
    the name widget of one of its rows handed back a blank text, a press of
    the button that generates, with a master context that is not blank,
    shows the warning about the names and nothing else: no request is sent
    and the session is left as it is.  A row as the add button appends it,
    not filled in since, is such a row. *)
Theorem blank_name_blocks_generation {rt : Runtime}
        (ui : Widgets) (w : World) (master_context : string)
        (files : list InputFile) (rows : list SectionSpec)
        (document : option BytesIO) (stored_name : option string)
        (k : nat) (row : InputFile) :
  none_clicked ui DelInput 0 (List.length files) ->
  clicked ui GenerateButton = true ->
  all_space master_context = false ->
  nth_error files k = Some row ->
  all_space (text ui (InputName k) (name row)) = true ->
  let state := {| input_files := fst (show_input_files ui 0 [] files);
                  sections := rows;
                  docx_file := document;
                  file_name := stored_name |} in
  generate w master_context state
  = ([StWarning "Please provide names for all input files."], Ok state)
  /\ trace (finish ui w master_context state)
     = [StWarning "Please provide names for all input files."].
Proof.
  intros Hq Hg Hm Hk Hb state.
  assert (G : generate w master_context state
              = ([StWarning "Please provide names for all input files."], Ok state)).
  { pose proof (shown_input_files_nth ui _ 0 k row Hk) as Hs.
    assert (Hi : input_files state = shown_input_files ui 0 files).
    { unfold state. cbn [input_files].
      now rewrite (show_input_files_none ui files 0 [] Hq). }
    assert (Hx : existsb (fun input_file => blank (name input_file))
                         (input_files state) = true).
    { rewrite Hi. apply existsb_exists.
      exists (shown_input_file ui (0 + k) row). split.
      - eapply nth_error_In. exact Hs.
      - rewrite blank_all_space. exact Hb. }
    unfold generate. rewrite blank_all_space, Hm.
    destruct (input_files state) as [|f fs]; [discriminate Hx|].
    now rewrite Hx. }
  split; [exact G|].
  now rewrite finish_trace, Hg, G.
Qed.

(** X19.  When the document and its name are both in the session state or
    both missing, the end of the script, from the button that generates to
    the one that downloads, runs without an exception whatever the widgets,
    the secrets and the endpoint do; the document and the name are again
    both there or both missing, the download is offered exactly when there
    is a document, and the session state is left as it is when the button
    that generates is not pressed. *)
Theorem page_keeps_document_and_name_together {rt : Runtime}
        (ui : Widgets) (w : World) (master_context : string) (state : Session) :
  paired state ->
  exists final download,
    outcome (finish ui w master_context state) = Ok (final, download)
    /\ paired final
    /\ (download = None <-> docx_file final = None)
    /\ (clicked ui GenerateButton = false -> final = state).
Proof.
  exact (finish_paired ui w master_context state).
Qed.

(* ================================================================= *)
(** * The further properties on sample inputs *)

Section MoreSamples.
Import Examples PageExamples.
#[local] Existing Instance JsonText.reference.

(** ** X3 *)

Lemma format_comment_string_ends_sample :
  (outcome (format_comment_string "not json") = Ok None
   <-> json_loads "not json" = JSONDecodeError)
  /\ outcome (format_comment_string "not json") = Ok None
  /\ (json_loads long_integer_reply = Raised (JsonText.too_many_digits 4300 4301)
      /\ format_comment_string long_integer_reply
         = ([], Raise (JsonText.too_many_digits 4300 4301)))
  /\ exists e,
       outcome (format_comment_string "[1, 2]") = Raise e
       /\ trace (format_comment_string "[1, 2]") = []
       /\ (json_loads "[1, 2]" = Raised e
           \/ exists v, (json_loads "[1, 2]" = Decoded v /\ e = no_attribute v "get")
                        \/ ((exists d, json_loads "[1, 2]" = Decoded (JObj d))
                            /\ e = no_attribute v "replace")).
Proof.
  split; [exact (proj1 (format_comment_string_ends "not json"))|].
  split; [reflexivity|].
  split.
  - assert (H : json_loads long_integer_reply
                = Raised (JsonText.too_many_digits 4300 4301))
      by (vm_compute; reflexivity).
    split; [exact H|].
    exact (proj1 (proj2 (proj2 (format_comment_string_ends long_integer_reply))) _ H).
  - eexists. split; [vm_compute; reflexivity|].
    apply (proj2 (proj2 (proj2 (format_comment_string_ends "[1, 2]")))).
    vm_compute. reflexivity.
Defined.

(** ** X4 *)

Lemma format_comment_string_reads_five_keys_sample :
  json_loads reply_type_only = Decoded (JObj [("type", JStr "text")])
  /\ json_loads reply_with_note
     = Decoded (JObj [("type", JStr "text"); ("note", JStr "draft")])
  /\ format_comment_string reply_type_only = format_comment_string reply_with_note.
Proof.
  assert (H1 : json_loads reply_type_only = Decoded (JObj [("type", JStr "text")]))
    by (vm_compute; reflexivity).
  assert (H2 : json_loads reply_with_note
               = Decoded (JObj [("type", JStr "text"); ("note", JStr "draft")]))
    by (vm_compute; reflexivity).
  split; [exact H1|]. split; [exact H2|].
  apply (format_comment_string_reads_five_keys _ _ _ _ H1 H2).
  repeat constructor.
Defined.

(** ** X5 *)

Lemma plain_prompt_is_kept_sample :
  json_loads reply_plain = Decoded (JObj [("prompt", JStr "*Role:* Analyst")])
  /\ exists block,
       format_comment_string reply_plain = ([], Ok (Some block))
       /\ nth_error (lines block) 2 = Some "prompt - *Role:* Analyst".
Proof.
  assert (H : json_loads reply_plain
              = Decoded (JObj [("prompt", JStr "*Role:* Analyst")]))
    by (vm_compute; reflexivity).
  split; [exact H|]. eexists. split.
  - apply (plain_prompt_is_kept reply_plain _ "*Role:* Analyst" H);
      reflexivity.
  - vm_compute. reflexivity.
Defined.

(** ** X6 *)

Lemma line_feed_and_its_escape_collide_sample :
  has_char CR "A" = false
  /\ "A" ++ lf ++ "B" <> "A\nB"
  /\ escaped_prompt ("A" ++ lf ++ "B") = "A\nB"
  /\ escaped_prompt "A\nB" = "A\nB".
Proof.
  destruct (line_feed_and_its_escape_collide "A" "B" eq_refl) as [N E].
  split; [reflexivity|]. split; [exact N|].
  split; [rewrite E|]; vm_compute; reflexivity.
Defined.

(** ** X9 *)

Lemma refused_request_ends_run_sample :
  complete context (session [summary; risks]) = true
  /\ completion (refusing (RateLimitError "Error code: 429")) 1
                (prompt_for context [transcript] risks)
     = Raise (RateLimitError "Error code: 429")
  /\ outcome (generate (refusing (RateLimitError "Error code: 429")) context
                       (session [summary; risks]))
     = Ok (session [summary; risks])
  /\ List.length
       (model_calls
          (trace (generate (refusing (RateLimitError "Error code: 429")) context
                           (session [summary; risks]))))
     = 2
  /\ last (trace (generate (refusing (RateLimitError "Error code: 429")) context
                           (session [summary; risks])))
          (StInfo "")
     = StError "Rate limit exceeded. Please wait a moment and try again.".
Proof.
  assert (Hc : complete context (session [summary; risks]) = true)
    by (vm_compute; reflexivity).
  split; [exact Hc|]. split; [reflexivity|].
  destruct (refused_request_ends_run
              (refusing (RateLimitError "Error code: 429")) context "sk-test"
              (session [summary; risks]) [summary] [] risks
              [ {| Docx.title := "Executive Summary & Key Themes";
                   comment_string :=
                     Some (block_of
                             [ ("type", JStr "text"); ("sub_type", JStr "freeform");
                               ("prompt", JStr ("**Role:** You are an expert."
                                                ++ crlf ++ "*Task:* Summarise."));
                               ("include_screenshots", JStr "no");
                               ("screenshot_instructions", JStr "none") ]
                             "*Role:* You are an expert.\n*Task:* Summarise.") |} ]
              (RateLimitError "Error code: 429") Hc eq_refl eq_refl)
    as (O & T & N).
  - vm_compute. reflexivity.
  - reflexivity.
  - split; [exact O|]. split; [exact N|]. rewrite T. apply last_last.
Defined.

(** ** X10 *)

Lemma missing_secret_sends_nothing_sample :
  complete context (session [summary]) = true
  /\ generate no_secret context (session [summary])
     = ([ StError "An error occurred: 'OPENAI_API_KEY'";
          StInfo "Tip: Make sure your OpenAI API key is correctly set in the secrets.toml file." ],
        Ok (session [summary])).
Proof.
  assert (Hc : complete context (session [summary]) = true)
    by (vm_compute; reflexivity).
  split; [exact Hc|].
  exact (missing_secret_sends_nothing no_secret context (session [summary])
           (KeyError "'OPENAI_API_KEY'") Hc eq_refl).
Defined.

(** ** X12 *)

Lemma requests_follow_sections_sample :
  complete context (session []) = false
  /\ model_calls (trace (generate (scripted [Ok reply_bold]) context (session []))) = []
  /\ model_calls (trace (generate no_secret context (session [summary]))) = [].
Proof.
  assert (Hc : complete context (session []) = false) by reflexivity.
  split; [exact Hc|]. split.
  - exact (proj1 (proj2 (requests_follow_sections (scripted [Ok reply_bold])
                           context (session []))) Hc).
  - exact (proj2 (proj2 (requests_follow_sections no_secret context
                           (session [summary])))
                 (KeyError "'OPENAI_API_KEY'") eq_refl).
Defined.

(** ** X13 and X14 *)

Lemma usable_replies_complete_the_loop_sample :
  exists processed,
    outcome (process_sections (scripted [Ok "not json"; Ok reply_type_only])
                              context [transcript] 2 0 [summary; risks] [])
    = Ok processed
    /\ map Docx.title processed = ["Executive Summary & Key Themes"; "Risks"]
    /\ List.length (model_calls
                      (trace (process_sections
                                (scripted [Ok "not json"; Ok reply_type_only])
                                context [transcript] 2 0 [summary; risks] [])))
       = 2.
Proof.
  destruct (usable_replies_complete_the_loop
              (scripted [Ok "not json"; Ok reply_type_only]) context
              [transcript] 2 [summary; risks])
    as (processed & O & T & C).
  - intros [|[|i]] section H; cbn in H.
    + injection H as <-.
      exists "not json". split; [reflexivity|]. left. vm_compute. reflexivity.
    + injection H as <-.
      exists reply_type_only. split; [reflexivity|]. right.
      exists [("type", JStr "text")], "". split; vm_compute; reflexivity.
    + destruct i; discriminate.
  - exists processed. split; [exact O|]. split; [exact T|].
    rewrite C. reflexivity.
Defined.

Lemma stored_document_follows_form_sample :
  exists built,
    outcome (generate (scripted [Ok "not json"; Ok reply_type_only]) context
                      (session [summary; risks]))
    = Ok built
    /\ built <> session [summary; risks]
    /\ exists processed,
         docx_file built = Some {| saved := build processed; position := 0 |}
         /\ map paragraph_text (paragraphs (build processed))
            = ["Executive Summary & Key Themes"; "Risks"].
Proof.
  eexists. split; [vm_compute; reflexivity|]. split; [discriminate|].
  match goal with
  | |- exists processed, docx_file ?built = _ /\ _ =>
      destruct (stored_document_follows_form
                  (scripted [Ok "not json"; Ok reply_type_only]) context
                  (session [summary; risks]) built)
        as [E | (processed & D & T & _)]
  end.
  - vm_compute. reflexivity.
  - discriminate.
  - exists processed. split; [exact D | exact T].
Defined.

(** ** X15 *)

Lemma rows_take_widget_values_sample :
  show_input_files untouched 0 [] [transcript; blank_input_file]
  = ([transcript;
      {| name := ""; type := "PDF"; description := "" |}], false)
  /\ show_input_files untouched 0 []
       [transcript; {| name := ""; type := "CSV"; description := "" |}]
     = show_input_files untouched 0 [] [transcript; blank_input_file].
Proof.
  destruct (rows_take_widget_values untouched
              [transcript; blank_input_file]
              [transcript; {| name := ""; type := "CSV"; description := "" |}]
              [summary] [summary])
    as (S & _ & I & _); try reflexivity; try (intros j Hj; reflexivity).
  split; [exact S | exact I].
Defined.

(** ** X16 *)

Lemma delete_removes_one_row_sample :
  clicked (pressing (DelInput 0)) (DelInput 0) = true
  /\ show_input_files (pressing (DelInput 0)) 0 [] [transcript; second_file]
     = ([second_file], true).
Proof.
  split; [reflexivity|].
  apply (proj1 (delete_removes_one_row (pressing (DelInput 0))
                  [transcript; second_file] [] 0)).
  - intros j Hj. lia.
  - reflexivity.
  - cbn. lia.
Defined.

(** ** X18 *)

Lemma blank_name_blocks_generation_sample :
  nth_error [transcript; blank_input_file] 1 = Some blank_input_file
  /\ generate (scripted [Ok reply_bold]) context with_blank_row
     = ([StWarning "Please provide names for all input files."], Ok with_blank_row)
  /\ trace (finish (pressing GenerateButton) (scripted [Ok reply_bold])
                   context with_blank_row)
     = [StWarning "Please provide names for all input files."].
Proof.
  split; [reflexivity|].
  assert (Q : none_clicked (pressing GenerateButton) DelInput 0
                           (List.length [transcript; blank_input_file]))
    by (intros j Hj; reflexivity).
  exact (blank_name_blocks_generation (pressing GenerateButton)
           (scripted [Ok reply_bold]) context
           [transcript; blank_input_file]
           (fst (show_sections untouched 0 [] [summary])) None None
           1 blank_input_file Q eq_refl eq_refl eq_refl eq_refl).
Defined.

(** ** X19 *)

Lemma page_keeps_document_and_name_together_sample :
  paired (session [summary])
  /\ exists final download,
       outcome (finish (pressing GenerateButton) (scripted [Ok reply_bold])
                       context (session [summary]))
       = Ok (final, download)
       /\ paired final
       /\ (download = None <-> docx_file final = None).
Proof.
  assert (P : paired (session [summary])) by (split; reflexivity).
  split; [exact P|].
  destruct (page_keeps_document_and_name_together (pressing GenerateButton)
              (scripted [Ok reply_bold]) context (session [summary]) P)
    as (final & download & O & Q & I & _).
  now exists final, download.
Defined.

End MoreSamples.
